(** * GCbias: the sorted merge-join of [estDAF.c] and [makeDFE-alpha.c]

    A shallow embedding of the two C programs of the repository.  Integers
    of the programs ([int] positions, chromosomes and counters, and the
    [double] counters of the site-frequency spectrum, which only ever hold
    small whole numbers) are modelled as [Z] without wrap-around; text is
    modelled with [string]; a dereference of a null or unallocated pointer,
    and a read behind the terminator of a token, make a run undefined, which
    the model renders as [None]. *)

From Stdlib Require Import ZArith List String Ascii Bool Lia SpecFloat Sorted.
Import ListNotations.

Local Open Scope Z_scope.

(** ** A small error monad for runs that can hit undefined behaviour *)

Definition bind {A B : Type} (o : option A) (k : A -> option B) : option B :=
  match o with
  | Some a => k a
  | None => None
  end.

Notation "x <- e ;; k" := (bind e (fun x => k))
  (at level 61, e at next level, right associativity).

(** C's short-circuit conjunction, when the right operand may be undefined. *)
Definition c_and (b : bool) (k : option bool) : option bool :=
  if b then k else Some false.

(** ** The C library routines the programs call *)

Module CLib.

Definition TAB : ascii := "009"%char.
Definition LF : ascii := "010"%char.
Definition CR : ascii := "013"%char.
Definition NUL : ascii := "000"%char.

Definition isdigit (c : ascii) : bool :=
  let n := N_of_ascii c in (48 <=? n)%N && (n <=? 57)%N.

Definition isspace (c : ascii) : bool :=
  let n := N_of_ascii c in (n =? 32)%N || ((9 <=? n)%N && (n <=? 13)%N).

Definition digit_val (c : ascii) : Z := Z.of_N (N_of_ascii c) - 48.

Fixpoint digits (s : string) (acc : Z) : Z :=
  match s with
  | EmptyString => acc
  | String c r => if isdigit c then digits r (10 * acc + digit_val c) else acc
  end.

Fixpoint skip_space (s : string) : string :=
  match s with
  | EmptyString => EmptyString
  | String c r => if isspace c then skip_space r else s
  end.

(** [atoi]: leading white space, an optional sign, then the longest run of
    decimal digits; 0 when there is none. *)
Definition atoi (s : string) : Z :=
  match skip_space s with
  | String c r =>
      if Ascii.eqb c "-" then - digits r 0
      else if Ascii.eqb c "+" then digits r 0
      else digits (String c r) 0
  | EmptyString => 0
  end.

(** [lineTerminator] overwrites every line feed and carriage return with a
    terminator, so the C string that remains is the prefix before the first
    of them. *)
Fixpoint lineTerminator (line : string) : string :=
  match line with
  | EmptyString => EmptyString
  | String c r =>
      if Ascii.eqb c LF || Ascii.eqb c CR then EmptyString
      else String c (lineTerminator r)
  end.

(** All the fields of a line between tabulators, empty ones included. *)
Fixpoint fields (s : string) : list string :=
  match s with
  | EmptyString => [EmptyString]
  | String c r =>
      if Ascii.eqb c TAB then EmptyString :: fields r
      else match fields r with
           | f :: fs => String c f :: fs
           | [] => [String c EmptyString]
           end
  end.

(** The successive results of [strtok(line, "\t")], [strtok(NULL, "\t")],
    ... until it returns [NULL]: [strtok] skips runs of delimiters, so the
    tokens are the non-empty fields. *)
Definition strtok_all (s : string) : list string :=
  filter (fun f => negb (String.eqb f EmptyString)) (fields s).

(** [temp[k]] for a token [temp]: a character of the token, its terminator
    when [k] is the length, and otherwise a byte that is not part of the
    token, which the model leaves undefined. *)
Definition tchar (temp : string) (k : nat) : option ascii :=
  match String.get k temp with
  | Some c => Some c
  | None => if Nat.eqb k (String.length temp) then Some NUL else None
  end.

End CLib.

Import CLib.

(** ** Records of the tables *)

(** [Site_s], the same in both programs. *)
Record Site_s := mkSite {
  s_chr : Z;
  s_pos : Z;
  s_ref : ascii;
  s_alt : ascii
}.

(** The value line 305 of [estDAF.c] computes: both [int] counters are
    converted to [double] and divided, in IEEE 754 binary64. *)
Definition double_of_int (z : Z) : spec_float :=
  binary_normalize 53 1024 z 0 false.

Definition double_div (x y : spec_float) : spec_float := SFdiv 53 1024 x y.

(** ** estDAF.c *)

Module EstDAF.

Record Region_s := mkRegion {
  r_chr : Z;
  r_start : Z;
  r_stop : Z;
  r_id : string
}.

(** *** The loaders *)

(** One iteration of the [getline] loop of [readGenes]: [strncpy] keeps at
    most 49 characters of the name. *)
Definition readGenes_line (line : string) : option Region_s :=
  match strtok_all (lineTerminator line) with
  | id :: c :: s :: e :: _ =>
      Some {| r_id := substring 0 49 id; r_chr := atoi c;
              r_start := atoi s; r_stop := atoi e |}
  | _ => None
  end.

Fixpoint readGenes_loop (lines : list string) (lst : list Region_s)
  : option (list Region_s) :=
  match lines with
  | [] => Some lst
  | line :: rest =>
      r <- readGenes_line line ;;
      readGenes_loop rest (lst ++ [r])
  end.

Definition readGenes (lines : list string) : option (list Region_s) :=
  readGenes_loop lines [].

(** One iteration of the loop of [readCoord]: [Some None] is a line that
    is passed over ([*n] is not incremented, so the slot just written is
    written again by the next line). The [id] of a coordinate block is
    never written nor read. *)
Definition readCoord_line (line : string) : option (option Region_s) :=
  let toks := strtok_all (lineTerminator line) in
  start <- nth_error toks 0 ;;
  stop <- nth_error toks 1 ;;
  temp <- nth_error toks 7 ;;
  c0 <- tchar temp 0 ;;
  if isdigit c0
  then Some (Some {| r_start := atoi start; r_stop := atoi stop;
                     r_chr := atoi temp; r_id := EmptyString |})
  else Some None.

Fixpoint readCoord_loop (lines : list string) (lst : list Region_s)
  : option (list Region_s) :=
  match lines with
  | [] => Some lst
  | line :: rest =>
      r <- readCoord_line line ;;
      match r with
      | Some rec => readCoord_loop rest (lst ++ [rec])
      | None => readCoord_loop rest lst
      end
  end.

Definition readCoord (lines : list string) : option (list Region_s) :=
  readCoord_loop lines [].

(** One iteration of the loop of [readDiv]: position, reference and
    alternate allele are the first three tokens, and six more calls of
    [strtok] leave [temp] on the ninth. *)
Definition readDiv_line (line : string) : option (option Site_s) :=
  let toks := strtok_all (lineTerminator line) in
  p <- nth_error toks 0 ;;
  t1 <- nth_error toks 1 ;;
  r <- tchar t1 0 ;;
  t2 <- nth_error toks 2 ;;
  a <- tchar t2 0 ;;
  temp <- nth_error toks 8 ;;
  c0 <- tchar temp 0 ;;
  if isdigit c0
  then Some (Some {| s_pos := atoi p; s_ref := r; s_alt := a;
                     s_chr := atoi temp |})
  else Some None.

Fixpoint readDiv_loop (lines : list string) (lst : list Site_s)
  : option (list Site_s) :=
  match lines with
  | [] => Some lst
  | line :: rest =>
      r <- readDiv_line line ;;
      match r with
      | Some rec => readDiv_loop rest (lst ++ [rec])
      | None => readDiv_loop rest lst
      end
  end.

Definition readDiv (lines : list string) : option (list Site_s) :=
  readDiv_loop lines [].

(** *** readVcf *)

(** What [readVcf] prints on standard output and on standard error. *)
Inductive out_line :=
| OutHeader
| OutRow (gene : string) (daf : spec_float) (nSites : Z).

Inductive err_line :=
| RefWarning (chr pos : Z).

(** The local variables of [readVcf], with the two output streams. [gene]
    points into the gene table, which is never written, so the name it
    points to stands for it; [ok] and [rd] only hold 0 and 1. *)
Record vcf_state := mkVcf {
  chr : Z;
  pos : Z;
  gene_i : nat;
  coord_i : nat;
  div_i : nat;
  ok : bool;
  rd : bool;
  da_i : Z;
  a_i : Z;
  s_i : Z;
  ref : ascii;
  alt : ascii;
  gene : option string;
  out : list out_line;
  err : list err_line
}.

Definition init_state : vcf_state :=
  mkVcf 0 0 0 0 0 false false 0 0 0 NUL NUL None [] [].

Definition set_chr (v : Z) (st : vcf_state) : vcf_state :=
  mkVcf v (pos st) (gene_i st) (coord_i st) (div_i st) (ok st) (rd st)
        (da_i st) (a_i st) (s_i st) (ref st) (alt st) (gene st) (out st) (err st).

Definition set_pos (v : Z) (st : vcf_state) : vcf_state :=
  mkVcf (chr st) v (gene_i st) (coord_i st) (div_i st) (ok st) (rd st)
        (da_i st) (a_i st) (s_i st) (ref st) (alt st) (gene st) (out st) (err st).

Definition set_gene_i (v : nat) (st : vcf_state) : vcf_state :=
  mkVcf (chr st) (pos st) v (coord_i st) (div_i st) (ok st) (rd st)
        (da_i st) (a_i st) (s_i st) (ref st) (alt st) (gene st) (out st) (err st).

Definition set_coord_i (v : nat) (st : vcf_state) : vcf_state :=
  mkVcf (chr st) (pos st) (gene_i st) v (div_i st) (ok st) (rd st)
        (da_i st) (a_i st) (s_i st) (ref st) (alt st) (gene st) (out st) (err st).

Definition set_div_i (v : nat) (st : vcf_state) : vcf_state :=
  mkVcf (chr st) (pos st) (gene_i st) (coord_i st) v (ok st) (rd st)
        (da_i st) (a_i st) (s_i st) (ref st) (alt st) (gene st) (out st) (err st).

Definition set_ok (v : bool) (st : vcf_state) : vcf_state :=
  mkVcf (chr st) (pos st) (gene_i st) (coord_i st) (div_i st) v (rd st)
        (da_i st) (a_i st) (s_i st) (ref st) (alt st) (gene st) (out st) (err st).

Definition set_rd (v : bool) (st : vcf_state) : vcf_state :=
  mkVcf (chr st) (pos st) (gene_i st) (coord_i st) (div_i st) (ok st) v
        (da_i st) (a_i st) (s_i st) (ref st) (alt st) (gene st) (out st) (err st).

Definition set_da_i (v : Z) (st : vcf_state) : vcf_state :=
  mkVcf (chr st) (pos st) (gene_i st) (coord_i st) (div_i st) (ok st) (rd st)
        v (a_i st) (s_i st) (ref st) (alt st) (gene st) (out st) (err st).

Definition set_a_i (v : Z) (st : vcf_state) : vcf_state :=
  mkVcf (chr st) (pos st) (gene_i st) (coord_i st) (div_i st) (ok st) (rd st)
        (da_i st) v (s_i st) (ref st) (alt st) (gene st) (out st) (err st).

Definition set_s_i (v : Z) (st : vcf_state) : vcf_state :=
  mkVcf (chr st) (pos st) (gene_i st) (coord_i st) (div_i st) (ok st) (rd st)
        (da_i st) (a_i st) v (ref st) (alt st) (gene st) (out st) (err st).

Definition set_ref (v : ascii) (st : vcf_state) : vcf_state :=
  mkVcf (chr st) (pos st) (gene_i st) (coord_i st) (div_i st) (ok st) (rd st)
        (da_i st) (a_i st) (s_i st) v (alt st) (gene st) (out st) (err st).

Definition set_alt (v : ascii) (st : vcf_state) : vcf_state :=
  mkVcf (chr st) (pos st) (gene_i st) (coord_i st) (div_i st) (ok st) (rd st)
        (da_i st) (a_i st) (s_i st) (ref st) v (gene st) (out st) (err st).

Definition set_gene (v : option string) (st : vcf_state) : vcf_state :=
  mkVcf (chr st) (pos st) (gene_i st) (coord_i st) (div_i st) (ok st) (rd st)
        (da_i st) (a_i st) (s_i st) (ref st) (alt st) v (out st) (err st).

Definition print (l : out_line) (st : vcf_state) : vcf_state :=
  mkVcf (chr st) (pos st) (gene_i st) (coord_i st) (div_i st) (ok st) (rd st)
        (da_i st) (a_i st) (s_i st) (ref st) (alt st) (gene st)
        (out st ++ [l]) (err st).

Definition warn (l : err_line) (st : vcf_state) : vcf_state :=
  mkVcf (chr st) (pos st) (gene_i st) (coord_i st) (div_i st) (ok st) (rd st)
        (da_i st) (a_i st) (s_i st) (ref st) (alt st) (gene st)
        (out st) (err st ++ [l]).

(** Lines 312-324: the loop over the divergence table, entered with the
    records from [div_i] on. *)
Fixpoint div_loop (dv : list Site_s) (st : vcf_state) : vcf_state :=
  match dv with
  | [] => st
  | d :: dv' =>
      if chr st =? s_chr d then
        if pos st =? s_pos d then set_rd true st
        else if pos st <? s_pos d then st
        else div_loop dv' (set_div_i (S (div_i st)) st)
      else if chr st <? s_chr d then st
      else div_loop dv' (set_div_i (S (div_i st)) st)
  end.

(** Lines 300-311: the first gene prints the header of the table; a gene
    with another name prints the row of the gene before it and sets the
    three counters back. *)
Definition gene_change (id : string) (st : vcf_state) : vcf_state :=
  match gene st with
  | None => print OutHeader (set_gene (Some id) st)
  | Some g =>
      if negb (String.eqb g id) then
        let daf := double_div (double_of_int (da_i st)) (double_of_int (a_i st)) in
        let st1 := print (OutRow g daf (s_i st)) st in
        set_gene (Some id) (set_s_i 0 (set_a_i 0 (set_da_i 0 st1)))
      else st
  end.

(** Lines 297-334: the loop over the coordinate blocks, for the gene [g]
    that holds the position. *)
Fixpoint coord_loop (g : Region_s) (div : list Site_s) (cs : list Region_s)
  (st : vcf_state) : vcf_state :=
  match cs with
  | [] => st
  | c :: cs' =>
      if chr st =? r_chr c then
        if (pos st <=? r_stop c) && (pos st >=? r_start c) then
          let st1 := gene_change (r_id g) st in
          let st2 := div_loop (skipn (div_i st1) div) st1 in
          set_ok true st2
        else if pos st <? r_start c then st
        else coord_loop g div cs' (set_coord_i (S (coord_i st)) st)
      else if chr st <? r_chr c then st
      else coord_loop g div cs' (set_coord_i (S (coord_i st)) st)
  end.

(** Lines 294-343: the loop over the genes. *)
Fixpoint gene_loop (coords : list Region_s) (div : list Site_s)
  (gs : list Region_s) (st : vcf_state) : vcf_state :=
  match gs with
  | [] => st
  | g :: gs' =>
      if chr st =? r_chr g then
        if (pos st <=? r_stop g) && (pos st >=? r_start g) then
          coord_loop g div (skipn (coord_i st) coords) st
        else if pos st <? r_start g then st
        else gene_loop coords div gs' (set_gene_i (S (gene_i st)) st)
      else if chr st <? r_chr g then st
      else gene_loop coords div gs' (set_gene_i (S (gene_i st)) st)
  end.

(** Lines 358-388: the value of [ok] after the block guarded by
    [gc != 0]. *)
Definition classify (gc : Z) (rd : bool) (ref alt : ascii) : bool :=
  if gc =? 3 then
    (Ascii.eqb ref "G" && Ascii.eqb alt "C") || (Ascii.eqb ref "C" && Ascii.eqb alt "G")
  else if gc =? 4 then
    (Ascii.eqb ref "A" && Ascii.eqb alt "T") || (Ascii.eqb ref "T" && Ascii.eqb alt "A")
  else if gc =? 5 then
    if (Ascii.eqb ref "G" && Ascii.eqb alt "C") || (Ascii.eqb ref "C" && Ascii.eqb alt "G") then true
    else (Ascii.eqb ref "A" && Ascii.eqb alt "T") || (Ascii.eqb ref "T" && Ascii.eqb alt "A")
  else if negb rd then
    if (gc =? 1) && (Ascii.eqb ref "A" || Ascii.eqb ref "T") && (Ascii.eqb alt "G" || Ascii.eqb alt "C")
    then true
    else (gc =? 2) && (Ascii.eqb ref "G" || Ascii.eqb ref "C") && (Ascii.eqb alt "A" || Ascii.eqb alt "T")
  else
    if (gc =? 1) && (Ascii.eqb ref "G" || Ascii.eqb ref "C") && (Ascii.eqb alt "A" || Ascii.eqb alt "T")
    then true
    else (gc =? 2) && (Ascii.eqb ref "A" || Ascii.eqb ref "T") && (Ascii.eqb alt "G" || Ascii.eqb alt "C").

(** Lines 390-397: one genotype column. *)
Definition genotype (temp : string) (st : vcf_state) : option vcf_state :=
  t0 <- tchar temp 0 ;;
  d1 <- c_and (rd st)
          (c_and (Ascii.eqb t0 "0")
             (t2 <- tchar temp 2 ;; Some (Ascii.eqb t2 "0"))) ;;
  d2 <- (if d1 then Some false
         else c_and (negb (rd st))
                (c_and (Ascii.eqb t0 "1")
                   (t2 <- tchar temp 2 ;; Some (Ascii.eqb t2 "1")))) ;;
  let st1 := if d1 || d2 then set_da_i (da_i st + 1) st else st in
  callable <- c_and (negb (Ascii.eqb t0 "."))
                (t2 <- tchar temp 2 ;; Some (negb (Ascii.eqb t2 "."))) ;;
  Some (if callable then set_a_i (a_i st1 + 1) st1 else st1).

(** Lines 291-343: what column 2 does with the position [p] it reads. *)
Definition position (genes coords : list Region_s) (div : list Site_s)
  (p : Z) (st : vcf_state) : vcf_state :=
  let st1 := set_rd false (set_ok false (set_pos p st)) in
  gene_loop coords div (skipn (gene_i st1) genes) st1.

(** The body of the loop over the tokens of a line, for the token [temp]
    in column [i]: [(true, st)] when the body leaves the loop by [break]. *)
Definition column (genes coords : list Region_s) (div : list Site_s) (gc : Z)
  (i : nat) (temp : string) (st : vcf_state) : option (bool * vcf_state) :=
  if Nat.eqb i 2 then
    let st2 := position genes coords div (atoi temp) st in
    Some (negb (ok st2), st2)
  else if Nat.eqb i 4 then
    c <- tchar temp 0 ;;
    let st1 := set_ref c st in
    if rd st1 then
      d <- nth_error div (div_i st1) ;;
      if negb (Ascii.eqb (ref st1) (s_ref d))
      then Some (true, warn (RefWarning (chr st1) (pos st1)) st1)
      else Some (false, st1)
    else Some (false, st1)
  else if Nat.eqb i 5 then
    c <- tchar temp 0 ;;
    let st1 := set_alt c st in
    mismatch <- (if rd st1
                 then d <- nth_error div (div_i st1) ;;
                      Some (negb (Ascii.eqb (alt st1) (s_alt d)))
                 else Some false) ;;
    if mismatch then Some (true, st1)
    else if negb (gc =? 0) then
      let st2 := set_ok (classify gc (rd st1) (ref st1) (alt st1)) st1 in
      Some (negb (ok st2), st2)
    else Some (false, st1)
  else if Nat.ltb 9 i then
    st1 <- genotype temp st ;;
    Some (false, st1)
  else Some (false, st).

(** Lines 289-402: the loop over the tokens; [s_i] counts the lines that
    reach their last token. *)
Fixpoint token_loop (genes coords : list Region_s) (div : list Site_s) (gc : Z)
  (toks : list string) (i : nat) (st : vcf_state) : option vcf_state :=
  match toks with
  | [] => Some st
  | temp :: rest =>
      r <- column genes coords div gc i temp st ;;
      let '(brk, st1) := r in
      if brk then Some st1
      else match rest with
           | [] => Some (set_s_i (s_i st1 + 1) st1)
           | _ :: _ => token_loop genes coords div gc rest (S i) st1
           end
  end.

(** Lines 284-403: one line of the variant file. *)
Definition vcf_line (genes coords : list Region_s) (div : list Site_s) (gc : Z)
  (line : string) (st : vcf_state) : option vcf_state :=
  match strtok_all (lineTerminator line) with
  | [] => None
  | temp :: rest =>
      c0 <- tchar temp 0 ;;
      if isdigit c0
      then token_loop genes coords div gc (temp :: rest) 1 (set_chr (atoi temp) st)
      else Some st
  end.

Fixpoint readVcf_from (genes coords : list Region_s) (div : list Site_s) (gc : Z)
  (lines : list string) (st : vcf_state) : option vcf_state :=
  match lines with
  | [] => Some st
  | line :: rest =>
      st1 <- vcf_line genes coords div gc line st ;;
      readVcf_from genes coords div gc rest st1
  end.

(** [readVcf]: after the last line nothing more is printed. *)
Definition readVcf (genes coords : list Region_s) (div : list Site_s) (gc : Z)
  (lines : list string) : option vcf_state :=
  readVcf_from genes coords div gc lines init_state.

End EstDAF.

(** ** makeDFE-alpha.c *)

Module MakeDFE.

(** [Region_s] of this program has no name. *)
Record Region_s := mkRegion {
  r_chr : Z;
  r_start : Z;
  r_stop : Z
}.

(** *** The loaders *)

(** One iteration of the loop of [readCoord], lines 614-624: the same
    statements as in [estDAF.c]. *)
Definition readCoord_line (line : string) : option (option Region_s) :=
  let toks := strtok_all (lineTerminator line) in
  start <- nth_error toks 0 ;;
  stop <- nth_error toks 1 ;;
  temp <- nth_error toks 7 ;;
  c0 <- tchar temp 0 ;;
  if isdigit c0
  then Some (Some {| r_start := atoi start; r_stop := atoi stop;
                     r_chr := atoi temp |})
  else Some None.

Fixpoint readCoord_loop (lines : list string) (lst : list Region_s)
  : option (list Region_s) :=
  match lines with
  | [] => Some lst
  | line :: rest =>
      r <- readCoord_line line ;;
      match r with
      | Some rec => readCoord_loop rest (lst ++ [rec])
      | None => readCoord_loop rest lst
      end
  end.

Definition readCoord (lines : list string) : option (list Region_s) :=
  readCoord_loop lines [].

(** One iteration of the loop of [readTarget], lines 652-658: chromosome,
    start and end are the first three tokens, and every line is kept. *)
Definition readTarget_line (line : string) : option Region_s :=
  match strtok_all (lineTerminator line) with
  | c :: s :: e :: _ =>
      Some {| r_chr := atoi c; r_start := atoi s; r_stop := atoi e |}
  | _ => None
  end.

Fixpoint readTarget_loop (lines : list string) (lst : list Region_s)
  : option (list Region_s) :=
  match lines with
  | [] => Some lst
  | line :: rest =>
      r <- readTarget_line line ;;
      readTarget_loop rest (lst ++ [r])
  end.

Definition readTarget (lines : list string) : option (list Region_s) :=
  readTarget_loop lines [].

(** Lines 703-716 of [readSites]: the loop over the regions, entered with
    the regions from [target_i] on, for the site [(c, p)] just written to
    [list[*n]]. The result is the cursor and [brk]. *)
Fixpoint readSites_target_loop (ts : list Region_s) (target_i : nat) (c p : Z)
  : nat * bool :=
  match ts with
  | [] => (target_i, false)
  | t :: ts' =>
      if c =? r_chr t then
        if (p >=? r_start t) && (p <=? r_stop t) then (target_i, true)
        else if p <? r_start t then (target_i, false)
        else readSites_target_loop ts' (S target_i) c p
      else if c <? r_chr t then (target_i, false)
      else readSites_target_loop ts' (S target_i) c p
  end.

(** Lines 698-731: the loop over the coordinate blocks. The result is the
    two cursors and whether [*n] was incremented. When the site is in the
    block but the loop over the regions ends with [brk == 0], control
    reaches [coord_i++] at line 730. *)
Fixpoint readSites_coord_loop (target : list Region_s) (cs : list Region_s)
  (coord_i target_i : nat) (c p : Z) : nat * nat * bool :=
  match cs with
  | [] => (coord_i, target_i, false)
  | b :: cs' =>
      if c =? r_chr b then
        if (p >=? r_start b) && (p <=? r_stop b) then
          if (0 <? List.length target)%nat then
            let r := readSites_target_loop (skipn target_i target) target_i c p in
            if snd r then (coord_i, fst r, true)
            else readSites_coord_loop target cs' (S coord_i) (fst r) c p
          else (coord_i, target_i, true)
        else if p <? r_start b then (coord_i, target_i, false)
        else readSites_coord_loop target cs' (S coord_i) target_i c p
      else if c <? r_chr b then (coord_i, target_i, false)
      else readSites_coord_loop target cs' (S coord_i) target_i c p
  end.

(** The variables of [readSites] that live across the lines: the two
    cursors and the rows kept so far, [list[0..*n-1]]. *)
Record sites_state := mkSites {
  ss_coord_i : nat;
  ss_target_i : nat;
  ss_list : list (Z * Z)
}.

(** Lines 693-731: one line of the list of sites. A line that does not
    begin with a digit is passed over before any token is taken. *)
Definition readSites_line (coords target : list Region_s) (line : string)
  (s : sites_state) : option sites_state :=
  let l := lineTerminator line in
  c0 <- tchar l 0 ;;
  if negb (isdigit c0) then Some s
  else
    let toks := strtok_all l in
    t0 <- nth_error toks 0 ;;
    t1 <- nth_error toks 1 ;;
    let c := atoi t0 in
    let p := atoi t1 in
    let r := readSites_coord_loop target (skipn (ss_coord_i s) coords)
               (ss_coord_i s) (ss_target_i s) c p in
    Some (mkSites (fst (fst r)) (snd (fst r))
            (if snd r then ss_list s ++ [(c, p)] else ss_list s)).

Fixpoint readSites_loop (coords target : list Region_s) (lines : list string)
  (s : sites_state) : option sites_state :=
  match lines with
  | [] => Some s
  | line :: rest =>
      s1 <- readSites_line coords target line s ;;
      readSites_loop coords target rest s1
  end.

(** [readSites]: [target] is only read when [target_n > 0], so the table
    that [openFiles] leaves uninitialised without [-region] is the empty
    one here. *)
Definition readSites (coords target : list Region_s) (lines : list string)
  : option (list (Z * Z)) :=
  s <- readSites_loop coords target lines (mkSites 0 0 []) ;;
  Some (ss_list s).

(** Lines 772-784 of [readDiv]: the loop over the sites, for the record
    [(c, p)] just written to [list[*n]]. *)
Fixpoint readDiv_site_loop (ss : list (Z * Z)) (site_i : nat) (c p : Z)
  : nat * bool :=
  match ss with
  | [] => (site_i, false)
  | s :: ss' =>
      if c =? fst s then
        if p =? snd s then (site_i, true)
        else if p <? snd s then (site_i, false)
        else readDiv_site_loop ss' (S site_i) c p
      else if c <? fst s then (site_i, false)
      else readDiv_site_loop ss' (S site_i) c p
  end.

(** Lines 762-785: one line of the table of substitutions; the cursor into
    the sites and the record, when it is kept. *)
Definition readDiv_line (sites : list (Z * Z)) (line : string) (site_i : nat)
  : option (nat * option Site_s) :=
  let toks := strtok_all (lineTerminator line) in
  p <- nth_error toks 0 ;;
  t1 <- nth_error toks 1 ;;
  r <- tchar t1 0 ;;
  t2 <- nth_error toks 2 ;;
  a <- tchar t2 0 ;;
  temp <- nth_error toks 8 ;;
  c0 <- tchar temp 0 ;;
  if isdigit c0 then
    let k := readDiv_site_loop (skipn site_i sites) site_i (atoi temp) (atoi p) in
    Some (fst k,
          if snd k
          then Some {| s_pos := atoi p; s_ref := r; s_alt := a;
                       s_chr := atoi temp |}
          else None)
  else Some (site_i, None).

Fixpoint readDiv_loop (sites : list (Z * Z)) (lines : list string)
  (site_i : nat) (lst : list Site_s) : option (list Site_s) :=
  match lines with
  | [] => Some lst
  | line :: rest =>
      r <- readDiv_line sites line site_i ;;
      match snd r with
      | Some rec => readDiv_loop sites rest (fst r) (lst ++ [rec])
      | None => readDiv_loop sites rest (fst r) lst
      end
  end.

Definition readDiv (sites : list (Z * Z)) (lines : list string)
  : option (list Site_s) :=
  readDiv_loop sites lines 0 [].

(** *** readVcf *)

(** What [readVcf] prints: the histogram, then the two totals. *)
Record sfs_output := mkOutput {
  o_sfs : list Z;
  o_si : Z;
  o_di : Z
}.

Inductive err_line :=
| RefWarning (chr pos : Z).

(** The local variables of [readVcf]. [geno] and [sfs] are [None] until
    the line of column names allocates them; [i] is the index into [geno]
    while a line is read. *)
Record vcf_state := mkVcf {
  chr : Z;
  pos : Z;
  i : nat;
  i0 : Z;
  i1 : Z;
  ind_i : nat;
  site_i : nat;
  div_i : nat;
  ok : bool;
  rd : bool;
  geno : option (list Z);
  sfs : option (list Z);
  di : Z;
  si : Z;
  ref : ascii;
  alt : ascii;
  err : list err_line
}.

Definition init_state : vcf_state :=
  mkVcf 0 0 0 0 0 0 0 0 false false None None 0 0 NUL NUL [].

Definition set_chr (v : Z) (st : vcf_state) : vcf_state :=
  mkVcf v (pos st) (i st) (i0 st) (i1 st) (ind_i st) (site_i st) (div_i st)
        (ok st) (rd st) (geno st) (sfs st) (di st) (si st) (ref st) (alt st) (err st).

Definition set_pos (v : Z) (st : vcf_state) : vcf_state :=
  mkVcf (chr st) v (i st) (i0 st) (i1 st) (ind_i st) (site_i st) (div_i st)
        (ok st) (rd st) (geno st) (sfs st) (di st) (si st) (ref st) (alt st) (err st).

Definition set_i (v : nat) (st : vcf_state) : vcf_state :=
  mkVcf (chr st) (pos st) v (i0 st) (i1 st) (ind_i st) (site_i st) (div_i st)
        (ok st) (rd st) (geno st) (sfs st) (di st) (si st) (ref st) (alt st) (err st).

Definition set_i0 (v : Z) (st : vcf_state) : vcf_state :=
  mkVcf (chr st) (pos st) (i st) v (i1 st) (ind_i st) (site_i st) (div_i st)
        (ok st) (rd st) (geno st) (sfs st) (di st) (si st) (ref st) (alt st) (err st).

Definition set_i1 (v : Z) (st : vcf_state) : vcf_state :=
  mkVcf (chr st) (pos st) (i st) (i0 st) v (ind_i st) (site_i st) (div_i st)
        (ok st) (rd st) (geno st) (sfs st) (di st) (si st) (ref st) (alt st) (err st).

Definition set_ind_i (v : nat) (st : vcf_state) : vcf_state :=
  mkVcf (chr st) (pos st) (i st) (i0 st) (i1 st) v (site_i st) (div_i st)
        (ok st) (rd st) (geno st) (sfs st) (di st) (si st) (ref st) (alt st) (err st).

Definition set_site_i (v : nat) (st : vcf_state) : vcf_state :=
  mkVcf (chr st) (pos st) (i st) (i0 st) (i1 st) (ind_i st) v (div_i st)
        (ok st) (rd st) (geno st) (sfs st) (di st) (si st) (ref st) (alt st) (err st).

Definition set_div_i (v : nat) (st : vcf_state) : vcf_state :=
  mkVcf (chr st) (pos st) (i st) (i0 st) (i1 st) (ind_i st) (site_i st) v
        (ok st) (rd st) (geno st) (sfs st) (di st) (si st) (ref st) (alt st) (err st).

Definition set_ok (v : bool) (st : vcf_state) : vcf_state :=
  mkVcf (chr st) (pos st) (i st) (i0 st) (i1 st) (ind_i st) (site_i st) (div_i st)
        v (rd st) (geno st) (sfs st) (di st) (si st) (ref st) (alt st) (err st).

Definition set_rd (v : bool) (st : vcf_state) : vcf_state :=
  mkVcf (chr st) (pos st) (i st) (i0 st) (i1 st) (ind_i st) (site_i st) (div_i st)
        (ok st) v (geno st) (sfs st) (di st) (si st) (ref st) (alt st) (err st).

Definition set_geno (v : option (list Z)) (st : vcf_state) : vcf_state :=
  mkVcf (chr st) (pos st) (i st) (i0 st) (i1 st) (ind_i st) (site_i st) (div_i st)
        (ok st) (rd st) v (sfs st) (di st) (si st) (ref st) (alt st) (err st).

Definition set_sfs (v : option (list Z)) (st : vcf_state) : vcf_state :=
  mkVcf (chr st) (pos st) (i st) (i0 st) (i1 st) (ind_i st) (site_i st) (div_i st)
        (ok st) (rd st) (geno st) v (di st) (si st) (ref st) (alt st) (err st).

Definition set_di (v : Z) (st : vcf_state) : vcf_state :=
  mkVcf (chr st) (pos st) (i st) (i0 st) (i1 st) (ind_i st) (site_i st) (div_i st)
        (ok st) (rd st) (geno st) (sfs st) v (si st) (ref st) (alt st) (err st).

Definition set_si (v : Z) (st : vcf_state) : vcf_state :=
  mkVcf (chr st) (pos st) (i st) (i0 st) (i1 st) (ind_i st) (site_i st) (div_i st)
        (ok st) (rd st) (geno st) (sfs st) (di st) v (ref st) (alt st) (err st).

Definition set_ref (v : ascii) (st : vcf_state) : vcf_state :=
  mkVcf (chr st) (pos st) (i st) (i0 st) (i1 st) (ind_i st) (site_i st) (div_i st)
        (ok st) (rd st) (geno st) (sfs st) (di st) (si st) v (alt st) (err st).

Definition set_alt (v : ascii) (st : vcf_state) : vcf_state :=
  mkVcf (chr st) (pos st) (i st) (i0 st) (i1 st) (ind_i st) (site_i st) (div_i st)
        (ok st) (rd st) (geno st) (sfs st) (di st) (si st) (ref st) v (err st).

Definition warn (l : err_line) (st : vcf_state) : vcf_state :=
  mkVcf (chr st) (pos st) (i st) (i0 st) (i1 st) (ind_i st) (site_i st) (div_i st)
        (ok st) (rd st) (geno st) (sfs st) (di st) (si st) (ref st) (alt st)
        (err st ++ [l]).

(** [a[k] = v] and [a[k]++] on an array of [length a] cells: a write
    outside the array is undefined. *)
Fixpoint store (a : list Z) (k : nat) (v : Z) : option (list Z) :=
  match a, k with
  | [], _ => None
  | _ :: a', O => Some (v :: a')
  | x :: a', S k' => a'' <- store a' k' v ;; Some (x :: a'')
  end.

Definition incr (a : list Z) (k : nat) : option (list Z) :=
  x <- nth_error a k ;; store a k (x + 1).

(** Lines 843-855: the loop over the divergence table. *)
Fixpoint div_loop (dv : list Site_s) (st : vcf_state) : vcf_state :=
  match dv with
  | [] => st
  | d :: dv' =>
      if chr st =? s_chr d then
        if pos st =? s_pos d then set_rd true st
        else if pos st <? s_pos d then st
        else div_loop dv' (set_div_i (S (div_i st)) st)
      else if chr st <? s_chr d then st
      else div_loop dv' (set_div_i (S (div_i st)) st)
  end.

(** Lines 840-865: the loop over the sites, rows [{chromosome, position}]. *)
Fixpoint site_loop (div : list Site_s) (ss : list (Z * Z)) (st : vcf_state)
  : vcf_state :=
  match ss with
  | [] => st
  | s :: ss' =>
      if chr st =? fst s then
        if pos st =? snd s then
          set_ok true (div_loop (skipn (div_i st) div) st)
        else if pos st <? snd s then st
        else site_loop div ss' (set_site_i (S (site_i st)) st)
      else if chr st <? fst s then st
      else site_loop div ss' (set_site_i (S (site_i st)) st)
  end.

(** Lines 885-910: the value of [ok] after the five branches on [gc]. *)
Definition classify (gc : Z) (rd : bool) (ref alt : ascii) : bool :=
  let gc_ x := Ascii.eqb x "G" || Ascii.eqb x "C" || Ascii.eqb x "." in
  let at_ x := Ascii.eqb x "A" || Ascii.eqb x "T" || Ascii.eqb x "." in
  if gc =? 3 then gc_ ref && gc_ alt
  else if gc =? 4 then at_ ref && at_ alt
  else if gc =? 5 then
    if gc_ ref && gc_ alt then true else at_ ref && at_ alt
  else if negb rd then
    if (gc =? 1) && at_ ref && gc_ alt then true
    else (gc =? 2) && gc_ ref && at_ alt
  else
    if (gc =? 1) && gc_ ref && at_ alt then true
    else (gc =? 2) && at_ ref && gc_ alt.

(** Lines 916-926: one genotype column is decoded into [geno[i]]. *)
Definition genotype (temp : string) (st : vcf_state) : option vcf_state :=
  t0 <- tchar temp 0 ;;
  hom1 <- c_and (Ascii.eqb t0 "1")
            (t2 <- tchar temp 2 ;; Some (Ascii.eqb t2 "1")) ;;
  hom0 <- (if hom1 then Some false
           else c_and (Ascii.eqb t0 "0")
                  (t2 <- tchar temp 2 ;; Some (Ascii.eqb t2 "0"))) ;;
  g <- geno st ;;
  if hom1 then
    g' <- store g (i st) 1 ;;
    Some (set_i (S (i st)) (set_i1 (i1 st + 1) (set_geno (Some g') st)))
  else if hom0 then
    g' <- store g (i st) 0 ;;
    Some (set_i (S (i st)) (set_i0 (i0 st + 1) (set_geno (Some g') st)))
  else
    g' <- store g (i st) 9 ;;
    Some (set_i (S (i st)) (set_geno (Some g') st)).

(** Lines 839-865: what column 2 does with the position [p] it reads. *)
Definition position (sites : list (Z * Z)) (div : list Site_s)
  (p : Z) (st : vcf_state) : vcf_state :=
  let st1 := set_pos p st in
  site_loop div (skipn (site_i st1) sites) st1.

(** The body of the loop over the tokens of a line, for the token [temp]
    in column [j]: [(true, st)] when the body leaves the loop by [break]. *)
Definition column (sites : list (Z * Z)) (div : list Site_s) (gc : Z)
  (j : nat) (temp : string) (st : vcf_state) : option (bool * vcf_state) :=
  if Nat.eqb j 2 then
    let st2 := position sites div (atoi temp) st in
    Some (negb (ok st2), st2)
  else if Nat.eqb j 4 then
    c <- tchar temp 0 ;;
    let st1 := set_ref c st in
    if rd st1 then
      d <- nth_error div (div_i st1) ;;
      if negb (Ascii.eqb (ref st1) (s_ref d))
      then Some (true, set_ok false (warn (RefWarning (chr st1) (pos st1)) st1))
      else Some (false, st1)
    else Some (false, st1)
  else if Nat.eqb j 5 then
    c <- tchar temp 0 ;;
    let st1 := set_alt c st in
    if negb (gc =? 0) then
      let st2 := set_ok false st1 in
      mismatch <- (if rd st2
                   then d <- nth_error div (div_i st2) ;;
                        Some (negb (Ascii.eqb (alt st2) (s_alt d)))
                   else Some false) ;;
      if mismatch then Some (true, st2)
      else if Ascii.eqb (ref st2) "." && Ascii.eqb (alt st2) "."
      then Some (true, st2)
      else
        let st3 := set_ok (classify gc (rd st2) (ref st2) (alt st2)) st2 in
        Some (negb (ok st3), st3)
    else Some (false, st1)
  else if Nat.ltb 9 j then
    st1 <- genotype temp st ;;
    Some (false, st1)
  else Some (false, st).

(** Lines 837-930: the loop over the tokens. *)
Fixpoint token_loop (sites : list (Z * Z)) (div : list Site_s) (gc : Z)
  (toks : list string) (j : nat) (st : vcf_state) : option vcf_state :=
  match toks with
  | [] => Some st
  | temp :: rest =>
      r <- column sites div gc j temp st ;;
      let '(brk, st1) := r in
      if brk then Some st1
      else token_loop sites div gc rest (S j) st1
  end.

(** Lines 933-942: the loop that counts the derived calls of a site, over
    the cells of [geno]. *)
Fixpoint count_loop (rd : bool) (i0 i1 : Z) (g : list Z) (count : Z) : Z :=
  match g with
  | [] => count
  | x :: g' =>
      count_loop rd i0 i1 g'
        (if negb rd && (x =? 1) then count + 1
         else if negb rd && (x =? 9) && (i1 >? i0) then count + 1
         else if rd && (x =? 0) then count + 1
         else if rd && (x =? 9) && (i0 >? i1) then count + 1
         else count)
  end.

(** Lines 931-947: what follows the loop over the tokens. *)
Definition tally (st : vcf_state) : option vcf_state :=
  if negb (ok st) then Some st
  else
    let g := match geno st with Some g => firstn (ind_i st) g | None => [] end in
    let count := count_loop (rd st) (i0 st) (i1 st) g 0 in
    h <- sfs st ;;
    h' <- incr h (Z.to_nat count) ;;
    let st1 := set_sfs (Some h') st in
    let st2 := if rd st1 then set_di (di st1 + 1) st1 else st1 in
    Some (set_si (si st2 + 1) st2).

(** Lines 808-814: every column after the ninth is one more individual. *)
Fixpoint header_loop (toks : list string) (i : nat) (ind_i : nat) : nat :=
  match toks with
  | [] => ind_i
  | _ :: rest => header_loop rest (S i) (if Nat.ltb 9 i then S ind_i else ind_i)
  end.

(** Lines 808-827: the line of column names; [malloc] gives [geno] cells
    of unknown content, [junk k] for cell [k], and [sfs] is set to zero. *)
Definition header (junk : nat -> Z) (toks : list string) (st : vcf_state)
  : vcf_state :=
  let n := header_loop toks 1 (ind_i st) in
  set_sfs (Some (repeat 0 (S n)))
    (set_geno (Some (map junk (seq 0 n))) (set_ind_i n st)).

(** Lines 830-836: the variables a line of data starts from. *)
Definition start_line (c : Z) (st : vcf_state) : vcf_state :=
  set_rd false (set_ok false (set_i1 0 (set_i0 0 (set_i 0 (set_chr c st))))).

(** Lines 803-948: one line of the variant file. *)
Definition vcf_line (junk : nat -> Z) (sites : list (Z * Z)) (div : list Site_s)
  (gc : Z) (line : string) (st : vcf_state) : option vcf_state :=
  match strtok_all (lineTerminator line) with
  | [] => None
  | temp :: rest =>
      if String.eqb temp "#CHROM" then Some (header junk (temp :: rest) st)
      else
        c0 <- tchar temp 0 ;;
        if isdigit c0 then
          st2 <- token_loop sites div gc (temp :: rest) 1
                   (start_line (atoi temp) st) ;;
          tally st2
        else Some st
  end.

Fixpoint readVcf_from (junk : nat -> Z) (sites : list (Z * Z))
  (div : list Site_s) (gc : Z) (lines : list string) (st : vcf_state)
  : option vcf_state :=
  match lines with
  | [] => Some st
  | line :: rest =>
      st1 <- vcf_line junk sites div gc line st ;;
      readVcf_from junk sites div gc rest st1
  end.

(** Lines 951-954: the histogram [sfs[0..ind_i]] and the totals. *)
Definition emit (st : vcf_state) : option sfs_output :=
  h <- sfs st ;;
  if (ind_i st <? List.length h)%nat
  then Some (mkOutput (firstn (S (ind_i st)) h) (si st) (di st))
  else None.

Definition readVcf (junk : nat -> Z) (sites : list (Z * Z)) (div : list Site_s)
  (gc : Z) (lines : list string) : option sfs_output :=
  st <- readVcf_from junk sites div gc lines init_state ;;
  emit st.

End MakeDFE.

(** ** The cursor loop the programs repeat

    The five loops above walk a sorted table in the same way: a record is
    left behind when it ends before the query, the loop stops on a record
    that holds the query or begins after it.  [scan] is that walk for a
    table of any records with a chromosome [kchr] and bounds [klo], [khi];
    a table of points has [klo = khi]. *)

Section Scan.
Context {A : Type} (kchr klo khi : A -> Z).

Fixpoint scan (tbl : list A) (cursor : nat) (c p : Z) : nat * bool :=
  match tbl with
  | [] => (cursor, false)
  | r :: tbl' =>
      if c =? kchr r then
        if (p <=? khi r) && (p >=? klo r) then (cursor, true)
        else if p <? klo r then (cursor, false)
        else scan tbl' (S cursor) c p
      else if c <? kchr r then (cursor, false)
      else scan tbl' (S cursor) c p
  end.

(** The lookup of [(c, p)] with the cursor at [cursor]. *)
Definition locate (tbl : list A) (cursor : nat) (c p : Z) : nat * bool :=
  scan (skipn cursor tbl) cursor c p.

(** The record lies wholly before the query: the condition under which
    the walk leaves it behind. *)
Definition before (c p : Z) (r : A) : bool :=
  (kchr r <? c) || ((kchr r =? c) && (khi r <? p) && (klo r <=? p)).

(** The record holds the query. *)
Definition holds (c p : Z) (r : A) : bool :=
  (kchr r =? c) && (klo r <=? p) && (p <=? khi r).

(** A scan of the whole table that does not rely on any order. *)
Definition member (tbl : list A) (c p : Z) : bool := existsb (holds c p) tbl.

(** The order the tables are assumed to have. *)
Definition key_le (a b : A) : Prop :=
  kchr a < kchr b \/ (kchr a = kchr b /\ klo a <= klo b).

Definition sorted (tbl : list A) : Prop := StronglySorted key_le tbl.

(** Everything the cursor has left behind lies before the query. *)
Definition behind (tbl : list A) (cursor : nat) (c p : Z) : Prop :=
  (cursor <= List.length tbl)%nat /\
  forallb (before c p) (firstn cursor tbl) = true.
End Scan.

Definition locateContaining := @locate EstDAF.Region_s EstDAF.r_chr EstDAF.r_start EstDAF.r_stop.
Definition locateEqual := @locate Site_s s_chr s_pos s_pos.
Definition locateSite := @locate (Z * Z) fst snd snd.

Definition sorted_regions := @sorted EstDAF.Region_s EstDAF.r_chr EstDAF.r_start.
Definition sorted_div := @sorted Site_s s_chr s_pos.
Definition sorted_sites := @sorted (Z * Z) fst snd.

Definition in_regions := @member EstDAF.Region_s EstDAF.r_chr EstDAF.r_start EstDAF.r_stop.
Definition in_div := @member Site_s s_chr s_pos s_pos.
Definition in_sites := @member (Z * Z) fst snd snd.

(** The first two columns of a line of data, chromosome [c] and position
    [p], as a query to the tables. *)
Definition daf_query (genes coords : list EstDAF.Region_s) (div : list Site_s)
  (c p : Z) (st : EstDAF.vcf_state) : EstDAF.vcf_state :=
  EstDAF.position genes coords div p (EstDAF.set_chr c st).

Definition sfs_query (sites : list (Z * Z)) (div : list Site_s)
  (c p : Z) (st : MakeDFE.vcf_state) : MakeDFE.vcf_state :=
  MakeDFE.position sites div p (MakeDFE.start_line c st).

(** The three cursors of [estDAF.c], and the two of [makeDFE-alpha.c], have
    only left records before the query behind. *)
Definition daf_cursors_behind (genes coords : list EstDAF.Region_s)
  (div : list Site_s) (st : EstDAF.vcf_state) (c p : Z) : Prop :=
  behind EstDAF.r_chr EstDAF.r_start EstDAF.r_stop genes (EstDAF.gene_i st) c p /\
  behind EstDAF.r_chr EstDAF.r_start EstDAF.r_stop coords (EstDAF.coord_i st) c p /\
  behind s_chr s_pos s_pos div (EstDAF.div_i st) c p.

Definition sfs_cursors_behind (sites : list (Z * Z)) (div : list Site_s)
  (st : MakeDFE.vcf_state) (c p : Z) : Prop :=
  behind fst snd snd sites (MakeDFE.site_i st) c p /\
  behind s_chr s_pos s_pos div (MakeDFE.div_i st) c p.


(** ** What the code takes for the ancestral allele

    With a substitution record ([rd = 1]) the programs read the alternate
    allele as the ancestral one and the reference allele as the derived
    one; without a record the reference allele is the ancestral one. *)

Definition weak (c : ascii) : bool := Ascii.eqb c "A" || Ascii.eqb c "T".
Definition strong (c : ascii) : bool := Ascii.eqb c "G" || Ascii.eqb c "C".

Definition ancestral (rd : bool) (ref alt : ascii) : ascii :=
  if rd then alt else ref.
Definition derived (rd : bool) (ref alt : ascii) : ascii :=
  if rd then ref else alt.

Definition ancestral_code (rd : bool) : Z := if rd then 1 else 0.


Definition sum (h : list Z) : Z := fold_right Z.add 0 h.

(** ** The statements of the specification that are compared with the code *)

Module Claimed.

(** "The ancestral allele is whichever of reference/alternate matches the
    substitution record's reference allele." *)
Definition ancestral (ref alt rec_ref : ascii) : option ascii :=
  if Ascii.eqb ref rec_ref then Some ref
  else if Ascii.eqb alt rec_ref then Some alt
  else None.

Definition derived (ref alt rec_ref : ascii) : option ascii :=
  if Ascii.eqb ref rec_ref then Some alt
  else if Ascii.eqb alt rec_ref then Some ref
  else None.





(** "Purely numeric": a field of decimal digits, and at least one. *)
Fixpoint all_digits (s : string) : bool :=
  match s with
  | EmptyString => true
  | String c r => isdigit c && all_digits r
  end.

Definition purely_numeric (s : string) : bool :=
  negb (String.eqb s EmptyString) && all_digits s.

(** "The 8th tab-separated field" of a line. *)
Definition field8 (line : string) : string :=
  nth 7 (fields (lineTerminator line)) EmptyString.

End Claimed.

(** ** Inputs used as instances *)

Module Examples.
Local Open Scope string_scope.

Definition tsv (cols : list string) : string :=
  String.concat (String TAB EmptyString) cols ++ String LF EmptyString.

Definition genes : list EstDAF.Region_s :=
  [EstDAF.mkRegion 1 1 100 "g1"; EstDAF.mkRegion 1 200 300 "g2"].
Definition coords : list EstDAF.Region_s := [EstDAF.mkRegion 1 1 1000 ""].
Definition div : list Site_s := [mkSite 1 60 "A" "G"].
Definition sites : list (Z * Z) := [(1, 50); (1, 60); (1, 250)].

Definition names : string :=
  tsv ["#CHROM"; "POS"; "ID"; "REF"; "ALT"; "QUAL"; "FILTER"; "INFO";
       "FORMAT"; "s1"; "s2"; "s3"].

Definition row (c p r a : string) (calls : list string) : string :=
  tsv ([c; p; "."; r; a; "."; "."; "."; "GT"] ++ calls).

End Examples.

(** ** Well-formed runs of [makeDFE-alpha.c]

    [geno] and [sfs] are allocated for [ind_i] individuals, the cells of
    the spectrum add up to the number of sites counted, and the sites with
    a record are among them. *)
Definition sfs_consistent (st : MakeDFE.vcf_state) : Prop :=
  exists g h,
    MakeDFE.geno st = Some g /\ MakeDFE.sfs st = Some h /\
    List.length g = MakeDFE.ind_i st /\
    List.length h = S (MakeDFE.ind_i st) /\
    sum h = MakeDFE.si st /\
    0 <= MakeDFE.di st <= MakeDFE.si st.

(** What the columns after the second leave as it was while a line is
    read: the spectrum, the totals and the size of [geno]; and whenever
    [rd] is set the divergence cursor is on a record. *)
Definition sfs_frame (div : list Site_s) (n : nat)
  (st0 st : MakeDFE.vcf_state) : Prop :=
  (exists g, MakeDFE.geno st = Some g /\ List.length g = n) /\
  MakeDFE.sfs st = MakeDFE.sfs st0 /\
  MakeDFE.si st = MakeDFE.si st0 /\ MakeDFE.di st = MakeDFE.di st0 /\
  MakeDFE.ind_i st = n /\
  (MakeDFE.rd st = true -> (MakeDFE.div_i st < List.length div)%nat).

(** The first token of a line, and the lines a well-formed variant file is
    made of: lines before the names that are neither names nor data (the
    "##" lines), the line of names, and lines of data with at most as many
    genotype columns as there are names, each of at least two characters
    (they are read at index 2). *)
Definition first_token (line : string) : option string :=
  hd_error (strtok_all (lineTerminator line)).

Definition is_names (line : string) : bool :=
  match first_token line with
  | Some t => String.eqb t "#CHROM"
  | None => false
  end.

Definition is_comment (line : string) : bool :=
  match first_token line with
  | Some t =>
      negb (String.eqb t "#CHROM") &&
      match tchar t 0 with Some c => negb (isdigit c) | None => false end
  | None => false
  end.

Definition is_data (n : nat) (line : string) : bool :=
  let toks := strtok_all (lineTerminator line) in
  match toks with
  | [] => false
  | t :: _ =>
      negb (String.eqb t "#CHROM") &&
      (List.length toks - 9 <=? n)%nat &&
      forallb (fun g => (2 <=? String.length g)%nat) (skipn 9 toks)
  end.

(** The number of individuals the line of names declares. *)
Definition individuals (names : string) : nat :=
  (List.length (strtok_all (lineTerminator names)) - 9)%nat.

(** ** The tables of [makeDFE-alpha.c], as a scan of the whole table sees
    them

    A row of the site file is the pair of the first two columns of a line
    that begins with a digit. *)

(** Membership and order for the blocks and regions of [makeDFE-alpha.c],
    whose records have no name. *)
Definition in_blocks :=
  @member MakeDFE.Region_s MakeDFE.r_chr MakeDFE.r_start MakeDFE.r_stop.
Definition sorted_blocks :=
  @sorted MakeDFE.Region_s MakeDFE.r_chr MakeDFE.r_start.

(** The row of a line of the site file, and the rows of the file. *)
Definition site_row (line : string) : option (Z * Z) :=
  let l := lineTerminator line in
  match tchar l 0, strtok_all l with
  | Some c0, t0 :: t1 :: _ =>
      if isdigit c0 then Some (atoi t0, atoi t1) else None
  | _, _ => None
  end.

Definition site_rows (lines : list string) : list (Z * Z) :=
  flat_map (fun l => match site_row l with Some s => [s] | None => [] end) lines.

(** A record on a listed site; a site in a block. *)
Definition on_site (sites : list (Z * Z)) (d : Site_s) : bool :=
  in_sites sites (s_chr d) (s_pos d).

Definition in_block (coords : list MakeDFE.Region_s) (s : Z * Z) : bool :=
  in_blocks coords (fst s) (snd s).

(** A block of [estDAF.c] as a block of [makeDFE-alpha.c]. *)
Definition unnamed (r : EstDAF.Region_s) : MakeDFE.Region_s :=
  MakeDFE.mkRegion (EstDAF.r_chr r) (EstDAF.r_start r) (EstDAF.r_stop r).

(** ** Lines and tokens *)

(** The two characters at which [lineTerminator] ends a line. *)
Definition line_end (c : ascii) : bool := Ascii.eqb c LF || Ascii.eqb c CR.

(** A line whose first token begins with a digit: a line of data for
    [readVcf]. A line with a token at all. *)
Definition begins_with_digit (line : string) : bool :=
  match first_token line with
  | Some t => match tchar t 0 with Some c => isdigit c | None => false end
  | None => false
  end.

Definition has_token (line : string) : bool :=
  match first_token line with Some _ => true | None => false end.

(** A text without a line feed or a carriage return. *)
Definition clean (a : string) : bool :=
  forallb (fun c => negb (line_end c)) (list_ascii_of_string a).

(** ** What [estDAF.c] prints on standard output *)

(** A row of a gene of the table, with a site count that is not negative
    and the quotient of two counters for DAF. *)
Definition gene_row (genes : list EstDAF.Region_s) (l : EstDAF.out_line) : Prop :=
  match l with
  | EstDAF.OutHeader => False
  | EstDAF.OutRow g daf n =>
      In g (map EstDAF.r_id genes) /\ 0 <= n /\
      exists da a, 0 <= da <= a /\
                   daf = double_div (double_of_int da) (double_of_int a)
  end.

(** Nothing is printed before the first gene; from then on the output is
    the header and rows, and the gene in progress is a gene of the table. *)
Definition daf_output_shape (genes : list EstDAF.Region_s)
  (st : EstDAF.vcf_state) : Prop :=
  match EstDAF.gene st with
  | None => EstDAF.out st = []
  | Some g =>
      In g (map EstDAF.r_id genes) /\
      exists rows, EstDAF.out st = EstDAF.OutHeader :: rows /\
                   Forall (gene_row genes) rows
  end.

(** ** The four nucleotides *)

(** The four nucleotides the classes are about. *)
Definition nucleotide (c : ascii) : bool := weak c || strong c.

(** ** [main]

    What [main] prints on standard error after [openFiles] has returned,
    lines 69-85 (the same in both programs), when [isatty(1)] is [tty] and
    [time(NULL) - timer] is [second]. The divisions are those of C, which
    truncate. *)
Inductive report_line :=
| RunHours (hour minute second : Z)
| RunMinutes (minute second : Z)
| RunSeconds (second : Z)
| Newline.

Definition main (tty : bool) (second : Z) : list report_line :=
  let minute := Z.quot second 60 in
  let hour := Z.quot second 3600 in
  (if tty then [Newline] else []) ++
  [if hour >? 0 then RunHours hour (minute - hour * 60) (second - minute * 60)
   else if minute >? 0 then RunMinutes minute (second - minute * 60)
   else if second >? 5 then RunSeconds second
   else Newline].

(** ** The files, as the loaders read them *)

Module Files.

(** The byte that a [char] on a machine with signed [char] cannot tell
    from [EOF]. *)
Definition EOF_byte : ascii := "255"%char.

(** The first loop of every loader (lines 169-172 of [readGenes]):
    [fgetc] until [EOF], counting the line feeds. The result goes into
    [char c] before it is compared with [EOF]; the model is of a machine
    where [char] is signed, so the byte 255 ends the count as the end of
    the file does. *)
Fixpoint count_lines (f : string) : nat :=
  match f with
  | EmptyString => 0
  | String c r =>
      if Ascii.eqb c EOF_byte then 0
      else if Ascii.eqb c LF then S (count_lines r)
      else count_lines r
  end.

(** The successive results of [getline] on a file: each line with its
    line feed, and what follows the last line feed when it is not empty. *)
Fixpoint getlines (f : string) : list string :=
  match f with
  | EmptyString => []
  | String c r =>
      if Ascii.eqb c LF then String c EmptyString :: getlines r
      else match getlines r with
           | l :: ls => String c l :: ls
           | [] => [String c EmptyString]
           end
  end.

(** The buffer of a line as [lineTerminator], [strtok] and [atoi] see it:
    a C string ends at its first zero byte. *)
Fixpoint c_string (s : string) : string :=
  match s with
  | EmptyString => EmptyString
  | String c r => if Ascii.eqb c NUL then EmptyString else String c (c_string r)
  end.

Definition file_lines (f : string) : list string := map c_string (getlines f).

(** How a run of a loader ends when it does not run into undefined
    behaviour: with its table, or by [exit(EXIT_FAILURE)]. *)
Inductive outcome (A : Type) :=
| Done (a : A)
| Failure.
Arguments Done {A} a.
Arguments Failure {A}.

Section Table.
Context {A S : Type}.

(** One turn of the [getline] loop of a loader, from its cursors [S] and
    the line: the cursors it leaves, whether it stores into the slot
    [list[*n]], and the record with which [*n] is incremented. *)
Variable row : S -> string -> option (S * bool * option A).

(** The [getline] loop over a table of [line_i] slots, of which
    [length lst] are filled: a store into a slot that does not exist is
    undefined. *)
Fixpoint fill (line_i : nat) (lines : list string) (s : S) (lst : list A)
  : option (S * list A) :=
  match lines with
  | [] => Some (s, lst)
  | line :: rest =>
      r <- row s line ;;
      if snd (fst r) && negb (List.length lst <? line_i)%nat then None
      else fill line_i rest (fst (fst r))
             (match snd r with Some x => lst ++ [x] | None => lst end)
  end.

(** A loader from the content [f] of its file: the count of the lines,
    [malloc] of that many slots, the [getline] loop. Memory is taken to
    suffice; [malloc(0)] gives a null pointer where [malloc0_null] says so,
    and the loader leaves with the message [merror]. *)
Definition load (malloc0_null : bool) (s0 : S) (f : string)
  : option (outcome (list A)) :=
  let line_i := count_lines f in
  if malloc0_null && Nat.eqb line_i 0 then Some Failure
  else r <- fill line_i (file_lines f) s0 [] ;; Some (Done (snd r)).
End Table.

Definition readGenes_row (_ : unit) (line : string)
  : option (unit * bool * option EstDAF.Region_s) :=
  r <- EstDAF.readGenes_line line ;; Some (tt, true, Some r).

Definition daf_readCoord_row (_ : unit) (line : string)
  : option (unit * bool * option EstDAF.Region_s) :=
  r <- EstDAF.readCoord_line line ;; Some (tt, true, r).

Definition daf_readDiv_row (_ : unit) (line : string)
  : option (unit * bool * option Site_s) :=
  r <- EstDAF.readDiv_line line ;; Some (tt, true, r).

Definition readCoord_row (_ : unit) (line : string)
  : option (unit * bool * option MakeDFE.Region_s) :=
  r <- MakeDFE.readCoord_line line ;; Some (tt, true, r).

Definition readTarget_row (_ : unit) (line : string)
  : option (unit * bool * option MakeDFE.Region_s) :=
  r <- MakeDFE.readTarget_line line ;; Some (tt, true, Some r).

(** [readSites] stores into [list[*n]] on the lines that begin with a
    digit only. *)
Definition readSites_row (coords target : list MakeDFE.Region_s)
  (s : nat * nat) (line : string)
  : option (nat * nat * bool * option (Z * Z)) :=
  s1 <- MakeDFE.readSites_line coords target line
          (MakeDFE.mkSites (fst s) (snd s) []) ;;
  c0 <- tchar (lineTerminator line) 0 ;;
  Some (MakeDFE.ss_coord_i s1, MakeDFE.ss_target_i s1, isdigit c0,
        hd_error (MakeDFE.ss_list s1)).

Definition readDiv_row (sites : list (Z * Z)) (site_i : nat) (line : string)
  : option (nat * bool * option Site_s) :=
  r <- MakeDFE.readDiv_line sites line site_i ;; Some (fst r, true, snd r).

(** The seven loaders, from the content of their files. *)
Definition readGenes (malloc0_null : bool) (f : string) :=
  load readGenes_row malloc0_null tt f.
Definition daf_readCoord (malloc0_null : bool) (f : string) :=
  load daf_readCoord_row malloc0_null tt f.
Definition daf_readDiv (malloc0_null : bool) (f : string) :=
  load daf_readDiv_row malloc0_null tt f.
Definition readCoord (malloc0_null : bool) (f : string) :=
  load readCoord_row malloc0_null tt f.
Definition readTarget (malloc0_null : bool) (f : string) :=
  load readTarget_row malloc0_null tt f.
Definition readSites (malloc0_null : bool)
  (coords target : list MakeDFE.Region_s) (f : string) :=
  load (readSites_row coords target) malloc0_null (0%nat, 0%nat) f.
Definition readDiv (malloc0_null : bool) (sites : list (Z * Z)) (f : string) :=
  load (readDiv_row sites) malloc0_null 0%nat f.

(** A file that the count of lines and [getline] see alike: no byte 255,
    and a line feed at the end of the last line. *)
Fixpoint terminated (f : string) : bool :=
  match f with
  | EmptyString => true
  | String c r =>
      negb (Ascii.eqb c EOF_byte) &&
      match r with
      | EmptyString => Ascii.eqb c LF
      | String _ _ => terminated r
      end
  end.

End Files.

(** ** [openFiles]: the command line and the order of the work *)

Module Cli.
Import Files.

(** What [openFiles] and the loaders print on standard error. [Echo] is
    the line that repeats a parameter, [Required] the message of the
    program about the parameters it cannot do without, [OutOfMemory] is
    [merror]. *)
Inductive message :=
| Parameters
| Echo (flag value : string)
| CannotOpen (name : string)
| BadClass
| UnknownArgument (arg : string)
| Blank
| Required
| OutOfMemory.

(** The local variables of [openFiles] of [estDAF.c] that the loop over
    the arguments sets: a [FILE *] is the content of the file it was opened
    on, or [None] for the null pointer. *)
Record daf_args := mkDafArgs {
  d_coord : option string;
  d_div : option string;
  d_vcf : option string;
  d_genes : option string;
  d_gc : Z
}.

(** Lines 99-146 of [estDAF.c]. [fs] is [fopen(name, "r")]. A flag that
    is the last argument reads [argv[argc]], the null pointer, as the name
    of its file or as the text of its number. *)
Fixpoint daf_arg_loop (fs : string -> option string) (argv : list string)
  (a : daf_args) (log : list message)
  : option (list message * outcome daf_args) :=
  match argv with
  | [] => Some (log, Done a)
  | arg :: rest =>
      let is_file := String.eqb arg "-coord" || String.eqb arg "-div" ||
                     String.eqb arg "-vcf" || String.eqb arg "-genes" in
      match rest with
      | [] =>
          if is_file || String.eqb arg "-gc" then None
          else Some ((log ++ [UnknownArgument arg])%list, Failure)
      | value :: rest' =>
          if is_file then
            match fs value with
            | None => Some ((log ++ [CannotOpen value])%list, Failure)
            | Some f =>
                let a' :=
                  if String.eqb arg "-coord"
                  then mkDafArgs (Some f) (d_div a) (d_vcf a) (d_genes a) (d_gc a)
                  else if String.eqb arg "-div"
                  then mkDafArgs (d_coord a) (Some f) (d_vcf a) (d_genes a) (d_gc a)
                  else if String.eqb arg "-vcf"
                  then mkDafArgs (d_coord a) (d_div a) (Some f) (d_genes a) (d_gc a)
                  else mkDafArgs (d_coord a) (d_div a) (d_vcf a) (Some f) (d_gc a) in
                daf_arg_loop fs rest' a' ((log ++ [Echo arg value])%list)
            end
          else if String.eqb arg "-gc" then
            let gc := atoi value in
            if (gc <? 0) || (gc >? 5) then Some ((log ++ [BadClass])%list, Failure)
            else daf_arg_loop fs rest'
                   (mkDafArgs (d_coord a) (d_div a) (d_vcf a) (d_genes a) gc)
                   ((log ++ [Echo arg value])%list)
          else Some ((log ++ [UnknownArgument arg])%list, Failure)
      end
  end.

(** A loader that leaves with [merror] ends the run. *)
Definition loaded {A B : Type} (log : list message)
  (t : option (outcome A)) (k : A -> option (list message * outcome B))
  : option (list message * outcome B) :=
  r <- t ;;
  match r with
  | Done a => k a
  | Failure => Some ((log ++ [OutOfMemory])%list, Failure)
  end.

(** [openFiles] of [estDAF.c], lines 90-159: [argv[0]] is the name of the
    program. The result is what was printed on standard error by
    [openFiles] and the loaders, and the state [readVcf] ends in. *)
Definition daf_openFiles (malloc0_null : bool) (fs : string -> option string)
  (argv : list string) : option (list message * outcome EstDAF.vcf_state) :=
  r <- daf_arg_loop fs (tl argv) (mkDafArgs None None None None 0) [Parameters] ;;
  match snd r with
  | Failure => Some (fst r, Failure)
  | Done a =>
      let log := (fst r ++ [Blank])%list in
      match d_genes a, d_coord a, d_div a, d_vcf a with
      | Some gene_file, Some coord_file, Some div_file, Some vcf_file =>
          loaded log (Files.readGenes malloc0_null gene_file) (fun genes =>
          loaded log (Files.daf_readCoord malloc0_null coord_file) (fun coords =>
          loaded log (Files.daf_readDiv malloc0_null div_file) (fun div =>
          st <- EstDAF.readVcf genes coords div (d_gc a) (file_lines vcf_file) ;;
          Some (log, Done st))))
      | _, _, _, _ => Some ((log ++ [Required])%list, Failure)
      end
  end.

(** The same for [makeDFE-alpha.c], which has [-sites] for [-genes] and
    the parameter [-region] besides. *)
Record sfs_args := mkSfsArgs {
  s_coord : option string;
  s_div : option string;
  s_sites : option string;
  s_vcf : option string;
  s_region : option string;
  s_gc : Z
}.

(** Lines 522-577 of the second program. *)
Fixpoint sfs_arg_loop (fs : string -> option string) (argv : list string)
  (a : sfs_args) (log : list message)
  : option (list message * outcome sfs_args) :=
  match argv with
  | [] => Some (log, Done a)
  | arg :: rest =>
      let is_file := String.eqb arg "-coord" || String.eqb arg "-div" ||
                     String.eqb arg "-sites" || String.eqb arg "-vcf" ||
                     String.eqb arg "-region" in
      match rest with
      | [] =>
          if is_file || String.eqb arg "-gc" then None
          else Some ((log ++ [UnknownArgument arg])%list, Failure)
      | value :: rest' =>
          if is_file then
            match fs value with
            | None => Some ((log ++ [CannotOpen value])%list, Failure)
            | Some f =>
                let a' :=
                  if String.eqb arg "-coord"
                  then mkSfsArgs (Some f) (s_div a) (s_sites a) (s_vcf a)
                         (s_region a) (s_gc a)
                  else if String.eqb arg "-div"
                  then mkSfsArgs (s_coord a) (Some f) (s_sites a) (s_vcf a)
                         (s_region a) (s_gc a)
                  else if String.eqb arg "-sites"
                  then mkSfsArgs (s_coord a) (s_div a) (Some f) (s_vcf a)
                         (s_region a) (s_gc a)
                  else if String.eqb arg "-vcf"
                  then mkSfsArgs (s_coord a) (s_div a) (s_sites a) (Some f)
                         (s_region a) (s_gc a)
                  else mkSfsArgs (s_coord a) (s_div a) (s_sites a) (s_vcf a)
                         (Some f) (s_gc a) in
                sfs_arg_loop fs rest' a' ((log ++ [Echo arg value])%list)
            end
          else if String.eqb arg "-gc" then
            let gc := atoi value in
            if (gc <? 0) || (gc >? 5) then Some ((log ++ [BadClass])%list, Failure)
            else sfs_arg_loop fs rest'
                   (mkSfsArgs (s_coord a) (s_div a) (s_sites a) (s_vcf a)
                      (s_region a) gc)
                   ((log ++ [Echo arg value])%list)
          else Some ((log ++ [UnknownArgument arg])%list, Failure)
      end
  end.

(** [openFiles] of the second program, lines 512-592. Without [-region]
    the table of regions is not loaded and [target_n] stays 0. The table
    of junk is what [malloc] leaves in [geno]. *)
Definition sfs_openFiles (malloc0_null : bool) (junk : nat -> Z)
  (fs : string -> option string) (argv : list string)
  : option (list message * outcome MakeDFE.sfs_output) :=
  r <- sfs_arg_loop fs (tl argv) (mkSfsArgs None None None None None 0)
         [Parameters] ;;
  match snd r with
  | Failure => Some (fst r, Failure)
  | Done a =>
      let log := (fst r ++ [Blank])%list in
      match s_coord a, s_div a, s_sites a, s_vcf a with
      | Some coord_file, Some div_file, Some site_file, Some vcf_file =>
          loaded log (Files.readCoord malloc0_null coord_file) (fun coords =>
          loaded log (match s_region a with
                      | Some target_file => Files.readTarget malloc0_null target_file
                      | None => Some (Done [])
                      end) (fun target =>
          loaded log (Files.readSites malloc0_null coords target site_file)
            (fun sites =>
          loaded log (Files.readDiv malloc0_null sites div_file) (fun div =>
          out <- MakeDFE.readVcf junk sites div (s_gc a) (file_lines vcf_file) ;;
          Some (log, Done out)))))
      | _, _, _, _ => Some ((log ++ [Required])%list, Failure)
      end
  end.

End Cli.

(** ** Lines that [readVcf] can read *)

(** A line that [estDAF.c] can read: it has a token, and its columns from
    the tenth on have the two characters and the terminator that are read
    at index 0 and 2. *)
Definition daf_readable (line : string) : bool :=
  let toks := strtok_all (lineTerminator line) in
  match toks with
  | [] => false
  | _ :: _ => forallb (fun g => (2 <=? String.length g)%nat) (skipn 9 toks)
  end.

(** Whenever [rd] is set the divergence cursor is on a record. *)
Definition on_record (div : list Site_s) (st : EstDAF.vcf_state) : Prop :=
  EstDAF.rd st = true ->
  exists d, nth_error div (EstDAF.div_i st) = Some d.

(** ** Class 0 in [makeDFE-alpha.c], as a scan of the tables sees a line *)

(** The key of a line of data, its columns 1 and 2, and its reference
    allele, the first character of column 4. *)
Definition line_key (line : string) : Z * Z :=
  match strtok_all (lineTerminator line) with
  | t1 :: t2 :: _ => (atoi t1, atoi t2)
  | _ => (0, 0)
  end.

Definition line_ref (line : string) : ascii :=
  match nth_error (strtok_all (lineTerminator line)) 3 with
  | Some t4 => match tchar t4 0 with Some c => c | None => NUL end
  | None => NUL
  end.

(** The record that a walk from the first record finds at a key. *)
Definition record_at (div : list Site_s) (k : Z * Z) : option Site_s :=
  let L := locateEqual div 0 (fst k) (snd k) in
  if snd L then nth_error div (fst L) else None.




(** ** Files with every genotype column *)

(** A line of a file for [n] individuals of which every cell of [geno] is
    written before the cells are counted: a line that is passed over, or a
    line of data with all its [9 + n] columns. *)
Definition full (n : nat) (line : string) : bool :=
  is_data n line &&
  (negb (begins_with_digit line) ||
   Nat.eqb (List.length (strtok_all (lineTerminator line))) (9 + n)).

(** ** Class 0 in [estDAF.c], as a scan of the tables sees a line *)

(** The alternate allele of a line of data, the first character of
    column 5. *)
Definition line_alt (line : string) : ascii :=
  match nth_error (strtok_all (lineTerminator line)) 4 with
  | Some t5 => match tchar t5 0 with Some c => c | None => NUL end
  | None => NUL
  end.

(** With class 0, what a scan of the three tables says of a line of
    [estDAF.c]: it is counted when its key is in a gene and in a block and
    the record at its key, if there is one, has its two alleles. *)
Definition daf_counted (genes coords : list EstDAF.Region_s)
  (div : list Site_s) (line : string) : bool :=
  in_regions genes (fst (line_key line)) (snd (line_key line)) &&
  in_regions coords (fst (line_key line)) (snd (line_key line)) &&
  match record_at div (line_key line) with
  | Some d => Ascii.eqb (line_ref line) (s_ref d) &&
              Ascii.eqb (line_alt line) (s_alt d)
  | None => true
  end.

(** The sites counted so far: those of the rows printed and those of the
    gene in progress. *)
Definition row_sites (l : EstDAF.out_line) : Z :=
  match l with
  | EstDAF.OutRow _ _ n => n
  | EstDAF.OutHeader => 0
  end.

Definition daf_total (st : EstDAF.vcf_state) : Z :=
  sum (map row_sites (EstDAF.out st)) + EstDAF.s_i st.

(** A line that is passed over, or a line of data with its five columns
    before the genotypes at least. *)
Definition daf_variant (line : string) : bool :=
  daf_readable line &&
  (negb (begins_with_digit line) ||
   (5 <=? List.length (strtok_all (lineTerminator line)))%nat).

(** ** A command line and the files it names, used as an instance *)

Module Samples.
Local Open Scope string_scope.

Definition files (name : string) : option string :=
  if String.eqb name "genes.txt"
  then Some (Examples.tsv ["g1"; "1"; "1"; "100"] ++
             Examples.tsv ["g2"; "1"; "200"; "300"])
  else if String.eqb name "blocks.coord"
  then Some (Examples.tsv ["1"; "1000"; "1"; "1000"; "1000"; "1000"; "99.0"; "1"; "q1"])
  else if String.eqb name "subst.snps"
  then Some (Examples.tsv ["60"; "A"; "G"; "61"; "5"; "60"; "1"; "-1"; "1"; "q1"])
  else if String.eqb name "calls.vcf"
  then Some (Examples.names ++
             Examples.row "1" "50" "A" "G" ["1/1"; "0/0"; "./."] ++
             Examples.row "1" "250" "T" "C" ["1/1"; "1/1"; "0/0"])
  else None.

Definition argv : list string :=
  ["./estDAF"; "-coord"; "blocks.coord"; "-div"; "subst.snps";
   "-vcf"; "calls.vcf"; "-genes"; "genes.txt"; "-gc"; "1"].

End Samples.

(** * Properties *)

(** Boolean comparisons on [Z] are turned into propositions, case by case. *)
Ltac zcases :=
  rewrite ?Z.geb_leb, ?Z.gtb_ltb in *;
  repeat match goal with
  | H : context [?a =? ?b] |- _ => destruct (Z.eqb_spec a b)
  | H : context [?a <? ?b] |- _ => destruct (Z.ltb_spec a b)
  | H : context [?a <=? ?b] |- _ => destruct (Z.leb_spec a b)
  | |- context [?a =? ?b] => destruct (Z.eqb_spec a b)
  | |- context [?a <? ?b] => destruct (Z.ltb_spec a b)
  | |- context [?a <=? ?b] => destruct (Z.leb_spec a b)
  end;
  simpl in *.

(** ** The cursor loop *)

Section ScanFacts.
Context {A : Type} (kchr klo khi : A -> Z).

Local Abbreviation scanK := (scan kchr klo khi).
Local Abbreviation locateK := (locate kchr klo khi).
Local Abbreviation beforeK := (before kchr klo khi).
Local Abbreviation holdsK := (holds kchr klo khi).
Local Abbreviation memberK := (member kchr klo khi).
Local Abbreviation sortedK := (sorted kchr klo).
Local Abbreviation behindK := (behind kchr klo khi).

Lemma scan_cursor_bounds (tbl : list A) (cur : nat) (c p : Z) :
  (cur <= fst (scanK tbl cur c p) <= cur + List.length tbl)%nat.
Proof.
  revert cur; induction tbl as [|r tbl IH]; intros cur; simpl; [lia|].
  specialize (IH (S cur)).
  zcases; lia.
Qed.

Lemma scan_skips_before (pre tbl : list A) (cur : nat) (c p : Z) :
  forallb (beforeK c p) pre = true ->
  scanK (pre ++ tbl) cur c p = scanK tbl (cur + List.length pre) c p.
Proof.
  revert cur; induction pre as [|r pre IH]; intros cur H; simpl in *.
  - f_equal; lia.
  - apply andb_true_iff in H as [Hr Hpre].
    rewrite (IH (S cur) Hpre).
    replace (S cur + List.length pre)%nat with (cur + S (List.length pre))%nat by lia.
    unfold before in Hr.
    zcases; try reflexivity; try discriminate; lia.
Qed.

Lemma scan_left_behind (tbl : list A) (cur : nat) (c p : Z) :
  forallb (beforeK c p) (firstn (fst (scanK tbl cur c p) - cur) tbl) = true.
Proof.
  revert cur; induction tbl as [|r tbl IH]; intros cur; simpl.
  - now rewrite firstn_nil.
  - specialize (IH (S cur)).
    pose proof (scan_cursor_bounds tbl (S cur) c p) as B.
    assert (E : forall k, (S cur <= k)%nat -> (k - cur = S (k - S cur))%nat)
      by (intros; lia).
    unfold before.
    zcases; rewrite ?Nat.sub_diag; simpl; try reflexivity;
      rewrite (E _ (proj1 B)); simpl; zcases; try exact IH; lia.
Qed.

Lemma scan_found (tbl : list A) (cur : nat) (c p : Z) :
  snd (scanK tbl cur c p) = true ->
  exists r, nth_error tbl (fst (scanK tbl cur c p) - cur) = Some r /\
            holdsK c p r = true.
Proof.
  revert cur; induction tbl as [|r tbl IH]; intros cur; simpl; [discriminate|].
  specialize (IH (S cur)).
  pose proof (scan_cursor_bounds tbl (S cur) c p) as B.
  assert (E : forall k, (S cur <= k)%nat -> (k - cur = S (k - S cur))%nat)
    by (intros; lia).
  unfold holds.
  zcases; intros Hf; try discriminate;
    try (rewrite (E _ (proj1 B)); simpl; exact (IH Hf)).
  all: rewrite Nat.sub_diag; exists r; simpl; zcases; auto; lia.
Qed.

Lemma before_mono (c p1 p2 : Z) (r : A) :
  p1 <= p2 -> beforeK c p1 r = true -> beforeK c p2 r = true.
Proof. unfold before; intros; zcases; auto; lia. Qed.

Lemma before_not_holds (c p : Z) (r : A) :
  beforeK c p r = true -> holdsK c p r = false.
Proof. unfold before, holds; intros; zcases; auto; lia. Qed.

Lemma behind_mono (tbl : list A) (cur : nat) (c p1 p2 : Z) :
  p1 <= p2 -> behindK tbl cur c p1 -> behindK tbl cur c p2.
Proof.
  intros Hp [Hlen Hall]; split; [exact Hlen|].
  rewrite forallb_forall in *; intros r Hr.
  eapply before_mono; eauto.
Qed.

Lemma behind_start (tbl : list A) (c p : Z) : behindK tbl 0 c p.
Proof. split; simpl; [lia|reflexivity]. Qed.

Lemma locate_forward (tbl : list A) (cur : nat) (c p : Z) :
  (cur <= fst (locateK tbl cur c p))%nat.
Proof. unfold locate. apply scan_cursor_bounds. Qed.

(** A lookup from a cursor that has only left records before the query
    behind is the lookup from the first record. *)
Lemma locate_fresh (tbl : list A) (cur : nat) (c p : Z) :
  behindK tbl cur c p -> locateK tbl cur c p = locateK tbl 0 c p.
Proof.
  intros [Hlen Hall]. unfold locate. simpl.
  rewrite <- (firstn_skipn cur tbl) at 2.
  rewrite scan_skips_before by exact Hall.
  rewrite length_firstn. f_equal. lia.
Qed.

Lemma locate_behind (tbl : list A) (cur : nat) (c p : Z) :
  behindK tbl cur c p -> behindK tbl (fst (locateK tbl cur c p)) c p.
Proof.
  intros [Hlen Hall]. unfold locate.
  pose proof (scan_cursor_bounds (skipn cur tbl) cur c p) as B.
  rewrite length_skipn in B.
  pose proof (scan_left_behind (skipn cur tbl) cur c p) as L.
  set (k := fst (scanK (skipn cur tbl) cur c p)) in *.
  split; [lia|].
  replace k with (cur + (k - cur))%nat at 1 by lia.
  rewrite <- (firstn_skipn cur tbl) at 1.
  rewrite firstn_app, length_firstn, forallb_app.
  replace (cur + (k - cur) - Nat.min cur (List.length tbl))%nat
    with (k - cur)%nat by lia.
  rewrite L, andb_true_r.
  rewrite forallb_forall in *. intros r Hr. apply Hall.
  rewrite firstn_firstn in Hr.
  replace (Nat.min (cur + (k - cur)) cur) with cur in Hr by lia. exact Hr.
Qed.

Lemma locate_found (tbl : list A) (cur : nat) (c p : Z) :
  snd (locateK tbl cur c p) = true ->
  exists r, nth_error tbl (fst (locateK tbl cur c p)) = Some r /\
            holdsK c p r = true.
Proof.
  unfold locate. intros H.
  destruct (scan_found _ _ _ _ H) as [r [Hn Hh]].
  pose proof (scan_cursor_bounds (skipn cur tbl) cur c p) as B.
  exists r; split; [|exact Hh].
  rewrite nth_error_skipn in Hn.
  rewrite <- Hn. f_equal. lia.
Qed.

(** On a sorted table the walk finds the query exactly when some record
    of the table holds it. *)
Lemma scan_member (tbl : list A) (cur : nat) (c p : Z) :
  sortedK tbl -> snd (scanK tbl cur c p) = memberK tbl c p.
Proof.
  unfold sorted, member.
  revert cur; induction tbl as [|r tbl IH]; intros cur Hs; simpl; [reflexivity|].
  inversion Hs as [|? ? Hs' Hr]; subst.
  assert (Later : (c < kchr r \/ (c = kchr r /\ p < klo r)) ->
                  existsb (holdsK c p) tbl = false).
  { intros Hq. apply not_true_is_false. intros Hex.
    apply existsb_exists in Hex as [r' [Hin Hh]].
    rewrite Forall_forall in Hr. specialize (Hr r' Hin).
    unfold key_le in Hr. unfold holds in Hh.
    zcases; try discriminate; lia. }
  specialize (IH (S cur) Hs').
  unfold holds at 1.
  zcases; try reflexivity; try exact IH; try lia;
    symmetry; apply Later; lia.
Qed.

Lemma locate_member (tbl : list A) (cur : nat) (c p : Z) :
  sortedK tbl -> behindK tbl cur c p ->
  snd (locateK tbl cur c p) = memberK tbl c p.
Proof.
  intros Hs B. rewrite (locate_fresh _ _ _ _ B).
  unfold locate. simpl. apply scan_member, Hs.
Qed.
End ScanFacts.

(** ** estDAF.c: the three loops of column 2 are the cursor loop *)

Module DafFacts.
Import EstDAF.

Lemma state_eta (st : vcf_state) :
  mkVcf (chr st) (pos st) (gene_i st) (coord_i st) (div_i st) (ok st) (rd st)
        (da_i st) (a_i st) (s_i st) (ref st) (alt st) (gene st) (out st) (err st)
  = st.
Proof. destruct st; reflexivity. Qed.

Lemma set_gene_i_same (st : vcf_state) : set_gene_i (gene_i st) st = st.
Proof. destruct st; reflexivity. Qed.

Lemma div_loop_scan (dv : list Site_s) (st : vcf_state) :
  div_loop dv st =
  let r := scan s_chr s_pos s_pos dv (div_i st) (chr st) (pos st) in
  set_rd (rd st || snd r) (set_div_i (fst r) st).
Proof.
  revert st; induction dv as [|d dv IH]; intros st; simpl.
  - unfold set_rd, set_div_i; simpl. rewrite orb_false_r. symmetry; apply state_eta.
  - zcases; try lia; try (rewrite IH; reflexivity);
      unfold set_rd, set_div_i; simpl;
      rewrite ?orb_false_r, ?orb_true_r; try reflexivity;
      symmetry; apply state_eta.
Qed.

Lemma gene_change_cursors (id : string) (st : vcf_state) :
  chr (gene_change id st) = chr st /\ pos (gene_change id st) = pos st /\
  gene_i (gene_change id st) = gene_i st /\
  coord_i (gene_change id st) = coord_i st /\
  div_i (gene_change id st) = div_i st /\
  ok (gene_change id st) = ok st /\ rd (gene_change id st) = rd st.
Proof.
  unfold gene_change.
  destruct (gene st) as [g|]; [destruct (negb (String.eqb g id))|];
    simpl; repeat split; reflexivity.
Qed.

Lemma coord_loop_scan (g : Region_s) (div : list Site_s) (cs : list Region_s)
  (st : vcf_state) :
  coord_loop g div cs st =
  let r := scan r_chr r_start r_stop cs (coord_i st) (chr st) (pos st) in
  let st1 := set_coord_i (fst r) st in
  if snd r
  then let st2 := gene_change (r_id g) st1 in
       set_ok true (div_loop (skipn (div_i st2) div) st2)
  else st1.
Proof.
  revert st; induction cs as [|c cs IH]; intros st; simpl.
  - unfold set_coord_i; simpl. symmetry; apply state_eta.
  - zcases; try lia; try (rewrite IH; reflexivity);
      unfold set_coord_i; simpl; rewrite state_eta; reflexivity.
Qed.

Lemma gene_i_set_gene_i (k : nat) (st : vcf_state) :
  gene_i (set_gene_i k st) = k.
Proof. reflexivity. Qed.

Lemma chr_set_gene_i (k : nat) (st : vcf_state) :
  chr (set_gene_i k st) = chr st.
Proof. reflexivity. Qed.

Lemma pos_set_gene_i (k : nat) (st : vcf_state) :
  pos (set_gene_i k st) = pos st.
Proof. reflexivity. Qed.

Lemma set_gene_i_twice (a b : nat) (st : vcf_state) :
  set_gene_i a (set_gene_i b st) = set_gene_i a st.
Proof. reflexivity. Qed.

Lemma gene_loop_scan (coords : list Region_s) (div : list Site_s)
  (gs : list Region_s) (st : vcf_state) :
  gene_loop coords div gs st =
  let r := scan r_chr r_start r_stop gs (gene_i st) (chr st) (pos st) in
  let st1 := set_gene_i (fst r) st in
  if snd r
  then match nth_error gs (fst r - gene_i st) with
       | Some g => coord_loop g div (skipn (coord_i st1) coords) st1
       | None => st1
       end
  else st1.
Proof.
  revert st; induction gs as [|g gs IH]; intros st.
  - cbn [gene_loop scan fst snd]. rewrite set_gene_i_same. reflexivity.
  - cbn [gene_loop scan].
    pose proof (scan_cursor_bounds r_chr r_start r_stop gs (S (gene_i st))
                  (chr st) (pos st)) as B.
    assert (E : forall k, (S (gene_i st) <= k)%nat ->
                (k - gene_i st = S (k - S (gene_i st)))%nat) by (intros; lia).
    assert (Step : gene_loop coords div gs (set_gene_i (S (gene_i st)) st) =
                   (let r := scan r_chr r_start r_stop gs (S (gene_i st))
                               (chr st) (pos st) in
                    let st1 := set_gene_i (fst r) st in
                    if snd r
                    then match nth_error (g :: gs) (fst r - gene_i st) with
                         | Some g' => coord_loop g' div (skipn (coord_i st1) coords) st1
                         | None => st1
                         end
                    else st1)).
    { rewrite IH. cbv zeta.
      rewrite gene_i_set_gene_i, chr_set_gene_i, pos_set_gene_i, set_gene_i_twice.
      rewrite (E _ (proj1 B)). reflexivity. }
    destruct (chr st =? r_chr g);
      [destruct ((pos st <=? r_stop g) && (pos st >=? r_start g));
       [|destruct (pos st <? r_start g)]
      |destruct (chr st <? r_chr g)];
      cbn [fst snd]; try exact Step;
      rewrite ?Nat.sub_diag; cbn [nth_error];
      rewrite ?set_gene_i_same; reflexivity.
Qed.

Lemma div_loop_view (div : list Site_s) (st : vcf_state) :
  let Ld := locateEqual div (div_i st) (chr st) (pos st) in
  let st' := div_loop (skipn (div_i st) div) st in
  chr st' = chr st /\ pos st' = pos st /\
  gene_i st' = gene_i st /\ coord_i st' = coord_i st /\
  div_i st' = fst Ld /\ ok st' = ok st /\ rd st' = rd st || snd Ld.
Proof.
  cbv zeta. rewrite div_loop_scan. repeat split; reflexivity.
Qed.

Lemma coord_loop_view (g : Region_s) (coords : list Region_s)
  (div : list Site_s) (st : vcf_state) :
  let Lc := locateContaining coords (coord_i st) (chr st) (pos st) in
  let Ld := locateEqual div (div_i st) (chr st) (pos st) in
  let st' := coord_loop g div (skipn (coord_i st) coords) st in
  chr st' = chr st /\ pos st' = pos st /\
  gene_i st' = gene_i st /\ coord_i st' = fst Lc /\
  div_i st' = (if snd Lc then fst Ld else div_i st) /\
  ok st' = ok st || snd Lc /\
  rd st' = rd st || (snd Lc && snd Ld).
Proof.
  cbv zeta. unfold locateContaining, locate. rewrite coord_loop_scan. cbv zeta.
  destruct (snd (scan r_chr r_start r_stop (skipn (coord_i st) coords)
                   (coord_i st) (chr st) (pos st))).
  - match goal with |- context [gene_change ?i ?s] =>
      destruct (gene_change_cursors i s) as (E1 & E2 & E3 & E4 & E5 & E6 & E7);
      cbn [chr pos gene_i coord_i div_i ok rd set_coord_i] in E1, E2, E3, E4, E5, E6, E7;
      generalize dependent (gene_change i s)
    end.
    intros s2 E1 E2 E3 E4 E5 E6 E7.
    destruct (div_loop_view div s2) as (D1 & D2 & D3 & D4 & D5 & D6 & D7).
    cbn [chr pos gene_i coord_i div_i ok rd set_ok].
    rewrite D1, D2, D3, D4, D5, D7, E1, E2, E3, E4, E5, E7.
    rewrite orb_true_r. repeat split; reflexivity.
  - cbn [chr pos gene_i coord_i div_i ok rd set_coord_i andb].
    rewrite !orb_false_r. repeat split; reflexivity.
Qed.

Lemma gene_loop_view (genes coords : list Region_s) (div : list Site_s)
  (st : vcf_state) :
  let Lg := locateContaining genes (gene_i st) (chr st) (pos st) in
  let Lc := locateContaining coords (coord_i st) (chr st) (pos st) in
  let Ld := locateEqual div (div_i st) (chr st) (pos st) in
  let st' := gene_loop coords div (skipn (gene_i st) genes) st in
  chr st' = chr st /\ pos st' = pos st /\
  gene_i st' = fst Lg /\
  coord_i st' = (if snd Lg then fst Lc else coord_i st) /\
  div_i st' = (if snd Lg && snd Lc then fst Ld else div_i st) /\
  ok st' = ok st || (snd Lg && snd Lc) /\
  rd st' = rd st || (snd Lg && snd Lc && snd Ld).
Proof.
  cbv zeta. unfold locateContaining, locateEqual, locate.
  rewrite gene_loop_scan. cbv zeta.
  destruct (snd (scan r_chr r_start r_stop (skipn (gene_i st) genes)
                   (gene_i st) (chr st) (pos st))) eqn:Fg.
  - destruct (scan_found _ _ _ _ _ _ _ Fg) as [g [Hg _]]. rewrite Hg.
    assert (P : chr (set_gene_i (fst (scan r_chr r_start r_stop
                       (skipn (gene_i st) genes) (gene_i st) (chr st) (pos st))) st)
                = chr st /\
                pos (set_gene_i (fst (scan r_chr r_start r_stop
                       (skipn (gene_i st) genes) (gene_i st) (chr st) (pos st))) st)
                = pos st /\
                gene_i (set_gene_i (fst (scan r_chr r_start r_stop
                       (skipn (gene_i st) genes) (gene_i st) (chr st) (pos st))) st)
                = fst (scan r_chr r_start r_stop
                       (skipn (gene_i st) genes) (gene_i st) (chr st) (pos st)) /\
                coord_i (set_gene_i (fst (scan r_chr r_start r_stop
                       (skipn (gene_i st) genes) (gene_i st) (chr st) (pos st))) st)
                = coord_i st /\
                div_i (set_gene_i (fst (scan r_chr r_start r_stop
                       (skipn (gene_i st) genes) (gene_i st) (chr st) (pos st))) st)
                = div_i st /\
                ok (set_gene_i (fst (scan r_chr r_start r_stop
                       (skipn (gene_i st) genes) (gene_i st) (chr st) (pos st))) st)
                = ok st /\
                rd (set_gene_i (fst (scan r_chr r_start r_stop
                       (skipn (gene_i st) genes) (gene_i st) (chr st) (pos st))) st)
                = rd st) by (repeat split; reflexivity).
    generalize dependent (set_gene_i (fst (scan r_chr r_start r_stop
                       (skipn (gene_i st) genes) (gene_i st) (chr st) (pos st))) st).
    intros s1 (P1 & P2 & P3 & P4 & P5 & P6 & P7).
    destruct (coord_loop_view g coords div s1) as (C1 & C2 & C3 & C4 & C5 & C6 & C7).
    unfold locateContaining, locateEqual, locate in C4, C5, C6, C7.
    rewrite C1, C2, C3, C4, C5, C6, C7, P1, P2, P3, P4, P5, P6, P7.
    cbn [andb]. repeat split; reflexivity.
  - cbn [chr pos gene_i coord_i div_i ok rd set_gene_i andb].
    rewrite !orb_false_r. repeat split; reflexivity.
Qed.

Lemma position_view (genes coords : list Region_s) (div : list Site_s)
  (p : Z) (st : vcf_state) :
  let c := chr st in
  let Lg := locateContaining genes (gene_i st) c p in
  let Lc := locateContaining coords (coord_i st) c p in
  let Ld := locateEqual div (div_i st) c p in
  let st' := position genes coords div p st in
  chr st' = c /\ pos st' = p /\
  gene_i st' = fst Lg /\
  coord_i st' = (if snd Lg then fst Lc else coord_i st) /\
  div_i st' = (if snd Lg && snd Lc then fst Ld else div_i st) /\
  ok st' = snd Lg && snd Lc /\
  rd st' = snd Lg && snd Lc && snd Ld.
Proof.
  cbv zeta. unfold position.
  assert (P : chr (set_rd false (set_ok false (set_pos p st))) = chr st /\
              pos (set_rd false (set_ok false (set_pos p st))) = p /\
              gene_i (set_rd false (set_ok false (set_pos p st))) = gene_i st /\
              coord_i (set_rd false (set_ok false (set_pos p st))) = coord_i st /\
              div_i (set_rd false (set_ok false (set_pos p st))) = div_i st /\
              ok (set_rd false (set_ok false (set_pos p st))) = false /\
              rd (set_rd false (set_ok false (set_pos p st))) = false)
    by (repeat split; reflexivity).
  generalize dependent (set_rd false (set_ok false (set_pos p st))).
  intros s1 (P1 & P2 & P3 & P4 & P5 & P6 & P7).
  destruct (gene_loop_view genes coords div s1) as (G1 & G2 & G3 & G4 & G5 & G6 & G7).
  rewrite G1, G2, G3, G4, G5, G6, G7, P1, P2, P3, P4, P5, P6, P7.
  repeat split; reflexivity.
Qed.

Lemma init_behind (genes coords : list Region_s) (div : list Site_s) (c p : Z) :
  daf_cursors_behind genes coords div init_state c p.
Proof. repeat split; simpl; try lia. Qed.

Lemma cursors_behind_mono (genes coords : list Region_s) (div : list Site_s)
  (st : vcf_state) (c p1 p2 : Z) :
  p1 <= p2 ->
  daf_cursors_behind genes coords div st c p1 ->
  daf_cursors_behind genes coords div st c p2.
Proof.
  intros Hp (Bg & Bc & Bd).
  repeat split; try (eapply behind_mono; [exact Hp|]; eassumption);
    try apply Bg; try apply Bc; try apply Bd.
Qed.

(** A query, from cursors that have only left records before it behind,
    gives what the three lookups from the first record give. *)
Lemma query_fresh (genes coords : list Region_s) (div : list Site_s)
  (st : vcf_state) (c p : Z) :
  daf_cursors_behind genes coords div st c p ->
  let st' := daf_query genes coords div c p st in
  daf_cursors_behind genes coords div st' c p /\
  (gene_i st <= gene_i st' /\ coord_i st <= coord_i st' /\
   div_i st <= div_i st')%nat /\
  ok st' = snd (locateContaining genes 0 c p) &&
           snd (locateContaining coords 0 c p) /\
  rd st' = ok st' && snd (locateEqual div 0 c p).
Proof.
  intros (Bg & Bc & Bd). unfold daf_query.
  destruct (position_view genes coords div p (set_chr c st))
    as (_ & _ & Eg & Ec & Ed & Eok & Erd).
  simpl in Eg, Ec, Ed, Eok, Erd. cbv zeta.
  unfold daf_cursors_behind. rewrite Eg, Ec, Ed, Eok, Erd.
  unfold locateContaining, locateEqual in *.
  rewrite <- (locate_fresh _ _ _ _ _ _ _ Bg), <- (locate_fresh _ _ _ _ _ _ _ Bc),
          <- (locate_fresh _ _ _ _ _ _ _ Bd).
  pose proof (locate_behind _ _ _ _ _ _ _ Bg).
  pose proof (locate_behind _ _ _ _ _ _ _ Bc).
  pose proof (locate_behind _ _ _ _ _ _ _ Bd).
  pose proof (locate_forward r_chr r_start r_stop genes (gene_i st) c p).
  pose proof (locate_forward r_chr r_start r_stop coords (coord_i st) c p).
  pose proof (locate_forward s_chr s_pos s_pos div (div_i st) c p).
  repeat split;
    repeat match goal with |- context [if ?b then _ else _] => destruct b end;
    try assumption; try lia; try apply Bg; try apply Bc; try apply Bd;
    try match goal with H : behind _ _ _ _ _ _ _ |- _ => apply H end.
Qed.

End DafFacts.

(** ** makeDFE-alpha.c: the two loops of column 2 are the cursor loop *)

Module SfsFacts.
Import MakeDFE.

Lemma sfs_state_eta (st : vcf_state) :
  mkVcf (chr st) (pos st) (i st) (i0 st) (i1 st) (ind_i st) (site_i st)
        (div_i st) (ok st) (rd st) (geno st) (sfs st) (di st) (si st)
        (ref st) (alt st) (err st) = st.
Proof. destruct st; reflexivity. Qed.

Lemma sfs_div_loop_scan (dv : list Site_s) (st : vcf_state) :
  div_loop dv st =
  let r := scan s_chr s_pos s_pos dv (div_i st) (chr st) (pos st) in
  set_rd (rd st || snd r) (set_div_i (fst r) st).
Proof.
  revert st; induction dv as [|d dv IH]; intros st; simpl.
  - unfold set_rd, set_div_i; simpl. rewrite orb_false_r.
    symmetry; apply sfs_state_eta.
  - zcases; try lia; try (rewrite IH; reflexivity);
      unfold set_rd, set_div_i; simpl;
      rewrite ?orb_false_r, ?orb_true_r; try reflexivity;
      symmetry; apply sfs_state_eta.
Qed.

Lemma site_loop_scan (div : list Site_s) (ss : list (Z * Z)) (st : vcf_state) :
  site_loop div ss st =
  let r := scan fst snd snd ss (site_i st) (chr st) (pos st) in
  let st1 := set_site_i (fst r) st in
  if snd r
  then set_ok true (div_loop (skipn (div_i st1) div) st1)
  else st1.
Proof.
  revert st; induction ss as [|s ss IH]; intros st; simpl.
  - unfold set_site_i; simpl. symmetry; apply sfs_state_eta.
  - zcases; try lia; try (rewrite IH; reflexivity);
      unfold set_site_i; simpl; rewrite sfs_state_eta; reflexivity.
Qed.

Lemma sfs_position_view (sites : list (Z * Z)) (div : list Site_s)
  (p : Z) (st : vcf_state) :
  let c := chr st in
  let Ls := locateSite sites (site_i st) c p in
  let Ld := locateEqual div (div_i st) c p in
  let st' := position sites div p st in
  chr st' = c /\ pos st' = p /\
  site_i st' = fst Ls /\
  div_i st' = (if snd Ls then fst Ld else div_i st) /\
  ok st' = (ok st || snd Ls) /\
  rd st' = (rd st || (snd Ls && snd Ld)) /\
  geno st' = geno st /\ sfs st' = sfs st /\ di st' = di st /\ si st' = si st /\
  i st' = i st /\ i0 st' = i0 st /\ i1 st' = i1 st /\ ind_i st' = ind_i st /\
  err st' = err st.
Proof.
  unfold position, locateSite, locateEqual, locate.
  rewrite site_loop_scan; simpl.
  destruct (snd (scan fst snd snd (skipn (site_i st) sites)
                   (site_i st) (chr st) p)) eqn:Fs; simpl.
  - rewrite sfs_div_loop_scan; simpl. rewrite orb_true_r.
    repeat split; reflexivity.
  - rewrite !orb_false_r. repeat split; reflexivity.
Qed.

Lemma sfs_init_behind (sites : list (Z * Z)) (div : list Site_s) (c p : Z) :
  sfs_cursors_behind sites div init_state c p.
Proof. repeat split; simpl; try lia. Qed.

Lemma sfs_cursors_behind_mono (sites : list (Z * Z)) (div : list Site_s)
  (st : vcf_state) (c p1 p2 : Z) :
  p1 <= p2 ->
  sfs_cursors_behind sites div st c p1 ->
  sfs_cursors_behind sites div st c p2.
Proof.
  intros Hp (Bs & Bd).
  split; (eapply behind_mono; [exact Hp|]; eassumption).
Qed.

Lemma sfs_query_fresh (sites : list (Z * Z)) (div : list Site_s)
  (st : vcf_state) (c p : Z) :
  sfs_cursors_behind sites div st c p ->
  let st' := sfs_query sites div c p st in
  sfs_cursors_behind sites div st' c p /\
  (site_i st <= site_i st' /\ div_i st <= div_i st')%nat /\
  ok st' = snd (locateSite sites 0 c p) /\
  rd st' = ok st' && snd (locateEqual div 0 c p).
Proof.
  intros (Bs & Bd). unfold sfs_query.
  destruct (sfs_position_view sites div p (start_line c st))
    as (_ & _ & Es & Ed & Eok & Erd & _).
  simpl in Es, Ed, Eok, Erd. cbv zeta.
  unfold sfs_cursors_behind. rewrite Es, Ed, Eok, Erd.
  unfold locateSite, locateEqual in *.
  rewrite <- (locate_fresh _ _ _ _ _ _ _ Bs), <- (locate_fresh _ _ _ _ _ _ _ Bd).
  pose proof (locate_behind _ _ _ _ _ _ _ Bs).
  pose proof (locate_behind _ _ _ _ _ _ _ Bd).
  pose proof (locate_forward fst snd snd sites (site_i st) c p).
  pose proof (locate_forward s_chr s_pos s_pos div (div_i st) c p).
  repeat split;
    repeat match goal with |- context [if ?b then _ else _] => destruct b end;
    try assumption; try lia; try apply Bs; try apply Bd;
    try match goal with H : behind _ _ _ _ _ _ _ |- _ => apply H end.
Qed.

Lemma sfs_readVcf_from_cons (junk : nat -> Z) (sites : list (Z * Z))
  (div : list Site_s) (gc : Z) (line : string) (more : list string)
  (st st1 : vcf_state) :
  vcf_line junk sites div gc line st = Some st1 ->
  readVcf_from junk sites div gc (line :: more) st =
  readVcf_from junk sites div gc more st1.
Proof. intros H. cbn [readVcf_from]. rewrite H. reflexivity. Qed.

End SfsFacts.

(** ** C1: the cursors only move forward, and a lookup gives what a scan of
    the whole table gives *)

(** C1. Both programs, on tables sorted by chromosome and position and from
    cursors that have only left records before the first query behind (as
    they have at the start of a run): for two queries [p1 < p2] on one
    chromosome made in this order, no cursor moves backward, and the flags
    [ok] (found in the gene and coordinate tables, or in the site table) and
    [rd] (found in the divergence table) that the second query leaves are
    those of the same query made with all cursors on the first record, and
    are true exactly when a record of the whole table holds the query; the
    cursors are again such that a later query can follow. *)
Theorem C1_merge_join_equals_full_scan :
  (forall (genes coords : list EstDAF.Region_s) (div : list Site_s)
          (st : EstDAF.vcf_state) (c p1 p2 : Z),
      sorted_regions genes -> sorted_regions coords -> sorted_div div ->
      daf_cursors_behind genes coords div st c p1 ->
      p1 < p2 ->
      let s1 := daf_query genes coords div c p1 st in
      let s2 := daf_query genes coords div c p2 s1 in
      let f1 := daf_query genes coords div c p1 EstDAF.init_state in
      let f2 := daf_query genes coords div c p2 EstDAF.init_state in
      (EstDAF.gene_i st <= EstDAF.gene_i s1 <= EstDAF.gene_i s2 /\
       EstDAF.coord_i st <= EstDAF.coord_i s1 <= EstDAF.coord_i s2 /\
       EstDAF.div_i st <= EstDAF.div_i s1 <= EstDAF.div_i s2)%nat /\
      (EstDAF.ok s1 = EstDAF.ok f1 /\ EstDAF.rd s1 = EstDAF.rd f1 /\
       EstDAF.ok s2 = EstDAF.ok f2 /\ EstDAF.rd s2 = EstDAF.rd f2) /\
      (EstDAF.ok s1 = in_regions genes c p1 && in_regions coords c p1 /\
       EstDAF.rd s1 = EstDAF.ok s1 && in_div div c p1 /\
       EstDAF.ok s2 = in_regions genes c p2 && in_regions coords c p2 /\
       EstDAF.rd s2 = EstDAF.ok s2 && in_div div c p2) /\
      daf_cursors_behind genes coords div s2 c p2) /\
  (forall (sites : list (Z * Z)) (div : list Site_s)
          (st : MakeDFE.vcf_state) (c p1 p2 : Z),
      sorted_sites sites -> sorted_div div ->
      sfs_cursors_behind sites div st c p1 ->
      p1 < p2 ->
      let s1 := sfs_query sites div c p1 st in
      let s2 := sfs_query sites div c p2 s1 in
      let f1 := sfs_query sites div c p1 MakeDFE.init_state in
      let f2 := sfs_query sites div c p2 MakeDFE.init_state in
      (MakeDFE.site_i st <= MakeDFE.site_i s1 <= MakeDFE.site_i s2 /\
       MakeDFE.div_i st <= MakeDFE.div_i s1 <= MakeDFE.div_i s2)%nat /\
      (MakeDFE.ok s1 = MakeDFE.ok f1 /\ MakeDFE.rd s1 = MakeDFE.rd f1 /\
       MakeDFE.ok s2 = MakeDFE.ok f2 /\ MakeDFE.rd s2 = MakeDFE.rd f2) /\
      (MakeDFE.ok s1 = in_sites sites c p1 /\
       MakeDFE.rd s1 = MakeDFE.ok s1 && in_div div c p1 /\
       MakeDFE.ok s2 = in_sites sites c p2 /\
       MakeDFE.rd s2 = MakeDFE.ok s2 && in_div div c p2) /\
      sfs_cursors_behind sites div s2 c p2).
Proof.
  split.
  - intros genes coords div st c p1 p2 Sg Sc Sd B0 Hlt s1 s2 f1 f2.
    destruct (DafFacts.query_fresh genes coords div st c p1 B0)
      as (B1 & M1 & O1 & R1).
    fold s1 in B1, M1, O1, R1.
    assert (B1' : daf_cursors_behind genes coords div s1 c p2)
      by (eapply DafFacts.cursors_behind_mono; [|exact B1]; lia).
    destruct (DafFacts.query_fresh genes coords div s1 c p2 B1')
      as (B2 & M2 & O2 & R2).
    fold s2 in B2, M2, O2, R2.
    destruct (DafFacts.query_fresh genes coords div EstDAF.init_state c p1
                (DafFacts.init_behind _ _ _ _ _)) as (_ & _ & Of1 & Rf1).
    destruct (DafFacts.query_fresh genes coords div EstDAF.init_state c p2
                (DafFacts.init_behind _ _ _ _ _)) as (_ & _ & Of2 & Rf2).
    fold f1 in Of1, Rf1. fold f2 in Of2, Rf2.
    assert (Mg : forall p, snd (locateContaining genes 0 c p) = in_regions genes c p)
      by (intro p; apply locate_member; [exact Sg|apply behind_start]).
    assert (Mc : forall p, snd (locateContaining coords 0 c p) = in_regions coords c p)
      by (intro p; apply locate_member; [exact Sc|apply behind_start]).
    assert (Md : forall p, snd (locateEqual div 0 c p) = in_div div c p)
      by (intro p; apply locate_member; [exact Sd|apply behind_start]).
    repeat split; try lia; try exact B2; try congruence;
      try (apply B2).
    all: rewrite ?R1, ?R2, ?O1, ?O2, ?Mg, ?Mc, ?Md; reflexivity.
  - intros sites div st c p1 p2 Ss Sd B0 Hlt s1 s2 f1 f2.
    destruct (SfsFacts.sfs_query_fresh sites div st c p1 B0)
      as (B1 & M1 & O1 & R1).
    fold s1 in B1, M1, O1, R1.
    assert (B1' : sfs_cursors_behind sites div s1 c p2)
      by (eapply SfsFacts.sfs_cursors_behind_mono; [|exact B1]; lia).
    destruct (SfsFacts.sfs_query_fresh sites div s1 c p2 B1')
      as (B2 & M2 & O2 & R2).
    fold s2 in B2, M2, O2, R2.
    destruct (SfsFacts.sfs_query_fresh sites div MakeDFE.init_state c p1
                (SfsFacts.sfs_init_behind _ _ _ _)) as (_ & _ & Of1 & Rf1).
    destruct (SfsFacts.sfs_query_fresh sites div MakeDFE.init_state c p2
                (SfsFacts.sfs_init_behind _ _ _ _)) as (_ & _ & Of2 & Rf2).
    fold f1 in Of1, Rf1. fold f2 in Of2, Rf2.
    assert (Ms : forall p, snd (locateSite sites 0 c p) = in_sites sites c p)
      by (intro p; apply locate_member; [exact Ss|apply behind_start]).
    assert (Md : forall p, snd (locateEqual div 0 c p) = in_div div c p)
      by (intro p; apply locate_member; [exact Sd|apply behind_start]).
    repeat split; try lia; try exact B2; try congruence;
      try (apply B2).
    all: rewrite ?R1, ?R2, ?O1, ?O2, ?Ms, ?Md; reflexivity.
Qed.

(** ** C2: the row of the last gene *)

(** C2, evaluated on a run with two genes: the row of the first gene is
    printed when the second gene begins, and the run ends with the counters
    of the second gene filled (two derived calls of three, one site) and no
    row printed for it. *)
Theorem C2_last_gene_row_not_printed :
  exists st,
    EstDAF.readVcf Examples.genes Examples.coords [] 0
      [Examples.names;
       Examples.row "1" "50" "A" "G" ["1/1"; "0/0"; "./."];
       Examples.row "1" "250" "A" "G" ["1/1"; "1/1"; "0/0"]]%string = Some st /\
    EstDAF.out st =
      [EstDAF.OutHeader;
       EstDAF.OutRow "g1" (double_div (double_of_int 1) (double_of_int 2)) 1] /\
    EstDAF.gene st = Some "g2"%string /\
    EstDAF.da_i st = 2 /\ EstDAF.a_i st = 3 /\ EstDAF.s_i st = 1.
Proof.
  eexists. split; [vm_compute; reflexivity|].
  vm_compute. repeat split; reflexivity.
Qed.

(** ** C3: which allele is ancestral *)




(** ** C8: missing calls in the spectrum *)


(** ** C7: the lines the loaders pass over *)

Lemma readGenes_loop_total (lines : list string) (lst : list EstDAF.Region_s) :
  Forall (fun line =>
            (4 <= List.length (strtok_all (lineTerminator line)))%nat) lines ->
  exists tbl,
    EstDAF.readGenes_loop lines lst = Some tbl /\
    List.length tbl = (List.length lst + List.length lines)%nat.
Proof.
  revert lst; induction lines as [|line lines IH]; intros lst H; simpl.
  - exists lst; split; [reflexivity|lia].
  - inversion H as [|? ? Hl Hr]; subst.
    unfold EstDAF.readGenes_line.
    destruct (strtok_all (lineTerminator line)) as [|a [|b [|c [|d rest]]]];
      simpl in Hl; try lia.
    simpl.
    match goal with |- context [EstDAF.readGenes_loop lines ?l] =>
      destruct (IH l Hr) as [tbl [E L]] end.
    exists tbl; split; [exact E|].
    rewrite L, length_app; simpl; lia.
Qed.

(** C7 as specified, on two lines in the formats of MUMmer. A line of
    substitutions whose eighth field is "-1" gives a record, because that
    loader reads the chromosome from the ninth field; a line of coordinates
    whose eighth field is "2L" gives a record of chromosome 2, because only
    the first character of the field is tested. *)
Lemma C7_counterexample :
  let snp := Examples.tsv ["60"; "A"; "G"; "61"; "5"; "60"; "1"; "-1"; "1"; "q1"]%string in
  let block := Examples.tsv ["1"; "100"; "1"; "100"; "100"; "100"; "99.0"; "2L"; "q1"]%string in
  Claimed.purely_numeric (Claimed.field8 snp) = false /\
  EstDAF.readDiv [snp] = Some [mkSite 1 60 "A" "G"] /\
  Claimed.purely_numeric (Claimed.field8 block) = false /\
  EstDAF.readCoord [block] = Some [EstDAF.mkRegion 2 1 100 ""].
Proof. repeat split; vm_compute; reflexivity. Qed.

(** C7, amended. The coordinate loader reads the chromosome from the
    eighth token of a line and the divergence loader from the ninth (tokens
    are the non-empty fields between tabulators). With that token present,
    a line whose chromosome token does not begin with a decimal digit gives
    no record and no error, and the loader goes on with the next line; a
    line whose chromosome token begins with a digit gives a record. The
    gene loader has no such test: every line with four tokens gives a
    record. *)
Theorem C7_lines_passed_over :
  (forall (line start stop temp : string) (c0 : ascii),
      let toks := strtok_all (lineTerminator line) in
      nth_error toks 0 = Some start -> nth_error toks 1 = Some stop ->
      nth_error toks 7 = Some temp -> tchar temp 0 = Some c0 ->
      (isdigit c0 = false ->
       EstDAF.readCoord_line line = Some None /\
       forall rest lst,
         EstDAF.readCoord_loop (line :: rest) lst = EstDAF.readCoord_loop rest lst) /\
      (isdigit c0 = true ->
       EstDAF.readCoord_line line =
         Some (Some (EstDAF.mkRegion (atoi temp) (atoi start) (atoi stop) "")))) /\
  (forall (line p t1 t2 temp : string) (r a c0 : ascii),
      let toks := strtok_all (lineTerminator line) in
      nth_error toks 0 = Some p ->
      nth_error toks 1 = Some t1 -> tchar t1 0 = Some r ->
      nth_error toks 2 = Some t2 -> tchar t2 0 = Some a ->
      nth_error toks 8 = Some temp -> tchar temp 0 = Some c0 ->
      (isdigit c0 = false ->
       EstDAF.readDiv_line line = Some None /\
       forall rest lst,
         EstDAF.readDiv_loop (line :: rest) lst = EstDAF.readDiv_loop rest lst) /\
      (isdigit c0 = true ->
       EstDAF.readDiv_line line = Some (Some (mkSite (atoi temp) (atoi p) r a)))) /\
  (forall lines : list string,
      Forall (fun line =>
                (4 <= List.length (strtok_all (lineTerminator line)))%nat) lines ->
      exists tbl,
        EstDAF.readGenes lines = Some tbl /\
        List.length tbl = List.length lines).
Proof.
  split; [|split].
  - intros line start stop temp c0 toks H0 H1 H7 Hc.
    assert (E : EstDAF.readCoord_line line =
                if isdigit c0
                then Some (Some (EstDAF.mkRegion (atoi temp) (atoi start) (atoi stop) ""))
                else Some None).
    { unfold EstDAF.readCoord_line. fold toks. clearbody toks.
      rewrite H0, H1, H7; cbn [bind]. rewrite Hc; reflexivity. }
    split; intros Hd; rewrite Hd in E; [split|]; try exact E.
    intros rest lst. simpl. rewrite E. reflexivity.
  - intros line p t1 t2 temp r a c0 toks H0 H1 Hr H2 Ha H8 Hc.
    assert (E : EstDAF.readDiv_line line =
                if isdigit c0
                then Some (Some (mkSite (atoi temp) (atoi p) r a))
                else Some None).
    { unfold EstDAF.readDiv_line. fold toks. clearbody toks.
      rewrite H0, H1, H2, H8; cbn [bind]. rewrite Hr, Ha; cbn [bind].
      rewrite Hc; reflexivity. }
    split; intros Hd; rewrite Hd in E; [split|]; try exact E.
    intros rest lst. simpl. rewrite E. reflexivity.
  - intros lines H. unfold EstDAF.readGenes.
    destruct (readGenes_loop_total lines [] H) as [tbl [E L]].
    exists tbl; split; [exact E|exact L].
Qed.

(** ** estDAF.c: what a line does to the counters and to the output *)

Module DafLines.
Import EstDAF.

(** Column 2 leaves the counters and the output as they are, or prints the
    header for the first gene, or prints the row of the gene that ends and
    sets the counters to zero. *)
Lemma position_effect (genes coords : list Region_s) (div : list Site_s)
  (p : Z) (st : vcf_state) :
  let st' := position genes coords div p st in
  err st' = err st /\ ref st' = ref st /\ alt st' = alt st /\
  ((out st' = out st /\ gene st' = gene st /\
    da_i st' = da_i st /\ a_i st' = a_i st /\ s_i st' = s_i st) \/
   (gene st = None /\ out st' = out st ++ [OutHeader] /\
    da_i st' = da_i st /\ a_i st' = a_i st /\ s_i st' = s_i st) \/
   (exists g,
      gene st = Some g /\
      out st' = out st ++
        [OutRow g (double_div (double_of_int (da_i st)) (double_of_int (a_i st)))
           (s_i st)] /\
      da_i st' = 0 /\ a_i st' = 0 /\ s_i st' = 0)).
Proof.
  unfold position. rewrite DafFacts.gene_loop_scan. cbv zeta.
  destruct (snd (scan r_chr r_start r_stop _ _ _ _));
    [|simpl; repeat split; left; repeat split; reflexivity].
  destruct (nth_error _ _) as [g|];
    [|simpl; repeat split; left; repeat split; reflexivity].
  rewrite DafFacts.coord_loop_scan. cbv zeta.
  destruct (snd (scan r_chr r_start r_stop _ _ _ _));
    [|simpl; repeat split; left; repeat split; reflexivity].
  rewrite DafFacts.div_loop_scan. cbv zeta.
  unfold gene_change. simpl.
  destruct (gene st) as [g0|] eqn:G; simpl.
  - destruct (negb (String.eqb g0 (r_id g))); simpl.
    + repeat split. right; right. exists g0. repeat split; reflexivity.
    + repeat split. left. repeat split; try reflexivity; exact G.
  - repeat split. right; left. repeat split; reflexivity.
Qed.

Lemma genotype_effect (temp : string) (st st' : vcf_state) :
  genotype temp st = Some st' ->
  0 <= da_i st <= a_i st ->
  0 <= da_i st' <= a_i st' /\
  out st' = out st /\ err st' = err st /\ gene st' = gene st /\
  s_i st' = s_i st /\ rd st' = rd st /\ div_i st' = div_i st /\
  chr st' = chr st /\ pos st' = pos st.
Proof.
  unfold genotype. intros H Inv.
  destruct (tchar temp 0) as [t0|]; [|discriminate]. cbn [bind] in H.
  destruct (rd st) eqn:R; cbn [c_and negb] in H;
    destruct (Ascii.eqb t0 "0") eqn:E0, (Ascii.eqb t0 "1") eqn:E1;
    try (apply Ascii.eqb_eq in E0; apply Ascii.eqb_eq in E1; congruence);
    cbn [c_and bind] in H;
    destruct (Ascii.eqb t0 ".") eqn:E2;
    try (apply Ascii.eqb_eq in E0; apply Ascii.eqb_eq in E2; congruence);
    try (apply Ascii.eqb_eq in E1; apply Ascii.eqb_eq in E2; congruence);
    cbn [c_and bind negb orb] in H;
    try (destruct (tchar temp 2) as [t2|]; [|discriminate]; cbn [bind] in H;
         destruct (Ascii.eqb t2 "0") eqn:F0, (Ascii.eqb t2 "1") eqn:F1,
                  (Ascii.eqb t2 ".") eqn:F2;
         try (apply Ascii.eqb_eq in F0; apply Ascii.eqb_eq in F1; congruence);
         try (apply Ascii.eqb_eq in F0; apply Ascii.eqb_eq in F2; congruence);
         try (apply Ascii.eqb_eq in F1; apply Ascii.eqb_eq in F2; congruence);
         cbn [bind negb orb] in H);
    inversion H; subst; simpl; repeat split; try reflexivity; try assumption; lia.
Qed.

(** Every column but the second leaves the output, the gene and the
    cursors as they are, and keeps the derived calls within the callable
    ones. *)
Lemma column_effect (genes coords : list Region_s) (div : list Site_s) (gc : Z)
  (i : nat) (temp : string) (st st' : vcf_state) (brk : bool) :
  i <> 2%nat ->
  column genes coords div gc i temp st = Some (brk, st') ->
  0 <= da_i st <= a_i st ->
  0 <= da_i st' <= a_i st' /\
  out st' = out st /\ gene st' = gene st /\ s_i st' = s_i st /\
  rd st' = rd st /\ div_i st' = div_i st /\
  chr st' = chr st /\ pos st' = pos st.
Proof.
  intros Hi H Inv. unfold column in H.
  destruct (Nat.eqb i 2) eqn:E2; [apply Nat.eqb_eq in E2; contradiction|].
  destruct (Nat.eqb i 4).
  { destruct (tchar temp 0) as [c|]; [|discriminate]. cbn [bind] in H.
    simpl in H. destruct (rd st) eqn:R.
    - destruct (nth_error div (div_i st)) as [d|]; [|discriminate].
      cbn [bind] in H. destruct (negb (Ascii.eqb c (s_ref d)));
        inversion H; subst; simpl; repeat split; try reflexivity; try assumption; lia.
    - inversion H; subst; simpl; repeat split; try reflexivity; try assumption; lia. }
  destruct (Nat.eqb i 5).
  { destruct (tchar temp 0) as [c|]; [|discriminate]. cbn [bind] in H.
    simpl in H. destruct (rd st) eqn:R.
    - destruct (nth_error div (div_i st)) as [d|]; [|discriminate].
      cbn [bind] in H. destruct (negb (Ascii.eqb c (s_alt d)));
        [|destruct (negb (gc =? 0))];
        inversion H; subst; simpl; repeat split; try reflexivity; try assumption; lia.
    - cbn [bind] in H. destruct (negb (gc =? 0));
        inversion H; subst; simpl; repeat split; try reflexivity; try assumption; lia. }
  destruct (Nat.ltb 9 i).
  { destruct (genotype temp st) as [st1|] eqn:G; [|discriminate].
    cbn [bind] in H. inversion H; subst.
    destruct (genotype_effect _ _ _ G Inv) as (A & B & C & D & E & F & G' & I & J).
    repeat split; try assumption; try lia. }
  inversion H; subst. repeat split; try reflexivity; lia.
Qed.

Lemma token_loop_effect (genes coords : list Region_s) (div : list Site_s)
  (gc : Z) (toks : list string) (i : nat) (st st' : vcf_state) :
  (3 <= i)%nat ->
  token_loop genes coords div gc toks i st = Some st' ->
  0 <= da_i st <= a_i st ->
  0 <= da_i st' <= a_i st' /\
  out st' = out st /\ gene st' = gene st /\
  (s_i st' = s_i st \/ s_i st' = s_i st + 1).
Proof.
  revert i st; induction toks as [|temp rest IH]; intros i st Hi H Inv.
  - inversion H; subst. repeat split; try lia; auto.
  - cbn [token_loop] in H.
    destruct (column genes coords div gc i temp st) as [[brk st1]|] eqn:C;
      [|discriminate].
    cbn [bind] in H.
    assert (Hi2 : i <> 2%nat) by lia.
    destruct (column_effect _ _ _ _ _ _ _ _ _ Hi2 C Inv)
      as (I1 & O1 & G1 & S1 & _).
    destruct brk.
    + inversion H; subst. repeat split; try lia; auto.
    + destruct rest as [|t rest'].
      * inversion H; subst; simpl. repeat split; try lia; auto.
      * assert (Hi3 : (3 <= S i)%nat) by lia.
        destruct (IH (S i) st1 Hi3 H I1) as (I2 & O2 & G2 & S2).
        repeat split; try lia; try congruence.
Qed.

(** What one line of the variant file can print. *)
Lemma vcf_line_effect (genes coords : list Region_s) (div : list Site_s)
  (gc : Z) (line : string) (st st' : vcf_state) :
  vcf_line genes coords div gc line st = Some st' ->
  0 <= da_i st <= a_i st ->
  0 <= da_i st' <= a_i st' /\
  (out st' = out st \/
   out st' = out st ++ [OutHeader] \/
   exists g,
     gene st = Some g /\
     out st' = out st ++
       [OutRow g (double_div (double_of_int (da_i st)) (double_of_int (a_i st)))
          (s_i st)]).
Proof.
  unfold vcf_line. intros H Inv.
  destruct (strtok_all (lineTerminator line)) as [|t1 rest]; [discriminate|].
  destruct (tchar t1 0) as [c0|]; [|discriminate]. cbn [bind] in H.
  destruct (isdigit c0); [|inversion H; subst; split; [exact Inv|left; reflexivity]].
  cbn [token_loop] in H.
  change (column genes coords div gc 1 t1 (set_chr (atoi t1) st))
    with (Some (false, set_chr (atoi t1) st)) in H.
  cbn [bind] in H.
  destruct rest as [|t2 rest].
  { inversion H; subst; simpl. split; [exact Inv|left; reflexivity]. }
  cbn [token_loop] in H.
  change (column genes coords div gc 2 t2 (set_chr (atoi t1) st))
    with (let st2 := position genes coords div (atoi t2) (set_chr (atoi t1) st) in
          Some (negb (ok st2), st2)) in H.
  cbv zeta in H. cbn [bind] in H.
  set (st2 := position genes coords div (atoi t2) (set_chr (atoi t1) st)) in *.
  destruct (position_effect genes coords div (atoi t2) (set_chr (atoi t1) st))
    as (_ & _ & _ & Eff).
  fold st2 in Eff. simpl in Eff.
  assert (Inv2 : 0 <= da_i st2 <= a_i st2).
  { destruct Eff as [(_ & _ & A & B & _)|[(_ & _ & A & B & _)|(g & _ & _ & A & B & _)]];
      lia. }
  assert (Out2 : out st2 = out st \/ out st2 = out st ++ [OutHeader] \/
                 exists g, gene st = Some g /\
                   out st2 = out st ++
                     [OutRow g (double_div (double_of_int (da_i st))
                                  (double_of_int (a_i st))) (s_i st)]).
  { destruct Eff as [(A & _)|[(_ & A & _)|(g & G & A & _)]];
      [left|right; left|right; right; exists g]; auto. }
  destruct (negb (ok st2)).
  { inversion H; subst. split; assumption. }
  destruct rest as [|t3 rest].
  { inversion H; subst; simpl. split; assumption. }
  destruct (token_loop_effect _ _ _ _ _ _ _ _ (le_n 3) H Inv2) as (I3 & O3 & _).
  split; [exact I3|]. rewrite O3. exact Out2.
Qed.

(** In every state a run reaches, the derived calls of the gene in progress
    are among its callable ones. *)
Lemma readVcf_from_counters (genes coords : list Region_s) (div : list Site_s)
  (gc : Z) (lines : list string) (st st' : vcf_state) :
  readVcf_from genes coords div gc lines st = Some st' ->
  0 <= da_i st <= a_i st -> 0 <= da_i st' <= a_i st'.
Proof.
  revert st; induction lines as [|line lines IH]; intros st H Inv; simpl in H.
  - inversion H; subst; exact Inv.
  - destruct (vcf_line genes coords div gc line st) as [st1|] eqn:L; [|discriminate].
    cbn [bind] in H.
    apply (IH st1 H), (vcf_line_effect _ _ _ _ _ _ _ L Inv).
Qed.

Lemma readVcf_from_cons (genes coords : list Region_s) (div : list Site_s)
  (gc : Z) (line : string) (more : list string) (st st1 : vcf_state) :
  vcf_line genes coords div gc line st = Some st1 ->
  readVcf_from genes coords div gc (line :: more) st =
  readVcf_from genes coords div gc more st1.
Proof. intros H. cbn [readVcf_from]. rewrite H. reflexivity. Qed.

End DafLines.

(** ** C5: a gene without callable alleles *)

(** C5. In a state that a run of [estDAF.c] reaches, with no callable
    allele counted for the gene in progress: when the next line prints the
    row of that gene, the row names that gene and its number of sites, and
    the ratio in it, the IEEE 754 quotient of the two counters, is the
    not-a-number. *)
Theorem C5_zero_callable_gives_nan
  (genes coords : list EstDAF.Region_s) (div : list Site_s) (gc : Z)
  (lines : list string) (line : string) (st st' : EstDAF.vcf_state)
  (g : string) (daf : spec_float) (n : Z) :
  EstDAF.readVcf genes coords div gc lines = Some st ->
  EstDAF.a_i st = 0 ->
  EstDAF.vcf_line genes coords div gc line st = Some st' ->
  EstDAF.out st' = EstDAF.out st ++ [EstDAF.OutRow g daf n] ->
  EstDAF.gene st = Some g /\ n = EstDAF.s_i st /\ daf = S754_nan.
Proof.
  intros Run Zero Line Row.
  assert (Inv : 0 <= EstDAF.da_i st <= EstDAF.a_i st).
  { apply (DafLines.readVcf_from_counters _ _ _ _ _ _ _ Run). simpl; lia. }
  destruct (DafLines.vcf_line_effect _ _ _ _ _ _ _ Line Inv)
    as (_ & [E|[E|(g' & G & E)]]); rewrite E in Row.
  - apply (f_equal (@List.length _)) in Row.
    rewrite length_app in Row; simpl in Row; lia.
  - apply app_inv_head in Row. discriminate.
  - apply app_inv_head in Row. inversion Row; subst.
    repeat split; [exact G|].
    assert (D : EstDAF.da_i st = 0) by lia.
    rewrite D, Zero. reflexivity.
Qed.

Lemma C5_witness :
  EstDAF.gene
    (EstDAF.mkVcf 1 50 0 0 0 true false 0 0 1 "A" "G" (Some "g1"%string)
       [EstDAF.OutHeader] []) = Some "g1"%string /\
  1 = 1 /\ S754_nan = S754_nan.
Proof.
  apply (C5_zero_callable_gives_nan Examples.genes Examples.coords [] 0
           [Examples.row "1" "50" "A" "G" ["./."; "./."; "./."]]%string
           (Examples.row "1" "250" "A" "G" ["1/1"; "0/0"; "./."])%string
           (EstDAF.mkVcf 1 50 0 0 0 true false 0 0 1 "A" "G" (Some "g1"%string)
              [EstDAF.OutHeader] [])
           (EstDAF.mkVcf 1 250 1 0 0 true false 1 2 1 "A" "G" (Some "g2"%string)
              [EstDAF.OutHeader; EstDAF.OutRow "g1" S754_nan 1] [])
           "g1"%string S754_nan 1);
    vm_compute; reflexivity.
Defined.

(** ** C6: a reference allele that differs from the record *)

Lemma ascii_neq_eqb (a b : ascii) : a <> b -> Ascii.eqb a b = false.
Proof. intros H. apply not_true_is_false. intros E. apply Ascii.eqb_eq in E. auto. Qed.

Lemma digit_not_names (t1 : string) (c0 : ascii) :
  tchar t1 0 = Some c0 -> isdigit c0 = true -> String.eqb t1 "#CHROM" = false.
Proof.
  intros Hc Hd. apply not_true_is_false. intros E.
  apply String.eqb_eq in E. subst. inversion Hc; subst. discriminate.
Qed.

(** The record under the divergence cursor after a query that set [rd] is
    a record of the queried site. *)
Lemma daf_query_record (genes coords : list EstDAF.Region_s) (div : list Site_s)
  (c p : Z) (st : EstDAF.vcf_state) :
  EstDAF.rd (daf_query genes coords div c p st) = true ->
  exists d,
    nth_error div (EstDAF.div_i (daf_query genes coords div c p st)) = Some d /\
    s_chr d = c /\ s_pos d = p.
Proof.
  unfold daf_query.
  destruct (DafFacts.position_view genes coords div p (EstDAF.set_chr c st))
    as (_ & _ & _ & _ & Ed & _ & Erd).
  simpl in Ed, Erd. rewrite Erd, Ed. intros H.
  apply andb_true_iff in H as [H Hd]. rewrite H.
  destruct (locate_found _ _ _ _ _ _ _ Hd) as [d [Hn Hh]].
  exists d. split; [exact Hn|]. unfold holds in Hh. zcases; try discriminate; lia.
Qed.

Lemma sfs_query_record (sites : list (Z * Z)) (div : list Site_s)
  (c p : Z) (st : MakeDFE.vcf_state) :
  MakeDFE.rd (sfs_query sites div c p st) = true ->
  exists d,
    nth_error div (MakeDFE.div_i (sfs_query sites div c p st)) = Some d /\
    s_chr d = c /\ s_pos d = p.
Proof.
  unfold sfs_query.
  destruct (SfsFacts.sfs_position_view sites div p (MakeDFE.start_line c st))
    as (_ & _ & _ & Ed & _ & Erd & _).
  simpl in Ed, Erd. rewrite Erd, Ed. intros H.
  apply andb_true_iff in H as [H Hd]. rewrite H.
  destruct (locate_found _ _ _ _ _ _ _ Hd) as [d [Hn Hh]].
  exists d. split; [exact Hn|]. unfold holds in Hh. zcases; try discriminate; lia.
Qed.

(** The columns of a line, one by one. *)
Lemma daf_loop_cons (genes coords : list EstDAF.Region_s) (div : list Site_s)
  (gc : Z) (temp : string) (rest : list string) (i : nat) (st : EstDAF.vcf_state) :
  EstDAF.token_loop genes coords div gc (temp :: rest) i st =
  (r <- EstDAF.column genes coords div gc i temp st ;;
   let '(brk, st1) := r in
   if brk then Some st1
   else match rest with
        | [] => Some (EstDAF.set_s_i (EstDAF.s_i st1 + 1) st1)
        | _ :: _ => EstDAF.token_loop genes coords div gc rest (S i) st1
        end).
Proof. reflexivity. Qed.

Lemma daf_column_idle (genes coords : list EstDAF.Region_s) (div : list Site_s)
  (gc : Z) (i : nat) (temp : string) (st : EstDAF.vcf_state) :
  i <> 2%nat -> i <> 4%nat -> i <> 5%nat -> (i <= 9)%nat ->
  EstDAF.column genes coords div gc i temp st = Some (false, st).
Proof.
  intros H2 H4 H5 H9. unfold EstDAF.column.
  destruct (Nat.eqb_spec i 2); [contradiction|].
  destruct (Nat.eqb_spec i 4); [contradiction|].
  destruct (Nat.eqb_spec i 5); [contradiction|].
  destruct (Nat.ltb_spec 9 i); [lia|reflexivity].
Qed.

Lemma daf_column_2 (genes coords : list EstDAF.Region_s) (div : list Site_s)
  (gc : Z) (temp : string) (st : EstDAF.vcf_state) :
  EstDAF.column genes coords div gc 2 temp st =
  Some (negb (EstDAF.ok (EstDAF.position genes coords div (atoi temp) st)),
        EstDAF.position genes coords div (atoi temp) st).
Proof. reflexivity. Qed.

Lemma daf_column_4 (genes coords : list EstDAF.Region_s) (div : list Site_s)
  (gc : Z) (temp : string) (st : EstDAF.vcf_state) (c : ascii) :
  tchar temp 0 = Some c ->
  EstDAF.column genes coords div gc 4 temp st =
  if EstDAF.rd st then
    d <- nth_error div (EstDAF.div_i st) ;;
    if negb (Ascii.eqb c (s_ref d))
    then Some (true, EstDAF.warn (EstDAF.RefWarning (EstDAF.chr st) (EstDAF.pos st))
                       (EstDAF.set_ref c st))
    else Some (false, EstDAF.set_ref c st)
  else Some (false, EstDAF.set_ref c st).
Proof. intros H. unfold EstDAF.column. cbn [Nat.eqb]. rewrite H. reflexivity. Qed.

Lemma daf_column_5 (genes coords : list EstDAF.Region_s) (div : list Site_s)
  (gc : Z) (temp : string) (st : EstDAF.vcf_state) (c : ascii) :
  tchar temp 0 = Some c ->
  EstDAF.column genes coords div gc 5 temp st =
  (mismatch <- (if EstDAF.rd st
                then d <- nth_error div (EstDAF.div_i st) ;;
                     Some (negb (Ascii.eqb c (s_alt d)))
                else Some false) ;;
   if mismatch then Some (true, EstDAF.set_alt c st)
   else if negb (gc =? 0) then
     Some (negb (EstDAF.classify gc (EstDAF.rd st) (EstDAF.ref st) c),
           EstDAF.set_ok (EstDAF.classify gc (EstDAF.rd st) (EstDAF.ref st) c)
             (EstDAF.set_alt c st))
   else Some (false, EstDAF.set_alt c st)).
Proof. intros H. unfold EstDAF.column. cbn [Nat.eqb]. rewrite H. reflexivity. Qed.

Lemma sfs_loop_cons (sites : list (Z * Z)) (div : list Site_s)
  (gc : Z) (temp : string) (rest : list string) (j : nat) (st : MakeDFE.vcf_state) :
  MakeDFE.token_loop sites div gc (temp :: rest) j st =
  (r <- MakeDFE.column sites div gc j temp st ;;
   let '(brk, st1) := r in
   if brk then Some st1
   else MakeDFE.token_loop sites div gc rest (S j) st1).
Proof. reflexivity. Qed.

Lemma sfs_column_idle (sites : list (Z * Z)) (div : list Site_s)
  (gc : Z) (j : nat) (temp : string) (st : MakeDFE.vcf_state) :
  j <> 2%nat -> j <> 4%nat -> j <> 5%nat -> (j <= 9)%nat ->
  MakeDFE.column sites div gc j temp st = Some (false, st).
Proof.
  intros H2 H4 H5 H9. unfold MakeDFE.column.
  destruct (Nat.eqb_spec j 2); [contradiction|].
  destruct (Nat.eqb_spec j 4); [contradiction|].
  destruct (Nat.eqb_spec j 5); [contradiction|].
  destruct (Nat.ltb_spec 9 j); [lia|reflexivity].
Qed.

Lemma sfs_column_2 (sites : list (Z * Z)) (div : list Site_s)
  (gc : Z) (temp : string) (st : MakeDFE.vcf_state) :
  MakeDFE.column sites div gc 2 temp st =
  Some (negb (MakeDFE.ok (MakeDFE.position sites div (atoi temp) st)),
        MakeDFE.position sites div (atoi temp) st).
Proof. reflexivity. Qed.

Lemma sfs_column_4 (sites : list (Z * Z)) (div : list Site_s)
  (gc : Z) (temp : string) (st : MakeDFE.vcf_state) (c : ascii) :
  tchar temp 0 = Some c ->
  MakeDFE.column sites div gc 4 temp st =
  if MakeDFE.rd st then
    d <- nth_error div (MakeDFE.div_i st) ;;
    if negb (Ascii.eqb c (s_ref d))
    then Some (true, MakeDFE.set_ok false
                       (MakeDFE.warn (MakeDFE.RefWarning (MakeDFE.chr st) (MakeDFE.pos st))
                          (MakeDFE.set_ref c st)))
    else Some (false, MakeDFE.set_ref c st)
  else Some (false, MakeDFE.set_ref c st).
Proof. intros H. unfold MakeDFE.column. cbn [Nat.eqb]. rewrite H. reflexivity. Qed.

Lemma sfs_column_5_unfiltered (sites : list (Z * Z)) (div : list Site_s)
  (temp : string) (st : MakeDFE.vcf_state) (c : ascii) :
  tchar temp 0 = Some c ->
  MakeDFE.column sites div 0 5 temp st = Some (false, MakeDFE.set_alt c st).
Proof. intros H. unfold MakeDFE.column. cbn [Nat.eqb]. rewrite H. reflexivity. Qed.

Lemma start_line_chr (c : Z) (st : MakeDFE.vcf_state) :
  MakeDFE.chr (MakeDFE.start_line c st) = c.
Proof. reflexivity. Qed.

Lemma start_line_sfs (c : Z) (st : MakeDFE.vcf_state) :
  MakeDFE.sfs (MakeDFE.start_line c st) = MakeDFE.sfs st.
Proof. reflexivity. Qed.

Lemma start_line_si (c : Z) (st : MakeDFE.vcf_state) :
  MakeDFE.si (MakeDFE.start_line c st) = MakeDFE.si st.
Proof. reflexivity. Qed.

Lemma start_line_di (c : Z) (st : MakeDFE.vcf_state) :
  MakeDFE.di (MakeDFE.start_line c st) = MakeDFE.di st.
Proof. reflexivity. Qed.

Lemma start_line_err (c : Z) (st : MakeDFE.vcf_state) :
  MakeDFE.err (MakeDFE.start_line c st) = MakeDFE.err st.
Proof. reflexivity. Qed.

(** Column 2, as the output sees it: while the gene stays the same nothing
    is printed and the counters stay; before the first gene the header is
    printed; and when another gene begins, the row of the gene that ends is
    printed with the counters as they are, which then start from zero. *)
Lemma daf_position_row (genes coords : list EstDAF.Region_s) (div : list Site_s)
  (p : Z) (st : EstDAF.vcf_state) :
  let st' := EstDAF.position genes coords div p st in
  (EstDAF.out st' = EstDAF.out st /\ EstDAF.gene st' = EstDAF.gene st /\
   EstDAF.da_i st' = EstDAF.da_i st /\ EstDAF.a_i st' = EstDAF.a_i st /\
   EstDAF.s_i st' = EstDAF.s_i st) \/
  (EstDAF.gene st = None /\ (exists g', EstDAF.gene st' = Some g') /\
   EstDAF.out st' = EstDAF.out st ++ [EstDAF.OutHeader] /\
   EstDAF.da_i st' = EstDAF.da_i st /\ EstDAF.a_i st' = EstDAF.a_i st /\
   EstDAF.s_i st' = EstDAF.s_i st) \/
  (exists g g',
     EstDAF.gene st = Some g /\ EstDAF.gene st' = Some g' /\ g <> g' /\
     EstDAF.out st' = EstDAF.out st ++
       [EstDAF.OutRow g
          (double_div (double_of_int (EstDAF.da_i st))
                      (double_of_int (EstDAF.a_i st)))
          (EstDAF.s_i st)] /\
     EstDAF.da_i st' = 0 /\ EstDAF.a_i st' = 0 /\ EstDAF.s_i st' = 0).
Proof.
  unfold EstDAF.position. rewrite DafFacts.gene_loop_scan. cbv zeta.
  destruct (snd (scan EstDAF.r_chr EstDAF.r_start EstDAF.r_stop _ _ _ _));
    [|simpl; left; repeat split; reflexivity].
  destruct (nth_error _ _) as [g|];
    [|simpl; left; repeat split; reflexivity].
  rewrite DafFacts.coord_loop_scan. cbv zeta.
  destruct (snd (scan EstDAF.r_chr EstDAF.r_start EstDAF.r_stop _ _ _ _));
    [|simpl; left; repeat split; reflexivity].
  rewrite DafFacts.div_loop_scan. cbv zeta.
  unfold EstDAF.gene_change. simpl.
  destruct (EstDAF.gene st) as [g0|] eqn:G; simpl.
  - destruct (String.eqb g0 (EstDAF.r_id g)) eqn:E; simpl.
    + left. split; [reflexivity|]. split; [exact G|].
      split; [reflexivity|]. split; reflexivity.
    + right; right. exists g0, (EstDAF.r_id g).
      apply String.eqb_neq in E.
      split; [reflexivity|]. split; [reflexivity|]. split; [exact E|].
      split; [reflexivity|]. split; [reflexivity|]. split; reflexivity.
  - right; left. split; [reflexivity|].
    split; [exists (EstDAF.r_id g); reflexivity|].
    split; [reflexivity|]. split; [reflexivity|]. split; reflexivity.
Qed.

Lemma daf_reference_mismatch :
  forall (genes coords : list EstDAF.Region_s) (div : list Site_s) (gc : Z)
          (line : string) (more : list string) (st : EstDAF.vcf_state)
          (t1 t2 t3 t4 : string) (rest : list string) (c0 r4 : ascii) (d : Site_s),
      strtok_all (lineTerminator line) = t1 :: t2 :: t3 :: t4 :: rest ->
      tchar t1 0 = Some c0 -> isdigit c0 = true ->
      tchar t4 0 = Some r4 ->
      let st2 := daf_query genes coords div (atoi t1) (atoi t2) st in
      EstDAF.ok st2 = true -> EstDAF.rd st2 = true ->
      nth_error div (EstDAF.div_i st2) = Some d ->
      r4 <> s_ref d ->
      exists st',
        EstDAF.vcf_line genes coords div gc line st = Some st' /\
        EstDAF.err st' = EstDAF.err st ++ [EstDAF.RefWarning (atoi t1) (atoi t2)] /\
        (EstDAF.out st' = EstDAF.out st2 /\ EstDAF.gene st' = EstDAF.gene st2 /\
         EstDAF.da_i st' = EstDAF.da_i st2 /\ EstDAF.a_i st' = EstDAF.a_i st2 /\
         EstDAF.s_i st' = EstDAF.s_i st2) /\
        ((EstDAF.out st' = EstDAF.out st /\ EstDAF.gene st' = EstDAF.gene st /\
          EstDAF.da_i st' = EstDAF.da_i st /\ EstDAF.a_i st' = EstDAF.a_i st /\
          EstDAF.s_i st' = EstDAF.s_i st) \/
         (EstDAF.gene st = None /\ (exists g', EstDAF.gene st' = Some g') /\
          EstDAF.out st' = EstDAF.out st ++ [EstDAF.OutHeader] /\
          EstDAF.da_i st' = EstDAF.da_i st /\ EstDAF.a_i st' = EstDAF.a_i st /\
          EstDAF.s_i st' = EstDAF.s_i st) \/
         (exists g g',
            EstDAF.gene st = Some g /\ EstDAF.gene st' = Some g' /\ g <> g' /\
            EstDAF.out st' = EstDAF.out st ++
              [EstDAF.OutRow g
                 (double_div (double_of_int (EstDAF.da_i st))
                             (double_of_int (EstDAF.a_i st)))
                 (EstDAF.s_i st)] /\
            EstDAF.da_i st' = 0 /\ EstDAF.a_i st' = 0 /\ EstDAF.s_i st' = 0)) /\
        EstDAF.readVcf_from genes coords div gc (line :: more) st =
          EstDAF.readVcf_from genes coords div gc more st' /\
        s_chr d = atoi t1 /\ s_pos d = atoi t2.
Proof.
  intros genes coords div gc line more st t1 t2 t3 t4 rest c0 r4 d
         Toks Hc Hd H4 st2 Hok Hrd Hn Hne.
  destruct (daf_query_record genes coords div (atoi t1) (atoi t2) st Hrd)
    as (d' & Hn' & Dc & Dp).
  fold st2 in Hn'. rewrite Hn in Hn'. inversion Hn'; subst d'. clear Hn'.
  assert (E2 : st2 = EstDAF.position genes coords div (atoi t2)
                       (EstDAF.set_chr (atoi t1) st)) by reflexivity.
  clearbody st2.
  destruct (DafFacts.position_view genes coords div (atoi t2)
              (EstDAF.set_chr (atoi t1) st)) as (Ec & Ep & _).
  destruct (DafLines.position_effect genes coords div (atoi t2)
              (EstDAF.set_chr (atoi t1) st)) as (Eerr & _ & _ & _).
  pose proof (daf_position_row genes coords div (atoi t2)
                (EstDAF.set_chr (atoi t1) st)) as Row.
  cbv zeta in Row.
  rewrite <- E2 in Ec, Ep, Eerr, Row.
  cbn [EstDAF.chr EstDAF.set_chr EstDAF.err EstDAF.da_i EstDAF.a_i EstDAF.s_i
       EstDAF.out EstDAF.gene] in Ec, Ep, Eerr, Row.
  assert (L : EstDAF.vcf_line genes coords div gc line st =
              Some (EstDAF.warn (EstDAF.RefWarning (atoi t1) (atoi t2))
                      (EstDAF.set_ref r4 st2))).
  { unfold EstDAF.vcf_line. rewrite Toks, Hc. cbn [bind]. rewrite Hd.
    rewrite daf_loop_cons, daf_column_idle by lia. cbn [bind].
    rewrite daf_loop_cons, daf_column_2, <- E2.
    cbn [bind]. rewrite Hok. cbn [negb].
    rewrite daf_loop_cons, daf_column_idle by lia. cbn [bind].
    rewrite daf_loop_cons, (daf_column_4 _ _ _ _ _ _ _ H4).
    rewrite Hrd, Hn. cbn [bind].
    rewrite (ascii_neq_eqb _ _ Hne), Ec, Ep. reflexivity. }
  eexists. split; [exact L|].
  rewrite (DafLines.readVcf_from_cons _ _ _ _ _ _ _ _ L).
  split; [|split; [|split; [|split; [reflexivity|split; assumption]]]].
  - cbn [EstDAF.err EstDAF.warn EstDAF.set_ref]. rewrite Eerr. reflexivity.
  - cbn [EstDAF.out EstDAF.gene EstDAF.da_i EstDAF.a_i EstDAF.s_i
         EstDAF.warn EstDAF.set_ref].
    split; [reflexivity|]. split; [reflexivity|]. split; [reflexivity|].
    split; reflexivity.
  - cbn [EstDAF.out EstDAF.gene EstDAF.da_i EstDAF.a_i EstDAF.s_i
         EstDAF.warn EstDAF.set_ref].
    exact Row.
Qed.

Lemma sfs_reference_mismatch :
  forall (junk : nat -> Z) (sites : list (Z * Z)) (div : list Site_s) (gc : Z)
          (line : string) (more : list string) (st : MakeDFE.vcf_state)
          (t1 t2 t3 t4 : string) (rest : list string) (c0 r4 : ascii) (d : Site_s),
      strtok_all (lineTerminator line) = t1 :: t2 :: t3 :: t4 :: rest ->
      tchar t1 0 = Some c0 -> isdigit c0 = true ->
      tchar t4 0 = Some r4 ->
      let st2 := sfs_query sites div (atoi t1) (atoi t2) st in
      MakeDFE.ok st2 = true -> MakeDFE.rd st2 = true ->
      nth_error div (MakeDFE.div_i st2) = Some d ->
      r4 <> s_ref d ->
      exists st',
        MakeDFE.vcf_line junk sites div gc line st = Some st' /\
        MakeDFE.err st' = MakeDFE.err st ++ [MakeDFE.RefWarning (atoi t1) (atoi t2)] /\
        MakeDFE.sfs st' = MakeDFE.sfs st /\
        MakeDFE.si st' = MakeDFE.si st /\ MakeDFE.di st' = MakeDFE.di st /\
        MakeDFE.readVcf_from junk sites div gc (line :: more) st =
          MakeDFE.readVcf_from junk sites div gc more st' /\
        s_chr d = atoi t1 /\ s_pos d = atoi t2.
Proof.
  intros junk sites div gc line more st t1 t2 t3 t4 rest c0 r4 d
         Toks Hc Hd H4 st2 Hok Hrd Hn Hne.
  destruct (sfs_query_record sites div (atoi t1) (atoi t2) st Hrd)
    as (d' & Hn' & Dc & Dp).
  fold st2 in Hn'. rewrite Hn in Hn'. inversion Hn'; subst d'. clear Hn'.
  assert (E2 : st2 = MakeDFE.position sites div (atoi t2)
                       (MakeDFE.start_line (atoi t1) st)) by reflexivity.
  clearbody st2.
  destruct (SfsFacts.sfs_position_view sites div (atoi t2)
              (MakeDFE.start_line (atoi t1) st))
    as (Ec & Ep & _ & _ & _ & _ & _ & Esfs & Edi & Esi & _ & _ & _ & _ & Eerr).
  rewrite <- E2 in Ec, Ep, Esfs, Edi, Esi, Eerr.
  rewrite start_line_chr in Ec. rewrite start_line_sfs in Esfs.
  rewrite start_line_di in Edi. rewrite start_line_si in Esi.
  rewrite start_line_err in Eerr.
  assert (L : MakeDFE.vcf_line junk sites div gc line st =
              Some (MakeDFE.set_ok false
                      (MakeDFE.warn (MakeDFE.RefWarning (atoi t1) (atoi t2))
                         (MakeDFE.set_ref r4 st2)))).
  { unfold MakeDFE.vcf_line. rewrite Toks, (digit_not_names _ _ Hc Hd), Hc.
    cbn [bind]. rewrite Hd.
    rewrite sfs_loop_cons, sfs_column_idle by lia. cbn [bind].
    rewrite sfs_loop_cons, sfs_column_2, <- E2.
    cbn [bind]. rewrite Hok. cbn [negb].
    rewrite sfs_loop_cons, sfs_column_idle by lia. cbn [bind].
    rewrite sfs_loop_cons, (sfs_column_4 _ _ _ _ _ _ H4).
    rewrite Hrd, Hn. cbn [bind].
    rewrite (ascii_neq_eqb _ _ Hne), Ec, Ep. reflexivity. }
  eexists. split; [exact L|].
  rewrite (SfsFacts.sfs_readVcf_from_cons _ _ _ _ _ _ _ _ L).
  split; [|split; [|split; [|split; [|split; [reflexivity|split; assumption]]]]].
  - cbn [MakeDFE.err MakeDFE.warn MakeDFE.set_ref MakeDFE.set_ok].
    rewrite Eerr. reflexivity.
  - cbn [MakeDFE.sfs MakeDFE.warn MakeDFE.set_ref MakeDFE.set_ok]. exact Esfs.
  - cbn [MakeDFE.si MakeDFE.warn MakeDFE.set_ref MakeDFE.set_ok]. exact Esi.
  - cbn [MakeDFE.di MakeDFE.warn MakeDFE.set_ref MakeDFE.set_ok]. exact Edi.
Qed.

(** C6. A line of data whose site is found together with a substitution
    record [d] (the query leaves [ok] and [rd] set) and whose reference
    allele, the first character of column 4, is not the reference allele of
    [d]. In both programs the line is read without error, one warning with
    the chromosome and the position is written, and the run goes on with
    the next line. In [estDAF.c] the output, the gene and the three
    counters are those that column 2 left: as before the line while the
    gene stays the same; with the header printed before the first gene; or,
    when another gene begins, with the row of the gene that ends, printed
    with the counters of before the line, and the counters at zero. The
    site adds nothing to a counter or to a row. In [makeDFE-alpha.c] the
    spectrum and the two totals are as before. *)
Theorem C6_reference_mismatch_is_skipped :
  (forall (genes coords : list EstDAF.Region_s) (div : list Site_s) (gc : Z)
          (line : string) (more : list string) (st : EstDAF.vcf_state)
          (t1 t2 t3 t4 : string) (rest : list string) (c0 r4 : ascii) (d : Site_s),
      strtok_all (lineTerminator line) = t1 :: t2 :: t3 :: t4 :: rest ->
      tchar t1 0 = Some c0 -> isdigit c0 = true ->
      tchar t4 0 = Some r4 ->
      let st2 := daf_query genes coords div (atoi t1) (atoi t2) st in
      EstDAF.ok st2 = true -> EstDAF.rd st2 = true ->
      nth_error div (EstDAF.div_i st2) = Some d ->
      r4 <> s_ref d ->
      exists st',
        EstDAF.vcf_line genes coords div gc line st = Some st' /\
        EstDAF.err st' = EstDAF.err st ++ [EstDAF.RefWarning (atoi t1) (atoi t2)] /\
        (EstDAF.out st' = EstDAF.out st2 /\ EstDAF.gene st' = EstDAF.gene st2 /\
         EstDAF.da_i st' = EstDAF.da_i st2 /\ EstDAF.a_i st' = EstDAF.a_i st2 /\
         EstDAF.s_i st' = EstDAF.s_i st2) /\
        ((EstDAF.out st' = EstDAF.out st /\ EstDAF.gene st' = EstDAF.gene st /\
          EstDAF.da_i st' = EstDAF.da_i st /\ EstDAF.a_i st' = EstDAF.a_i st /\
          EstDAF.s_i st' = EstDAF.s_i st) \/
         (EstDAF.gene st = None /\ (exists g', EstDAF.gene st' = Some g') /\
          EstDAF.out st' = EstDAF.out st ++ [EstDAF.OutHeader] /\
          EstDAF.da_i st' = EstDAF.da_i st /\ EstDAF.a_i st' = EstDAF.a_i st /\
          EstDAF.s_i st' = EstDAF.s_i st) \/
         (exists g g',
            EstDAF.gene st = Some g /\ EstDAF.gene st' = Some g' /\ g <> g' /\
            EstDAF.out st' = EstDAF.out st ++
              [EstDAF.OutRow g
                 (double_div (double_of_int (EstDAF.da_i st))
                             (double_of_int (EstDAF.a_i st)))
                 (EstDAF.s_i st)] /\
            EstDAF.da_i st' = 0 /\ EstDAF.a_i st' = 0 /\ EstDAF.s_i st' = 0)) /\
        EstDAF.readVcf_from genes coords div gc (line :: more) st =
          EstDAF.readVcf_from genes coords div gc more st' /\
        s_chr d = atoi t1 /\ s_pos d = atoi t2) /\
  (forall (junk : nat -> Z) (sites : list (Z * Z)) (div : list Site_s) (gc : Z)
          (line : string) (more : list string) (st : MakeDFE.vcf_state)
          (t1 t2 t3 t4 : string) (rest : list string) (c0 r4 : ascii) (d : Site_s),
      strtok_all (lineTerminator line) = t1 :: t2 :: t3 :: t4 :: rest ->
      tchar t1 0 = Some c0 -> isdigit c0 = true ->
      tchar t4 0 = Some r4 ->
      let st2 := sfs_query sites div (atoi t1) (atoi t2) st in
      MakeDFE.ok st2 = true -> MakeDFE.rd st2 = true ->
      nth_error div (MakeDFE.div_i st2) = Some d ->
      r4 <> s_ref d ->
      exists st',
        MakeDFE.vcf_line junk sites div gc line st = Some st' /\
        MakeDFE.err st' = MakeDFE.err st ++ [MakeDFE.RefWarning (atoi t1) (atoi t2)] /\
        MakeDFE.sfs st' = MakeDFE.sfs st /\
        MakeDFE.si st' = MakeDFE.si st /\ MakeDFE.di st' = MakeDFE.di st /\
        MakeDFE.readVcf_from junk sites div gc (line :: more) st =
          MakeDFE.readVcf_from junk sites div gc more st' /\
        s_chr d = atoi t1 /\ s_pos d = atoi t2).
Proof. split; [exact daf_reference_mismatch|exact sfs_reference_mismatch]. Qed.

(** ** makeDFE-alpha.c: a line of data keeps the run well formed *)

Module SfsLines.
Import MakeDFE.

Lemma tchar_defined (s : string) (k : nat) :
  (k <= String.length s)%nat -> exists c, tchar s k = Some c.
Proof.
  unfold tchar. revert k; induction s as [|a s IH]; intros k H; simpl in *.
  - assert (k = 0%nat) by lia; subst. simpl. eauto.
  - destruct k as [|k]; simpl; [eauto|].
    destruct (IH k ltac:(lia)) as [c Hc]. exists c. exact Hc.
Qed.

Lemma store_some (a : list Z) (k : nat) (v : Z) :
  (k < List.length a)%nat ->
  exists a', store a k v = Some a' /\ List.length a' = List.length a.
Proof.
  revert k; induction a as [|x a IH]; intros k H; simpl in *; [lia|].
  destruct k as [|k]; [eexists; split; reflexivity|].
  destruct (IH k ltac:(lia)) as [a' [E L]]. rewrite E. cbn [bind].
  eexists; split; [reflexivity|]. simpl; lia.
Qed.

Lemma incr_some (h : list Z) (k : nat) :
  (k < List.length h)%nat ->
  exists h', incr h k = Some h' /\ List.length h' = List.length h /\
             sum h' = sum h + 1.
Proof.
  unfold incr, sum.
  revert k; induction h as [|x h IH]; intros k H; simpl in *; [lia|].
  destruct k as [|k]; simpl.
  - eexists; repeat split; simpl; lia.
  - destruct (IH k ltac:(lia)) as [h' [E [L S']]].
    destruct (nth_error h k) as [y|]; [|discriminate].
    cbn [bind] in E |- *. rewrite E. cbn [bind].
    eexists; repeat split; simpl; lia.
Qed.

Lemma count_loop_bounds (rd : bool) (i0 i1 : Z) (g : list Z) (acc : Z) :
  acc <= count_loop rd i0 i1 g acc <= acc + Z.of_nat (List.length g).
Proof.
  revert acc; induction g as [|x g IH]; intros acc; cbn [count_loop List.length].
  - lia.
  - match goal with |- context [count_loop rd i0 i1 g ?a] =>
      specialize (IH a); revert IH; generalize (count_loop rd i0 i1 g a) end.
    intros z.
    repeat match goal with |- context [if ?b then _ else _] => destruct b end;
      lia.
Qed.

(** One genotype column, with room left in [geno]. *)
Lemma genotype_total (temp : string) (st : vcf_state) (g : list Z) :
  geno st = Some g -> (i st < List.length g)%nat ->
  (2 <= String.length temp)%nat ->
  exists st' g',
    genotype temp st = Some st' /\
    geno st' = Some g' /\ List.length g' = List.length g /\
    i st' = S (i st) /\
    sfs st' = sfs st /\ si st' = si st /\ di st' = di st /\
    ind_i st' = ind_i st /\ rd st' = rd st /\ ok st' = ok st /\
    div_i st' = div_i st /\ err st' = err st.
Proof.
  intros G I L. unfold genotype.
  destruct (tchar_defined temp 0 ltac:(lia)) as [t0 H0].
  destruct (tchar_defined temp 2 L) as [t2 H2].
  rewrite H0. cbn [bind]. rewrite H2, G. cbn [bind].
  destruct (store_some g (i st) 1 I) as [g1 [E1 L1]].
  destruct (store_some g (i st) 0 I) as [g0 [E0 L0]].
  destruct (store_some g (i st) 9 I) as [g9 [E9 L9]].
  rewrite E1, E0, E9.
  destruct (Ascii.eqb t0 "1"), (Ascii.eqb t2 "1"), (Ascii.eqb t0 "0"),
           (Ascii.eqb t2 "0"); cbn [c_and bind];
    eexists; eexists; (split; [reflexivity|]);
    repeat split; try reflexivity; assumption.
Qed.

(** A column after the second, in a frame. *)
Lemma column_frame (sites : list (Z * Z)) (div : list Site_s) (gc : Z)
  (n : nat) (st0 st : vcf_state) (j : nat) (temp : string) :
  (3 <= j)%nat ->
  sfs_frame div n st0 st ->
  ((9 < j)%nat -> (i st < n)%nat /\ (2 <= String.length temp)%nat) ->
  exists brk st',
    column sites div gc j temp st = Some (brk, st') /\
    sfs_frame div n st0 st' /\
    ((9 < j)%nat -> i st' = S (i st)) /\
    ((j <= 9)%nat -> i st' = i st) /\
    ((6 <= j)%nat -> brk = false /\ ok st' = ok st /\ rd st' = rd st).
Proof.
  intros Hj ((g & G & Lg) & F1 & F2 & F3 & F4 & F5) Hg.
  destruct (tchar_defined temp 0 ltac:(lia)) as [c Hc].
  unfold column.
  destruct (Nat.eqb_spec j 2); [lia|].
  destruct (Nat.eqb_spec j 4).
  { rewrite Hc. cbn [bind]. cbv zeta.
    change (rd (set_ref c st)) with (rd st).
    change (div_i (set_ref c st)) with (div_i st).
    destruct (rd st) eqn:R.
    - destruct (nth_error div (div_i st)) as [d|] eqn:N.
      2:{ apply nth_error_None in N. specialize (F5 eq_refl). lia. }
      cbn [bind]. destruct (negb _); eexists; eexists; (split; [reflexivity|]);
        (split; [|split; [|split]]); try lia;
        unfold sfs_frame; cbn; try rewrite R;
        repeat split; eauto; try discriminate.
    - eexists; eexists; (split; [reflexivity|]); (split; [|split; [|split]]);
        try lia; unfold sfs_frame; cbn; try rewrite R;
        repeat split; eauto; try discriminate. }
  destruct (Nat.eqb_spec j 5).
  { rewrite Hc. cbn [bind]. cbv zeta.
    destruct (negb (gc =? 0)).
    - change (rd (set_ok false (set_alt c st))) with (rd st).
      change (div_i (set_ok false (set_alt c st))) with (div_i st).
      destruct (rd st) eqn:R.
      + destruct (nth_error div (div_i st)) as [d|] eqn:N.
        2:{ apply nth_error_None in N. specialize (F5 eq_refl). lia. }
        cbn [bind].
        repeat match goal with |- context [if ?b then _ else _] => destruct b end;
          eexists; eexists; (split; [reflexivity|]); (split; [|split; [|split]]);
          try lia; unfold sfs_frame; cbn; try rewrite R;
          repeat split; eauto; try discriminate.
      + cbn [bind].
        repeat match goal with |- context [if ?b then _ else _] => destruct b end;
          eexists; eexists; (split; [reflexivity|]); (split; [|split; [|split]]);
          try lia; unfold sfs_frame; cbn; try rewrite R;
          repeat split; eauto; try discriminate.
    - eexists; eexists; (split; [reflexivity|]); (split; [|split; [|split]]);
        try lia; unfold sfs_frame; cbn;
        repeat split; eauto. }
  destruct (Nat.ltb_spec 9 j) as [H9|H9].
  { destruct (Hg H9) as [Hi Hl].
    destruct (genotype_total temp st g G ltac:(lia) Hl)
      as (st' & g' & E & G' & L' & I' & A1 & A2 & A3 & A4 & A5 & A6 & A7 & A8).
    rewrite E. cbn [bind].
    eexists; eexists; (split; [reflexivity|]).
    split; [|split; [|split]]; try lia; auto.
    unfold sfs_frame. rewrite A1, A2, A3, A4, A5, A7.
    repeat split; eauto; try congruence. exists g'; split; [auto|lia]. }
  eexists; eexists; (split; [reflexivity|]).
  split; [|split; [|split]]; try lia; auto.
  unfold sfs_frame; repeat split; eauto.
Qed.

(** The loop over the tokens, from a column after the second. *)
Lemma token_loop_frame (sites : list (Z * Z)) (div : list Site_s) (gc : Z)
  (n : nat) (st0 : vcf_state) (toks : list string) (j : nat) (st : vcf_state) :
  (3 <= j)%nat ->
  sfs_frame div n st0 st ->
  (i st + (List.length toks - (10 - j)) <= n)%nat ->
  ((10 <= j)%nat -> i st = (j - 10)%nat) ->
  ((j <= 10)%nat -> i st = 0%nat) ->
  forallb (fun g => (2 <=? String.length g)%nat) (skipn (10 - j) toks) = true ->
  exists st',
    token_loop sites div gc toks j st = Some st' /\
    sfs_frame div n st0 st' /\
    ((6 <= j)%nat -> ok st' = ok st /\ rd st' = rd st).
Proof.
  revert j st; induction toks as [|temp rest IH]; intros j st Hj F Hn Hi Hi0 Hl.
  - exists st. split; [reflexivity|split; [exact F|auto]].
  - rewrite sfs_loop_cons.
    assert (Hg : (9 < j)%nat -> (i st < n)%nat /\ (2 <= String.length temp)%nat).
    { intros H9. replace (10 - j)%nat with 0%nat in * by lia.
      cbn [skipn forallb] in Hl. apply andb_true_iff in Hl as [Hl _].
      apply Nat.leb_le in Hl. cbn [List.length] in Hn. lia. }
    destruct (column_frame sites div gc n st0 st j temp Hj F Hg)
      as (brk & st1 & C & F1 & I9 & I8 & K).
    rewrite C. cbn [bind].
    destruct brk.
    + exists st1. split; [reflexivity|split; [exact F1|]].
      intros H6. destruct (K H6) as [B _]; discriminate.
    + assert (Hl' : forallb (fun g => (2 <=? String.length g)%nat)
                      (skipn (10 - S j) rest) = true).
      { destruct (Nat.le_gt_cases 10 j) as [A|A].
        - replace (10 - j)%nat with 0%nat in Hl by lia.
          replace (10 - S j)%nat with 0%nat by lia.
          cbn [skipn forallb] in Hl |- *. apply andb_true_iff in Hl. tauto.
        - replace (10 - j)%nat with (S (10 - S j)) in Hl by lia.
          cbn [skipn] in Hl. exact Hl. }
      assert (Hn' : (i st1 + (List.length rest - (10 - S j)) <= n)%nat).
      { cbn [List.length] in Hn.
        destruct (Nat.le_gt_cases 10 j) as [A|A].
        - rewrite (I9 ltac:(lia)). lia.
        - rewrite (I8 ltac:(lia)). lia. }
      assert (Hi' : (10 <= S j)%nat -> i st1 = (S j - 10)%nat).
      { intros A. destruct (Nat.le_gt_cases 10 j) as [A'|A'].
        - rewrite (I9 ltac:(lia)), (Hi A'). lia.
        - rewrite (I8 ltac:(lia)), (Hi0 ltac:(lia)). lia. }
      assert (Hi0' : (S j <= 10)%nat -> i st1 = 0%nat).
      { intros A. rewrite (I8 ltac:(lia)). apply Hi0. lia. }
      destruct (IH (S j) st1 ltac:(lia) F1 Hn' Hi' Hi0' Hl')
        as (st' & T & F' & K').
      exists st'. split; [exact T|]. split; [exact F'|].
      intros H6. destruct (K H6) as (_ & O1 & R1).
      destruct (K' ltac:(lia)) as (O2 & R2). split; congruence.
Qed.

Lemma rd_set_sfs (v : option (list Z)) (st : vcf_state) :
  rd (set_sfs v st) = rd st.
Proof. reflexivity. Qed.

(** What follows the loop: a site that is kept adds one to one cell of the
    spectrum and to the total. *)
Lemma tally_consistent (st0 st : vcf_state) (div : list Site_s) :
  sfs_consistent st0 ->
  sfs_frame div (ind_i st0) st0 st ->
  exists st',
    tally st = Some st' /\ sfs_consistent st' /\ ind_i st' = ind_i st0 /\
    err st' = err st /\
    site_i st' = site_i st /\ div_i st' = div_i st /\
    (ok st = false -> si st' = si st0 /\ di st' = di st0 /\ sfs st' = sfs st0) /\
    (ok st = true -> si st' = si st0 + 1 /\
                     di st' = di st0 + (if rd st then 1 else 0)).
Proof.
  intros (g0 & h & G0 & H & Lg0 & Lh & S0 & D0)
         ((g & G & Lg) & F1 & F2 & F3 & F4 & F5).
  unfold tally. destruct (ok st) eqn:O; cbn [negb].
  - rewrite G, F1, H. cbn [bind].
    pose proof (count_loop_bounds (rd st) (i0 st) (i1 st)
                  (firstn (ind_i st) g) 0) as B.
    rewrite length_firstn in B.
    destruct (incr_some h (Z.to_nat (count_loop (rd st) (i0 st) (i1 st)
                                       (firstn (ind_i st) g) 0)))
      as (h' & E & Lh' & S'); [lia|].
    rewrite E. cbn [bind]. rewrite rd_set_sfs.
    destruct (rd st) eqn:R;
      (eexists; split; [reflexivity|]);
      (split; [exists g, h'; cbn; rewrite ?G, ?F2, ?F3, ?F4;
               repeat split; try reflexivity; lia|]);
      cbn; rewrite ?F2, ?F3, ?F4;
      repeat split; try reflexivity; try discriminate; try lia.
  - exists st. split; [reflexivity|].
    split; [exists g, h; rewrite G, F1, F2, F3, F4; repeat split; auto; lia|].
    repeat split; auto; discriminate.
Qed.

Lemma start_line_frame (div : list Site_s) (c : Z) (st : vcf_state) :
  sfs_consistent st ->
  sfs_frame div (ind_i st) st (start_line c st) /\
  ok (start_line c st) = false /\ i (start_line c st) = 0%nat /\
  err (start_line c st) = err st /\ chr (start_line c st) = c.
Proof.
  intros (g & h & G & H & Lg & Lh & _).
  repeat split; try reflexivity; try discriminate.
  exists g. split; [exact G|exact Lg].
Qed.

Lemma position_frame (sites : list (Z * Z)) (div : list Site_s) (n : nat)
  (p : Z) (st0 st : vcf_state) :
  sfs_frame div n st0 st -> rd st = false ->
  sfs_frame div n st0 (position sites div p st) /\
  i (position sites div p st) = i st /\
  err (position sites div p st) = err st.
Proof.
  intros ((g & G & Lg) & F1 & F2 & F3 & F4 & F5) R.
  destruct (SfsFacts.sfs_position_view sites div p st)
    as (_ & _ & _ & Ed & _ & Erd & Eg & Es & Edi & Esi & Ei & _ & _ & En & Ee).
  rewrite R in Erd. cbn [orb] in Erd.
  split; [|split; assumption].
  unfold sfs_frame. rewrite Eg, Es, Edi, Esi, En, Erd, Ed.
  repeat split; auto. { exists g; auto. }
  intros Hf. apply andb_true_iff in Hf as [Hs Hd]. rewrite Hs.
  destruct (locate_found _ _ _ _ _ _ _ Hd) as [d [Hn _]].
  apply nth_error_Some. unfold locateEqual. rewrite Hn. discriminate.
Qed.

Lemma is_data_tokens (n : nat) (line : string) :
  is_data n line = true ->
  exists t rest,
    strtok_all (lineTerminator line) = t :: rest /\
    String.eqb t "#CHROM" = false /\
    (List.length (t :: rest) - 9 <= n)%nat /\
    forallb (fun g => (2 <=? String.length g)%nat) (skipn 9 (t :: rest)) = true.
Proof.
  unfold is_data. destruct (strtok_all (lineTerminator line)) as [|t rest];
    [discriminate|].
  intros H. apply andb_true_iff in H as [H H3].
  apply andb_true_iff in H as [H1 H2].
  exists t, rest. repeat split; auto.
  - now apply negb_true_iff in H1.
  - now apply Nat.leb_le in H2.
Qed.


Lemma comment_line_idle (junk : nat -> Z) (sites : list (Z * Z))
  (div : list Site_s) (gc : Z) (line : string) (st : vcf_state) :
  is_comment line = true ->
  vcf_line junk sites div gc line st = Some st.
Proof.
  unfold is_comment, first_token, vcf_line.
  destruct (strtok_all (lineTerminator line)) as [|t rest]; [discriminate|].
  cbn [hd_error]. intros H. apply andb_true_iff in H as [H1 H2].
  apply negb_true_iff in H1. rewrite H1.
  destruct (tchar t 0) as [c|]; [|discriminate]. cbn [bind].
  apply negb_true_iff in H2. rewrite H2. reflexivity.
Qed.

Lemma header_loop_count (toks : list string) (j n : nat) :
  header_loop toks j n = (n + (List.length toks - (10 - j)))%nat.
Proof.
  revert j n; induction toks as [|t toks IH]; intros j n; cbn [header_loop List.length].
  - lia.
  - rewrite IH. destruct (Nat.ltb_spec 9 j); lia.
Qed.




Lemma comment_lines_idle (junk : nat -> Z) (sites : list (Z * Z))
  (div : list Site_s) (gc : Z) (pre more : list string) (st : vcf_state) :
  forallb is_comment pre = true ->
  readVcf_from junk sites div gc (pre ++ more) st =
  readVcf_from junk sites div gc more st.
Proof.
  induction pre as [|line pre IH]; intros H; [reflexivity|].
  cbn [forallb] in H. apply andb_true_iff in H as [H1 H2].
  cbn [app].
  rewrite (SfsFacts.sfs_readVcf_from_cons _ _ _ _ _ _ _ _
             (comment_line_idle junk sites div gc line st H1)).
  exact (IH H2).
Qed.

End SfsLines.

(** ** C8, continued: the counters of a line *)



(** ** C9: the spectrum and the two totals *)



(** ** C10: class 0 *)

Lemma daf_genotype_total (temp : string) (st : EstDAF.vcf_state) :
  (2 <= String.length temp)%nat ->
  exists st', EstDAF.genotype temp st = Some st' /\
              EstDAF.s_i st' = EstDAF.s_i st.
Proof.
  intros L. unfold EstDAF.genotype.
  destruct (SfsLines.tchar_defined temp 0 ltac:(lia)) as [t0 H0].
  destruct (SfsLines.tchar_defined temp 2 L) as [t2 H2].
  rewrite H0. cbn [bind]. rewrite H2.
  destruct (EstDAF.rd st); cbn [c_and bind negb orb];
    repeat (match goal with
            | |- context [Ascii.eqb ?a ?b] => destruct (Ascii.eqb a b)
            end; cbn [c_and bind negb orb]);
    eexists; split; reflexivity.
Qed.

(** The columns from the sixth on never leave the loop, so the line is
    counted as a site. *)
Lemma daf_token_loop_total (genes coords : list EstDAF.Region_s)
  (div : list Site_s) (gc : Z) (toks : list string) (j : nat)
  (st : EstDAF.vcf_state) :
  (6 <= j)%nat -> toks <> [] ->
  forallb (fun g => (2 <=? String.length g)%nat) (skipn (10 - j) toks) = true ->
  exists st',
    EstDAF.token_loop genes coords div gc toks j st = Some st' /\
    EstDAF.s_i st' = EstDAF.s_i st + 1.
Proof.
  revert j st; induction toks as [|temp rest IH]; intros j st Hj Hne Hl;
    [contradiction|].
  rewrite daf_loop_cons.
  assert (C : exists st1, EstDAF.column genes coords div gc j temp st = Some (false, st1) /\
                          EstDAF.s_i st1 = EstDAF.s_i st).
  { destruct (Nat.le_gt_cases j 9) as [A|A].
    - exists st. split; [apply daf_column_idle; lia|reflexivity].
    - replace (10 - j)%nat with 0%nat in Hl by lia.
      cbn [skipn forallb] in Hl. apply andb_true_iff in Hl as [Hl _].
      apply Nat.leb_le in Hl.
      destruct (daf_genotype_total temp st Hl) as (st1 & G & S1).
      exists st1. split; [|exact S1].
      unfold EstDAF.column.
      destruct (Nat.eqb_spec j 2); [lia|].
      destruct (Nat.eqb_spec j 4); [lia|].
      destruct (Nat.eqb_spec j 5); [lia|].
      destruct (Nat.ltb_spec 9 j); [|lia].
      rewrite G. reflexivity. }
  destruct C as (st1 & C & S1). rewrite C. cbn [bind].
  destruct rest as [|t rest].
  - eexists. split; [reflexivity|]. cbn [EstDAF.s_i EstDAF.set_s_i]. lia.
  - assert (Hl' : forallb (fun g => (2 <=? String.length g)%nat)
                    (skipn (10 - S j) (t :: rest)) = true).
    { destruct (Nat.le_gt_cases 10 j) as [A|A].
      - replace (10 - j)%nat with 0%nat in Hl by lia.
        replace (10 - S j)%nat with 0%nat by lia.
        cbn [skipn] in Hl |- *. cbn [forallb] in Hl.
        apply andb_true_iff in Hl. tauto.
      - replace (10 - j)%nat with (S (10 - S j)) in Hl by lia.
        cbn [skipn] in Hl. exact Hl. }
    destruct (IH (S j) st1 ltac:(lia) ltac:(discriminate) Hl') as (st' & T & S').
    exists st'. split; [exact T|lia].
Qed.

Lemma frame_after_alleles (div : list Site_s) (n : nat)
  (st0 st : MakeDFE.vcf_state) (r a : ascii) :
  sfs_frame div n st0 st ->
  sfs_frame div n st0 (MakeDFE.set_alt a (MakeDFE.set_ref r st)).
Proof. intros F. exact F. Qed.

Lemma daf_unfiltered_line :
  forall (genes coords : list EstDAF.Region_s) (div : list Site_s)
         (line : string) (st : EstDAF.vcf_state)
         (t1 t2 t3 t4 t5 : string) (rest : list string) (c0 r4 a5 : ascii),
    strtok_all (lineTerminator line) = t1 :: t2 :: t3 :: t4 :: t5 :: rest ->
    tchar t1 0 = Some c0 -> isdigit c0 = true ->
    tchar t4 0 = Some r4 -> tchar t5 0 = Some a5 ->
    forallb (fun g => (2 <=? String.length g)%nat) (skipn 4 rest) = true ->
    let st2 := daf_query genes coords div (atoi t1) (atoi t2) st in
    EstDAF.ok st2 = true ->
    (EstDAF.rd st2 = true ->
     exists d, nth_error div (EstDAF.div_i st2) = Some d /\
               s_ref d = r4 /\ s_alt d = a5) ->
    exists st',
      EstDAF.vcf_line genes coords div 0 line st = Some st' /\
      EstDAF.s_i st' = EstDAF.s_i st2 + 1.
Proof.
  intros genes coords div line st t1 t2 t3 t4 t5 rest c0 r4 a5
         Toks Hc Hd H4 H5 Hl st2 Hok Hrec.
  assert (E2 : st2 = EstDAF.position genes coords div (atoi t2)
                       (EstDAF.set_chr (atoi t1) st)) by reflexivity.
  clearbody st2.
  unfold EstDAF.vcf_line. rewrite Toks, Hc. cbn [bind]. rewrite Hd.
  rewrite daf_loop_cons, daf_column_idle by lia. cbn [bind].
  rewrite daf_loop_cons, daf_column_2, <- E2.
  cbn [bind]. rewrite Hok. cbn [negb].
  rewrite daf_loop_cons, daf_column_idle by lia. cbn [bind].
  rewrite daf_loop_cons, (daf_column_4 _ _ _ _ _ _ _ H4).
  assert (C4 : (if EstDAF.rd st2
                then d <- nth_error div (EstDAF.div_i st2) ;;
                     (if negb (Ascii.eqb r4 (s_ref d))
                      then Some (true, EstDAF.warn
                                         (EstDAF.RefWarning (EstDAF.chr st2) (EstDAF.pos st2))
                                         (EstDAF.set_ref r4 st2))
                      else Some (false, EstDAF.set_ref r4 st2))
                else Some (false, EstDAF.set_ref r4 st2))
               = Some (false, EstDAF.set_ref r4 st2)).
  { destruct (EstDAF.rd st2); [|reflexivity].
    destruct (Hrec eq_refl) as (d & N & R & _). rewrite N. cbn [bind].
    rewrite R, Ascii.eqb_refl. reflexivity. }
  rewrite C4. cbn [bind].
  rewrite daf_loop_cons, (daf_column_5 _ _ _ _ _ _ _ H5).
  assert (C5 : (if EstDAF.rd (EstDAF.set_ref r4 st2)
                then d <- nth_error div (EstDAF.div_i (EstDAF.set_ref r4 st2)) ;;
                     Some (negb (Ascii.eqb a5 (s_alt d)))
                else Some false) = Some false).
  { change (EstDAF.rd (EstDAF.set_ref r4 st2)) with (EstDAF.rd st2).
    change (EstDAF.div_i (EstDAF.set_ref r4 st2)) with (EstDAF.div_i st2).
    destruct (EstDAF.rd st2); [|reflexivity].
    destruct (Hrec eq_refl) as (d & N & _ & A). rewrite N. cbn [bind].
    rewrite A, Ascii.eqb_refl. reflexivity. }
  rewrite C5. cbn [bind]. change (negb (0 =? 0)) with false. cbv iota.
  destruct rest as [|t6 rest].
  - eexists. split; [reflexivity|]. reflexivity.
  - destruct (daf_token_loop_total genes coords div 0 (t6 :: rest) 6
                (EstDAF.set_alt a5 (EstDAF.set_ref r4 st2))
                (le_n 6) ltac:(discriminate) Hl) as (st' & T & S').
    exists st'. split; [exact T|]. rewrite S'. reflexivity.
Qed.

Lemma sfs_unfiltered_line :
  forall (junk : nat -> Z) (sites : list (Z * Z)) (div : list Site_s)
         (line : string) (st : MakeDFE.vcf_state)
         (t1 t2 t3 t4 t5 : string) (rest : list string) (c0 r4 a5 : ascii),
    strtok_all (lineTerminator line) = t1 :: t2 :: t3 :: t4 :: t5 :: rest ->
    tchar t1 0 = Some c0 -> isdigit c0 = true ->
    tchar t4 0 = Some r4 -> tchar t5 0 = Some a5 ->
    sfs_consistent st ->
    (List.length rest - 4 <= MakeDFE.ind_i st)%nat ->
    forallb (fun g => (2 <=? String.length g)%nat) (skipn 4 rest) = true ->
    let st2 := sfs_query sites div (atoi t1) (atoi t2) st in
    MakeDFE.ok st2 = true ->
    (MakeDFE.rd st2 = true ->
     exists d, nth_error div (MakeDFE.div_i st2) = Some d /\ s_ref d = r4) ->
    exists st',
      MakeDFE.vcf_line junk sites div 0 line st = Some st' /\
      MakeDFE.si st' = MakeDFE.si st + 1.
Proof.
  intros junk sites div line st t1 t2 t3 t4 t5 rest c0 r4 a5
         Toks Hc Hd H4 H5 Cst Hn Hl st2 Hok Hrec.
  assert (E2 : st2 = MakeDFE.position sites div (atoi t2)
                       (MakeDFE.start_line (atoi t1) st)) by reflexivity.
  clearbody st2.
  destruct (SfsLines.start_line_frame div (atoi t1) st Cst) as (F0 & _ & I0 & _).
  destruct (SfsLines.position_frame sites div (MakeDFE.ind_i st) (atoi t2) st
              (MakeDFE.start_line (atoi t1) st) F0 eq_refl) as (F2 & I2 & _).
  rewrite <- E2 in F2, I2. rewrite I0 in I2.
  unfold MakeDFE.vcf_line. rewrite Toks, (digit_not_names _ _ Hc Hd), Hc.
  cbn [bind]. rewrite Hd.
  rewrite sfs_loop_cons, sfs_column_idle by lia. cbn [bind].
  rewrite sfs_loop_cons, sfs_column_2, <- E2.
  cbn [bind]. rewrite Hok. cbn [negb].
  rewrite sfs_loop_cons, sfs_column_idle by lia. cbn [bind].
  rewrite sfs_loop_cons, (sfs_column_4 _ _ _ _ _ _ H4).
  assert (C4 : (if MakeDFE.rd st2
                then d <- nth_error div (MakeDFE.div_i st2) ;;
                     (if negb (Ascii.eqb r4 (s_ref d))
                      then Some (true, MakeDFE.set_ok false
                                         (MakeDFE.warn
                                            (MakeDFE.RefWarning (MakeDFE.chr st2) (MakeDFE.pos st2))
                                            (MakeDFE.set_ref r4 st2)))
                      else Some (false, MakeDFE.set_ref r4 st2))
                else Some (false, MakeDFE.set_ref r4 st2))
               = Some (false, MakeDFE.set_ref r4 st2)).
  { destruct (MakeDFE.rd st2); [|reflexivity].
    destruct (Hrec eq_refl) as (d & N & R). rewrite N. cbn [bind].
    rewrite R, Ascii.eqb_refl. reflexivity. }
  rewrite C4. cbn [bind].
  rewrite sfs_loop_cons, (sfs_column_5_unfiltered _ _ _ _ _ H5). cbn [bind].
  pose proof (frame_after_alleles div _ st st2 r4 a5 F2) as F5.
  assert (I5 : MakeDFE.i (MakeDFE.set_alt a5 (MakeDFE.set_ref r4 st2)) = 0%nat)
    by exact I2.
  assert (O5 : MakeDFE.ok (MakeDFE.set_alt a5 (MakeDFE.set_ref r4 st2)) = true)
    by exact Hok.
  remember (MakeDFE.set_alt a5 (MakeDFE.set_ref r4 st2)) as s5 eqn:E5. clear E5.
  assert (Hn6 : (MakeDFE.i s5 + (List.length rest - (10 - 6)) <= MakeDFE.ind_i st)%nat)
    by (rewrite I5; exact Hn).
  destruct (SfsLines.token_loop_frame sites div 0 (MakeDFE.ind_i st) st rest 6 s5
              ltac:(lia) F5 Hn6 ltac:(lia) ltac:(lia) Hl)
    as (s6 & T6 & F6 & K6).
  rewrite T6. cbn [bind].
  destruct (K6 (le_n 6)) as (O6 & _).
  destruct (SfsLines.tally_consistent st s6 div Cst F6)
    as (st' & T & _ & _ & _ & _ & _ & _ & Kept).
  exists st'. split; [exact T|].
  apply Kept. congruence.
Qed.

(** C10 as specified, on lines that the merge-join accepts ([ok] is set
    by the query) at a site with the record (A, G), the class being 0: in
    [estDAF.c] the line with the alleles C, G and the line with the alleles
    A, T are not counted as sites, in [makeDFE-alpha.c] the line with the
    alleles C, G is not counted; the lines with the alleles A, G are. *)
Lemma C10_counterexample :
  EstDAF.ok (daf_query Examples.genes Examples.coords Examples.div 1 60
               EstDAF.init_state) = true /\
  (exists st,
     EstDAF.readVcf Examples.genes Examples.coords Examples.div 0
       [Examples.row "1" "60" "C" "G" ["1/1"; "0/0"; "./."]]%string = Some st /\
     EstDAF.s_i st = 0 /\ EstDAF.a_i st = 0) /\
  (exists st,
     EstDAF.readVcf Examples.genes Examples.coords Examples.div 0
       [Examples.row "1" "60" "A" "T" ["1/1"; "0/0"; "./."]]%string = Some st /\
     EstDAF.s_i st = 0 /\ EstDAF.a_i st = 0) /\
  (exists st,
     EstDAF.readVcf Examples.genes Examples.coords Examples.div 0
       [Examples.row "1" "60" "A" "G" ["1/1"; "0/0"; "./."]]%string = Some st /\
     EstDAF.s_i st = 1 /\ EstDAF.a_i st = 2) /\
  MakeDFE.ok (sfs_query Examples.sites Examples.div 1 60 MakeDFE.init_state) = true /\
  MakeDFE.readVcf (fun _ => 0) Examples.sites Examples.div 0
    [Examples.names; Examples.row "1" "60" "C" "G" ["1/1"; "0/0"; "./."]]%string
  = Some (MakeDFE.mkOutput [0; 0; 0; 0] 0 0) /\
  MakeDFE.readVcf (fun _ => 0) Examples.sites Examples.div 0
    [Examples.names; Examples.row "1" "60" "A" "G" ["1/1"; "0/0"; "./."]]%string
  = Some (MakeDFE.mkOutput [0; 1; 0; 0] 1 1).
Proof.
  repeat split; try (vm_compute; reflexivity);
    eexists; (split; [vm_compute; reflexivity|]); split; reflexivity.
Qed.

(** C10, amended. With class 0 no line is rejected for the class of its
    alleles. A line of data that the merge-join accepts is counted as a
    site whenever it agrees with the substitution record of its site, if
    there is one: in [estDAF.c] in both alleles, in [makeDFE-alpha.c] in
    the reference allele; without a record every pair of alleles is
    accepted. (The genotype columns have at least two characters, and in
    [makeDFE-alpha.c] they fit in the arrays allocated from the line of
    names.) *)
Theorem C10_class_zero_skips_only_the_filter :
  (forall (genes coords : list EstDAF.Region_s) (div : list Site_s)
          (line : string) (st : EstDAF.vcf_state)
          (t1 t2 t3 t4 t5 : string) (rest : list string) (c0 r4 a5 : ascii),
      strtok_all (lineTerminator line) = t1 :: t2 :: t3 :: t4 :: t5 :: rest ->
      tchar t1 0 = Some c0 -> isdigit c0 = true ->
      tchar t4 0 = Some r4 -> tchar t5 0 = Some a5 ->
      forallb (fun g => (2 <=? String.length g)%nat) (skipn 4 rest) = true ->
      let st2 := daf_query genes coords div (atoi t1) (atoi t2) st in
      EstDAF.ok st2 = true ->
      (EstDAF.rd st2 = true ->
       exists d, nth_error div (EstDAF.div_i st2) = Some d /\
                 s_ref d = r4 /\ s_alt d = a5) ->
      exists st',
        EstDAF.vcf_line genes coords div 0 line st = Some st' /\
        EstDAF.s_i st' = EstDAF.s_i st2 + 1) /\
  (forall (junk : nat -> Z) (sites : list (Z * Z)) (div : list Site_s)
          (line : string) (st : MakeDFE.vcf_state)
          (t1 t2 t3 t4 t5 : string) (rest : list string) (c0 r4 a5 : ascii),
      strtok_all (lineTerminator line) = t1 :: t2 :: t3 :: t4 :: t5 :: rest ->
      tchar t1 0 = Some c0 -> isdigit c0 = true ->
      tchar t4 0 = Some r4 -> tchar t5 0 = Some a5 ->
      sfs_consistent st ->
      (List.length rest - 4 <= MakeDFE.ind_i st)%nat ->
      forallb (fun g => (2 <=? String.length g)%nat) (skipn 4 rest) = true ->
      let st2 := sfs_query sites div (atoi t1) (atoi t2) st in
      MakeDFE.ok st2 = true ->
      (MakeDFE.rd st2 = true ->
       exists d, nth_error div (MakeDFE.div_i st2) = Some d /\ s_ref d = r4) ->
      exists st',
        MakeDFE.vcf_line junk sites div 0 line st = Some st' /\
        MakeDFE.si st' = MakeDFE.si st + 1).
Proof. split; [exact daf_unfiltered_line|exact sfs_unfiltered_line]. Qed.

(** ** C2, continued: a table of one gene *)

(** What [gene_change] prints and the gene it leaves depend on the gene,
    the counters and the output only. *)
Lemma gene_change_depends (id : string) (s s' : EstDAF.vcf_state) :
  EstDAF.gene s = EstDAF.gene s' -> EstDAF.out s = EstDAF.out s' ->
  EstDAF.da_i s = EstDAF.da_i s' -> EstDAF.a_i s = EstDAF.a_i s' ->
  EstDAF.s_i s = EstDAF.s_i s' ->
  EstDAF.out (EstDAF.gene_change id s) = EstDAF.out (EstDAF.gene_change id s') /\
  EstDAF.gene (EstDAF.gene_change id s) = EstDAF.gene (EstDAF.gene_change id s').
Proof.
  intros G O D A S'. unfold EstDAF.gene_change. rewrite <- G.
  destruct (EstDAF.gene s) as [g|] eqn:E; [destruct (negb (String.eqb g id))|];
    cbn [EstDAF.out EstDAF.gene EstDAF.print EstDAF.set_gene EstDAF.set_s_i
         EstDAF.set_a_i EstDAF.set_da_i EstDAF.da_i EstDAF.a_i EstDAF.s_i];
    rewrite ?D, ?A, ?S'; split; congruence.
Qed.

(** Column 2 leaves the output and the gene as they are, or as
    [gene_change] makes them for a gene of the table. *)
Lemma position_gene (genes coords : list EstDAF.Region_s) (div : list Site_s)
  (p : Z) (st : EstDAF.vcf_state) :
  let st' := EstDAF.position genes coords div p st in
  (EstDAF.out st' = EstDAF.out st /\ EstDAF.gene st' = EstDAF.gene st) \/
  (exists g, In g genes /\
     EstDAF.out st' = EstDAF.out (EstDAF.gene_change (EstDAF.r_id g) st) /\
     EstDAF.gene st' = EstDAF.gene (EstDAF.gene_change (EstDAF.r_id g) st)).
Proof.
  cbv zeta. unfold EstDAF.position.
  assert (P : EstDAF.gene (EstDAF.set_rd false (EstDAF.set_ok false
                             (EstDAF.set_pos p st))) = EstDAF.gene st /\
              EstDAF.out (EstDAF.set_rd false (EstDAF.set_ok false
                             (EstDAF.set_pos p st))) = EstDAF.out st /\
              EstDAF.da_i (EstDAF.set_rd false (EstDAF.set_ok false
                             (EstDAF.set_pos p st))) = EstDAF.da_i st /\
              EstDAF.a_i (EstDAF.set_rd false (EstDAF.set_ok false
                             (EstDAF.set_pos p st))) = EstDAF.a_i st /\
              EstDAF.s_i (EstDAF.set_rd false (EstDAF.set_ok false
                             (EstDAF.set_pos p st))) = EstDAF.s_i st)
    by (repeat split; reflexivity).
  generalize dependent (EstDAF.set_rd false (EstDAF.set_ok false
                          (EstDAF.set_pos p st))).
  intros s1 (P1 & P2 & P3 & P4 & P5).
  rewrite DafFacts.gene_loop_scan. cbv zeta.
  destruct (snd (scan EstDAF.r_chr EstDAF.r_start EstDAF.r_stop
                   (skipn (EstDAF.gene_i s1) genes) (EstDAF.gene_i s1)
                   (EstDAF.chr s1) (EstDAF.pos s1))) eqn:Fg;
    [|left; split; assumption].
  destruct (scan_found _ _ _ _ _ _ _ Fg) as [g [Hg _]]. rewrite Hg.
  apply nth_error_In in Hg.
  assert (Hin : In g genes).
  { rewrite <- (firstn_skipn (EstDAF.gene_i s1) genes).
    apply in_or_app. right. exact Hg. }
  rewrite DafFacts.coord_loop_scan. cbv zeta.
  match goal with |- context [if ?b then _ else _] => destruct b end;
    [|left; split; assumption].
  right. exists g. split; [exact Hin|].
  rewrite DafFacts.div_loop_scan. cbv zeta.
  cbn [EstDAF.out EstDAF.gene EstDAF.set_ok EstDAF.set_rd EstDAF.set_div_i].
  apply gene_change_depends; assumption.
Qed.

(** With a gene table of one gene no row is ever printed: the only lines
    of the output are headers, whatever the variant file holds. *)
Lemma single_gene_prints_no_row (g : EstDAF.Region_s)
  (coords : list EstDAF.Region_s) (div : list Site_s) (gc : Z)
  (lines : list string) (st : EstDAF.vcf_state) :
  EstDAF.readVcf [g] coords div gc lines = Some st ->
  Forall (fun l => l = EstDAF.OutHeader) (EstDAF.out st).
Proof.
  unfold EstDAF.readVcf.
  set (Inv := fun s : EstDAF.vcf_state =>
                Forall (fun l => l = EstDAF.OutHeader) (EstDAF.out s) /\
                (EstDAF.gene s = None \/ EstDAF.gene s = Some (EstDAF.r_id g)) /\
                0 <= EstDAF.da_i s <= EstDAF.a_i s).
  assert (Start : Inv EstDAF.init_state).
  { repeat split; cbn; auto; lia. }
  assert (Step : forall line s s',
             EstDAF.vcf_line [g] coords div gc line s = Some s' -> Inv s -> Inv s').
  { intros line s s' L (Io & Ig & Ic).
    pose proof (DafLines.vcf_line_effect _ _ _ _ _ _ _ L Ic) as [Ic' _].
    cut (Forall (fun l => l = EstDAF.OutHeader) (EstDAF.out s') /\
         (EstDAF.gene s' = None \/ EstDAF.gene s' = Some (EstDAF.r_id g))).
    { intros [A B]. split; [exact A|split; [exact B|exact Ic']]. }
    clear Ic'. revert L. unfold EstDAF.vcf_line.
    destruct (strtok_all (lineTerminator line)) as [|t1 rest]; [discriminate|].
    destruct (tchar t1 0) as [c0|]; [|discriminate]. cbn [bind].
    destruct (isdigit c0);
      [|intros L; inversion L; subst; split; [exact Io|exact Ig]].
    rewrite daf_loop_cons, daf_column_idle by lia. cbn [bind].
    destruct rest as [|t2 rest];
      [intros L; inversion L; subst; split; [exact Io|exact Ig]|].
    cbv iota. rewrite daf_loop_cons, daf_column_2.
    assert (P : Forall (fun l => l = EstDAF.OutHeader)
                  (EstDAF.out (EstDAF.position [g] coords div (atoi t2)
                                 (EstDAF.set_chr (atoi t1) s))) /\
                (EstDAF.gene (EstDAF.position [g] coords div (atoi t2)
                                (EstDAF.set_chr (atoi t1) s)) = None \/
                 EstDAF.gene (EstDAF.position [g] coords div (atoi t2)
                                (EstDAF.set_chr (atoi t1) s))
                 = Some (EstDAF.r_id g))).
    { destruct (position_gene [g] coords div (atoi t2) (EstDAF.set_chr (atoi t1) s))
        as [(O & G)|(g' & [<-|[]] & O & G)]; rewrite O, G.
      - split; [exact Io|exact Ig].
      - destruct (gene_change_depends (EstDAF.r_id g) (EstDAF.set_chr (atoi t1) s) s
                    eq_refl eq_refl eq_refl eq_refl eq_refl) as [O' G'].
        rewrite O', G'. unfold EstDAF.gene_change.
        destruct Ig as [Ig|Ig]; rewrite Ig.
        + cbn [EstDAF.out EstDAF.gene EstDAF.print EstDAF.set_gene].
          split; [|right; reflexivity].
          apply Forall_app. split; [exact Io|repeat constructor].
        + rewrite String.eqb_refl. cbn [negb]. split; [exact Io|right; exact Ig]. }
    assert (Pc : 0 <= EstDAF.da_i (EstDAF.position [g] coords div (atoi t2)
                                     (EstDAF.set_chr (atoi t1) s))
                 <= EstDAF.a_i (EstDAF.position [g] coords div (atoi t2)
                                  (EstDAF.set_chr (atoi t1) s))).
    { destruct (DafLines.position_effect [g] coords div (atoi t2)
                  (EstDAF.set_chr (atoi t1) s)) as (_ & _ & _ & Eff).
      cbn [EstDAF.da_i EstDAF.a_i EstDAF.set_chr] in Eff.
      destruct Eff as [(_ & _ & A & B & _)|[(_ & _ & A & B & _)|(x & _ & _ & A & B & _)]];
        lia. }
    generalize dependent (EstDAF.position [g] coords div (atoi t2)
                            (EstDAF.set_chr (atoi t1) s)).
    intros s2 (Po & Pg) Pc. cbn [bind].
    destruct (negb (EstDAF.ok s2));
      [intros L; inversion L; subst; split; [exact Po|exact Pg]|].
    destruct rest as [|t3 rest].
    { intros L; inversion L; subst. split; [exact Po|exact Pg]. }
    cbv iota. intros L.
    destruct (DafLines.token_loop_effect _ _ _ _ _ _ _ _ (le_n 3) L Pc)
      as (_ & O3 & G3 & _).
    rewrite O3, G3. split; [exact Po|exact Pg]. }
  generalize EstDAF.init_state Start.
  induction lines as [|line lines IH]; intros s0 I0 Run; cbn [EstDAF.readVcf_from] in Run.
  - inversion Run; subst. apply I0.
  - destruct (EstDAF.vcf_line [g] coords div gc line s0) as [s1|] eqn:L;
      [|discriminate].
    cbn [bind] in Run. exact (IH s1 (Step _ _ _ L I0) Run).
Qed.

(** ** C3, continued: the orientation the code uses *)





(** ** C4: the five classes *)

(** C4. In both programs the value of [ok] that the classification gives
    is a function of the class, of [rd] and of the two alleles, and under
    class 5 (SS+WW) a pair of alleles is eligible exactly when it is under
    class 3 (SS) or under class 4 (WW); this holds for all characters, so
    for the sixteen pairs of A, T, G, C. The same holds of column 5 as a
    whole, with the tests that come before the classification: the column
    leaves the loop (the line is rejected) under class 5 exactly when it
    does under class 3 and under class 4. *)
Theorem C4_ss_ww_is_union :
  (forall (rd : bool) (ref alt : ascii),
      EstDAF.classify 5 rd ref alt =
        EstDAF.classify 3 rd ref alt || EstDAF.classify 4 rd ref alt /\
      MakeDFE.classify 5 rd ref alt =
        MakeDFE.classify 3 rd ref alt || MakeDFE.classify 4 rd ref alt) /\
  (forall (genes coords : list EstDAF.Region_s) (div : list Site_s)
          (temp : string) (st : EstDAF.vcf_state),
      option_map fst (EstDAF.column genes coords div 5 5 temp st) =
      match option_map fst (EstDAF.column genes coords div 3 5 temp st),
            option_map fst (EstDAF.column genes coords div 4 5 temp st) with
      | Some rejected3, Some rejected4 => Some (rejected3 && rejected4)
      | _, _ => None
      end) /\
  (forall (sites : list (Z * Z)) (div : list Site_s)
          (temp : string) (st : MakeDFE.vcf_state),
      option_map fst (MakeDFE.column sites div 5 5 temp st) =
      match option_map fst (MakeDFE.column sites div 3 5 temp st),
            option_map fst (MakeDFE.column sites div 4 5 temp st) with
      | Some rejected3, Some rejected4 => Some (rejected3 && rejected4)
      | _, _ => None
      end).
Proof.
  split; [intros; split; reflexivity|split].
  - intros genes coords div temp st.
    destruct (SfsLines.tchar_defined temp 0 (Nat.le_0_l _)) as [c Hc].
    rewrite !(daf_column_5 _ _ _ _ _ _ c Hc).
    destruct (EstDAF.rd st); [destruct (nth_error div (EstDAF.div_i st)) as [d|]|];
      cbn [bind option_map fst]; try reflexivity;
      try destruct (negb (Ascii.eqb c (s_alt d)));
      cbn [bind option_map fst negb Z.eqb Pos.eqb]; try reflexivity;
      unfold EstDAF.classify; cbn [Z.eqb Pos.eqb];
      repeat match goal with |- context [Ascii.eqb ?a ?b] =>
        destruct (Ascii.eqb a b) end; reflexivity.
  - intros sites div temp st.
    destruct (SfsLines.tchar_defined temp 0 (Nat.le_0_l _)) as [c Hc].
    unfold MakeDFE.column. cbn [Nat.eqb]. rewrite Hc.
    cbn [bind negb Z.eqb Pos.eqb]. cbv zeta.
    change (MakeDFE.rd (MakeDFE.set_ok false (MakeDFE.set_alt c st)))
      with (MakeDFE.rd st).
    change (MakeDFE.div_i (MakeDFE.set_ok false (MakeDFE.set_alt c st)))
      with (MakeDFE.div_i st).
    change (MakeDFE.ref (MakeDFE.set_ok false (MakeDFE.set_alt c st)))
      with (MakeDFE.ref st).
    change (MakeDFE.alt (MakeDFE.set_ok false (MakeDFE.set_alt c st))) with c.
    destruct (MakeDFE.rd st); [destruct (nth_error div (MakeDFE.div_i st)) as [d|]|];
      cbn [bind option_map fst]; try reflexivity;
      try destruct (negb (Ascii.eqb c (s_alt d)));
      cbn [bind option_map fst]; try reflexivity;
      unfold MakeDFE.classify; cbn [Z.eqb Pos.eqb];
      repeat match goal with |- context [Ascii.eqb ?a ?b] =>
        destruct (Ascii.eqb a b) end; reflexivity.
Qed.

(** ** The loaders of [makeDFE-alpha.c] *)

Section ScanOrder.
Context {A : Type} (kchr klo khi : A -> Z).

Lemma before_lex (c p c' p' : Z) (r : A) :
  c < c' \/ (c = c' /\ p <= p') ->
  before kchr klo khi c p r = true -> before kchr klo khi c' p' r = true.
Proof. unfold before; intros; zcases; auto; lia. Qed.

Lemma behind_lex (tbl : list A) (cur : nat) (c p c' p' : Z) :
  c < c' \/ (c = c' /\ p <= p') ->
  behind kchr klo khi tbl cur c p -> behind kchr klo khi tbl cur c' p'.
Proof.
  intros Hp [Hlen Hall]; split; [exact Hlen|].
  rewrite forallb_forall in *; intros r Hr.
  eapply before_lex; eauto.
Qed.

Lemma scan_found_member (tbl : list A) (cur : nat) (c p : Z) :
  snd (scan kchr klo khi tbl cur c p) = true ->
  member kchr klo khi tbl c p = true.
Proof.
  intros H. destruct (scan_found kchr klo khi _ _ _ _ H) as [r [Hn Hh]].
  unfold member. apply existsb_exists. exists r; split; [|exact Hh].
  eapply nth_error_In; eauto.
Qed.

Lemma member_skipn (tbl : list A) (k : nat) (c p : Z) :
  member kchr klo khi (skipn k tbl) c p = true ->
  member kchr klo khi tbl c p = true.
Proof.
  unfold member. rewrite !existsb_exists. intros [r [Hin Hh]].
  exists r; split; [|exact Hh].
  rewrite <- (firstn_skipn k tbl). apply in_or_app; right; exact Hin.
Qed.
End ScanOrder.

Module LoadFacts.
Import MakeDFE.

Lemma target_loop_scan (ts : list Region_s) (k : nat) (c p : Z) :
  readSites_target_loop ts k c p = scan r_chr r_start r_stop ts k c p.
Proof.
  revert k; induction ts as [|t ts IH]; intros k; simpl; [reflexivity|].
  rewrite !IH. rewrite (andb_comm (p >=? r_start t)). reflexivity.
Qed.

Lemma readDiv_site_loop_scan (ss : list (Z * Z)) (k : nat) (c p : Z) :
  readDiv_site_loop ss k c p = scan fst snd snd ss k c p.
Proof.
  revert k; induction ss as [|s ss IH]; intros k; simpl; [reflexivity|].
  rewrite !IH. zcases; try reflexivity; lia.
Qed.

Lemma readSites_coord_loop_scan (cs : list Region_s) (k ti : nat) (c p : Z) :
  readSites_coord_loop [] cs k ti c p =
  (fst (scan r_chr r_start r_stop cs k c p), ti,
   snd (scan r_chr r_start r_stop cs k c p)).
Proof.
  revert k; induction cs as [|b cs IH]; intros k; simpl; [reflexivity|].
  rewrite !IH. rewrite (andb_comm (p >=? r_start b)).
  zcases; reflexivity.
Qed.

(** What the loop over the blocks leaves: the cursors only move forward,
    and a site is kept only when a block from the cursor on holds it and,
    with a table of regions, a region holds it. *)
Lemma holds_block (c p : Z) (b : Region_s) :
  holds r_chr r_start r_stop c p b =
  (c =? r_chr b) && ((p >=? r_start b) && (p <=? r_stop b)).
Proof. unfold holds. zcases; try reflexivity; lia. Qed.

Lemma coord_loop_sound (target cs : list Region_s) (k ti : nat) (c p : Z) :
  let r := readSites_coord_loop target cs k ti c p in
  (k <= fst (fst r) <= k + List.length cs)%nat /\
  (snd r = true ->
   in_blocks cs c p = true /\
   (target <> [] -> in_blocks target c p = true)).
Proof.
  revert k ti; induction cs as [|b cs IH]; intros k ti.
  - simpl. split; [lia|discriminate].
  - assert (T : snd (readSites_target_loop (skipn ti target) ti c p) = true ->
                in_blocks target c p = true).
    { rewrite target_loop_scan. intros Hs.
      apply (member_skipn r_chr r_start r_stop target ti).
      eapply scan_found_member; eauto. }
    assert (Next : forall ti',
      let r := readSites_coord_loop target cs (S k) ti' c p in
      (k <= fst (fst r) <= k + List.length (b :: cs))%nat /\
      (snd r = true ->
       in_blocks (b :: cs) c p = true /\
       (target <> [] -> in_blocks target c p = true))).
    { intros ti'. destruct (IH (S k) ti') as [B Hs]. cbv zeta. split.
      - simpl List.length. lia.
      - intros Hk. destruct (Hs Hk) as [S1 S2]. split; [|exact S2].
        unfold in_blocks, member in *. simpl. rewrite S1. apply orb_true_r. }
    cbn [readSites_coord_loop]. cbv zeta.
    destruct (c =? r_chr b) eqn:Ec.
    + destruct ((p >=? r_start b) && (p <=? r_stop b)) eqn:Ein.
      * assert (Hb : in_blocks (b :: cs) c p = true).
        { unfold in_blocks, member. simpl. rewrite holds_block, Ec, Ein.
          reflexivity. }
        destruct (0 <? List.length target)%nat eqn:Et.
        -- destruct (snd (readSites_target_loop (skipn ti target) ti c p)) eqn:Es.
           ++ simpl. split; [lia|]. intros _. split; [exact Hb|]. intros _. auto.
           ++ apply Next.
        -- simpl. split; [lia|]. intros _. split; [exact Hb|].
           intros Hne. destruct target; [congruence|discriminate].
      * destruct (p <? r_start b).
        -- simpl. split; [lia|discriminate].
        -- apply Next.
    + destruct (c <? r_chr b).
      * simpl. split; [lia|discriminate].
      * apply Next.
Qed.

(** A site in the block under the cursor that no region holds moves the
    cursor past the block, and is not kept. *)
Lemma coord_loop_miss (target cs : list Region_s) (b : Region_s)
  (k ti : nat) (c p : Z) :
  target <> [] ->
  holds r_chr r_start r_stop c p b = true ->
  in_blocks target c p = false ->
  let r := readSites_coord_loop target (b :: cs) k ti c p in
  (S k <= fst (fst r))%nat /\ snd r = false.
Proof.
  intros Hne Hb Hout.
  rewrite holds_block in Hb. apply andb_true_iff in Hb as [Ec Ein].
  cbn [readSites_coord_loop]. cbv zeta. rewrite Ec, Ein.
  replace (0 <? List.length target)%nat with true
    by (destruct target; [congruence|reflexivity]).
  destruct (snd (readSites_target_loop (skipn ti target) ti c p)) eqn:Es.
  - exfalso. rewrite target_loop_scan in Es.
    apply scan_found_member in Es.
    apply (member_skipn r_chr r_start r_stop target ti) in Es.
    unfold in_blocks in Hout. congruence.
  - pose proof (coord_loop_sound target cs (S k)
      (fst (readSites_target_loop (skipn ti target) ti c p)) c p) as [B Hs].
    cbv zeta in *. split; [lia|].
    destruct (snd (readSites_coord_loop target cs (S k) _ c p)) eqn:Ek;
      [|reflexivity].
    destruct (Hs eq_refl) as [_ S2]. rewrite (S2 Hne) in Hout. discriminate.
Qed.

(** One line of the list of sites, by the row it holds. *)
Lemma readSites_line_row (coords target : list Region_s) (line : string)
  (s s' : sites_state) :
  readSites_line coords target line s = Some s' ->
  match site_row line with
  | None => s' = s
  | Some (c, p) =>
      let r := readSites_coord_loop target (skipn (ss_coord_i s) coords)
                 (ss_coord_i s) (ss_target_i s) c p in
      s' = mkSites (fst (fst r)) (snd (fst r))
             (if snd r then ss_list s ++ [(c, p)] else ss_list s)
  end.
Proof.
  unfold readSites_line, site_row.
  destruct (tchar (lineTerminator line) 0) as [c0|]; [|discriminate].
  cbn [bind].
  destruct (isdigit c0); cbn [negb].
  - destruct (strtok_all (lineTerminator line)) as [|t0 [|t1 toks]];
      cbn [nth_error bind]; try discriminate.
    intros H; inversion H; reflexivity.
  - intros H; inversion H.
    destruct (strtok_all (lineTerminator line)) as [|t0 [|t1 toks]]; reflexivity.
Qed.

Lemma site_rows_cons (line : string) (lines : list string) :
  site_rows (line :: lines) =
  (match site_row line with Some s => [s] | None => [] end ++ site_rows lines)%list.
Proof. reflexivity. Qed.

(** The rows kept from some lines on: rows of these lines that a block
    from the cursor on holds, and a region when there are regions. *)
Lemma readSites_loop_sound (coords target : list Region_s)
  (lines : list string) (s s' : sites_state) :
  readSites_loop coords target lines s = Some s' ->
  (ss_coord_i s <= ss_coord_i s')%nat /\
  exists l2,
    ss_list s' = (ss_list s ++ l2)%list /\
    Forall (fun x =>
      in_block (skipn (ss_coord_i s) coords) x = true /\
      (target <> [] -> in_block target x = true) /\
      In x (site_rows lines)) l2.
Proof.
  revert s; induction lines as [|line lines IH]; intros s; simpl.
  - intros H; inversion H; subst. split; [lia|].
    exists []. rewrite app_nil_r. split; [reflexivity|constructor].
  - destruct (readSites_line coords target line s) as [s1|] eqn:E1;
      [|discriminate].
    cbn [bind]. intros H.
    destruct (IH s1 H) as [Hc [l2 [El2 F2]]].
    pose proof (readSites_line_row _ _ _ _ _ E1) as R.
    fold (site_rows lines).
    destruct (site_row line) as [[c p]|] eqn:Er.
    + cbv zeta in R.
      pose proof (coord_loop_sound target (skipn (ss_coord_i s) coords)
                    (ss_coord_i s) (ss_target_i s) c p) as [B K].
      cbv zeta in B, K.
      set (r := readSites_coord_loop target (skipn (ss_coord_i s) coords)
                  (ss_coord_i s) (ss_target_i s) c p) in *.
      assert (Ec1 : ss_coord_i s1 = fst (fst r)) by (rewrite R; reflexivity).
      assert (El1 : ss_list s1 =
                    if snd r then (ss_list s ++ [(c, p)])%list else ss_list s)
        by (rewrite R; reflexivity).
      clearbody r. clear R.
      assert (F2' : Forall (fun x =>
                in_block (skipn (ss_coord_i s) coords) x = true /\
                (target <> [] -> in_block target x = true) /\
                In x ((c, p) :: site_rows lines)) l2).
      { eapply Forall_impl; [|exact F2]. cbv beta.
        intros x [X1 [X2 X3]]. repeat split; auto.
        - unfold in_block, in_blocks in *.
          replace (skipn (ss_coord_i s1) coords)
            with (skipn (ss_coord_i s1 - ss_coord_i s)
                    (skipn (ss_coord_i s) coords)) in X1.
          + eapply member_skipn; eauto.
          + rewrite skipn_skipn. f_equal. lia.
        - right; exact X3. }
      split; [lia|].
      destruct (snd r) eqn:Es.
      * exists ((c, p) :: l2). rewrite El2, El1, <- app_assoc. split; [reflexivity|].
        constructor; [|exact F2'].
        destruct (K eq_refl) as [K1 K2]. repeat split; auto. left; reflexivity.
      * exists l2. rewrite El2, El1. split; [reflexivity|exact F2'].
    + subst s1. split; [exact Hc|]. exists l2. split; [exact El2|exact F2].
Qed.
End LoadFacts.

(** X1. [readSites] keeps nothing but rows of its file: every site it keeps
    is the pair of the first two columns of a line that begins with a digit,
    lies in a block of the coordinate table and, when a table of regions is
    given, in a region. *)
Theorem readSites_keeps_only_covered_sites
  (coords target : list MakeDFE.Region_s) (lines : list string)
  (l : list (Z * Z)) :
  MakeDFE.readSites coords target lines = Some l ->
  Forall (fun x =>
    in_block coords x = true /\
    (target <> [] -> in_block target x = true) /\
    In x (site_rows lines)) l.
Proof.
  unfold MakeDFE.readSites.
  destruct (MakeDFE.readSites_loop coords target lines (MakeDFE.mkSites 0 0 []))
    as [s|] eqn:E; [|discriminate].
  cbn [bind]. intros H; inversion H; subst.
  destruct (LoadFacts.readSites_loop_sound _ _ _ _ _ E) as [_ [l2 [El F]]].
  simpl in El. rewrite El. exact F.
Qed.

Module LoadFacts2.
Import MakeDFE. Import LoadFacts.

Lemma readSites_loop_app (coords target : list Region_s)
  (l1 l2 : list string) (s : sites_state) :
  readSites_loop coords target (l1 ++ l2) s =
  (s1 <- readSites_loop coords target l1 s ;;
   readSites_loop coords target l2 s1).
Proof.
  revert s; induction l1 as [|line l1 IH]; intros s; simpl; [reflexivity|].
  destruct (readSites_line coords target line s) as [s1|]; simpl; auto.
Qed.

Lemma readSites_loop_complete (coords : list Region_s) (lines : list string)
  (s s' : sites_state) :
  sorted_blocks coords -> sorted_sites (site_rows lines) ->
  (forall x, In x (site_rows lines) ->
     behind r_chr r_start r_stop coords (ss_coord_i s) (fst x) (snd x)) ->
  readSites_loop coords [] lines s = Some s' ->
  ss_list s' = (ss_list s ++ filter (in_block coords) (site_rows lines))%list.
Proof.
  intros Hc. revert s; induction lines as [|line lines IH]; intros s Hs Hb.
  - simpl. intros H; inversion H; subst. now rewrite app_nil_r.
  - cbn [readSites_loop].
    destruct (readSites_line coords [] line s) as [s1|] eqn:E1; [|discriminate].
    cbn [bind]. intros H.
    pose proof (readSites_line_row _ _ _ _ _ E1) as R.
    rewrite site_rows_cons in Hs, Hb |- *.
    destruct (site_row line) as [[c p]|] eqn:Er.
    + cbv zeta in R. rewrite readSites_coord_loop_scan in R. cbn [fst snd] in R.
      change (scan r_chr r_start r_stop (skipn (ss_coord_i s) coords)
                (ss_coord_i s) c p)
        with (locate r_chr r_start r_stop coords (ss_coord_i s) c p) in R.
      assert (B0 : behind r_chr r_start r_stop coords (ss_coord_i s) c p).
      { apply (Hb (c, p)). left; reflexivity. }
      rewrite (locate_member r_chr r_start r_stop coords _ c p Hc B0) in R.
      pose proof (locate_behind r_chr r_start r_stop coords _ c p B0) as B1.
      set (k' := fst (locate r_chr r_start r_stop coords (ss_coord_i s) c p)) in *.
      clearbody k'.
      simpl app in Hs, Hb |- *.
      unfold sorted_sites, sorted in Hs.
      inversion Hs as [|? ? Hs' Hle]; subst.
      assert (E : ss_list s' =
                  (ss_list (mkSites k' (ss_target_i s)
                     (if member r_chr r_start r_stop coords c p
                      then ss_list s ++ [(c, p)] else ss_list s)) ++
                   filter (in_block coords) (site_rows lines))%list).
      { apply IH; [exact Hs'| |exact H].
        intros x Hx. cbn [ss_coord_i].
        rewrite Forall_forall in Hle. specialize (Hle x Hx).
        eapply behind_lex; [|exact B1]. exact Hle. }
      rewrite E. cbn [ss_list filter]. unfold in_block at 2, in_blocks.
      cbn [fst snd].
      destruct (member r_chr r_start r_stop coords c p).
      * rewrite <- app_assoc. reflexivity.
      * reflexivity.
    + subst s1. simpl app in *. apply IH; auto.
Qed.

Lemma div_line_filter (sites : list (Z * Z)) (line : string) (k : nat) :
  readDiv_line sites line k =
  match EstDAF.readDiv_line line with
  | None => None
  | Some None => Some (k, None)
  | Some (Some d) =>
      let r := readDiv_site_loop (skipn k sites) k (s_chr d) (s_pos d) in
      Some (fst r, if snd r then Some d else None)
  end.
Proof.
  unfold readDiv_line, EstDAF.readDiv_line.
  destruct (nth_error (strtok_all (lineTerminator line)) 0) as [p|];
    [|reflexivity]. cbn [bind].
  destruct (nth_error (strtok_all (lineTerminator line)) 1) as [t1|];
    [|reflexivity]. cbn [bind].
  destruct (tchar t1 0) as [r|]; [|reflexivity]. cbn [bind].
  destruct (nth_error (strtok_all (lineTerminator line)) 2) as [t2|];
    [|reflexivity]. cbn [bind].
  destruct (tchar t2 0) as [a|]; [|reflexivity]. cbn [bind].
  destruct (nth_error (strtok_all (lineTerminator line)) 8) as [temp|];
    [|reflexivity]. cbn [bind].
  destruct (tchar temp 0) as [c0|]; [|reflexivity]. cbn [bind].
  destruct (isdigit c0); reflexivity.
Qed.

Lemma daf_readDiv_loop_acc (lines : list string) (lst : list Site_s) :
  EstDAF.readDiv_loop lines lst =
  option_map (app lst) (EstDAF.readDiv_loop lines []).
Proof.
  revert lst.
  assert (G : forall lines lst acc,
    EstDAF.readDiv_loop lines (lst ++ acc) =
    option_map (app lst) (EstDAF.readDiv_loop lines acc)).
  { clear. induction lines as [|line lines IH]; intros lst acc; simpl;
      [reflexivity|].
    destruct (EstDAF.readDiv_line line) as [[d|]|]; cbn [bind option_map];
      [|apply IH|reflexivity].
    rewrite <- app_assoc. apply IH. }
  intros lst. rewrite <- (app_nil_r lst) at 1. apply G.
Qed.

Lemma on_site_found (sites : list (Z * Z)) (k : nat) (d : Site_s) :
  snd (readDiv_site_loop (skipn k sites) k (s_chr d) (s_pos d)) = true ->
  on_site sites d = true.
Proof.
  rewrite readDiv_site_loop_scan. intros H.
  apply scan_found_member in H.
  apply (member_skipn fst snd snd sites k) in H. exact H.
Qed.

Lemma readDiv_loop_filter (sites : list (Z * Z)) (lines : list string)
  (k : nat) (lst l : list Site_s) :
  readDiv_loop sites lines k lst = Some l ->
  exists l0 l2,
    EstDAF.readDiv_loop lines [] = Some l0 /\
    l = (lst ++ l2)%list /\
    Forall (fun d => on_site sites d = true /\ In d l0) l2 /\
    (sorted_sites sites -> sorted_div l0 ->
     (forall d, In d l0 -> behind fst snd snd sites k (s_chr d) (s_pos d)) ->
     l2 = filter (on_site sites) l0).
Proof.
  revert k lst; induction lines as [|line lines IH]; intros k lst.
  - simpl. intros H; inversion H; subst. exists [], [].
    rewrite app_nil_r. repeat split; auto.
  - cbn [readDiv_loop EstDAF.readDiv_loop]. rewrite div_line_filter.
    destruct (EstDAF.readDiv_line line) as [[d|]|]; cbn [bind];
      [| |discriminate].
    + cbv zeta. cbn [fst snd].
      pose proof (on_site_found sites k d) as Hf.
      rewrite readDiv_site_loop_scan in *.
      change (scan fst snd snd (skipn k sites) k (s_chr d) (s_pos d))
        with (locate fst snd snd sites k (s_chr d) (s_pos d)) in *.
      set (L := locate fst snd snd sites k (s_chr d) (s_pos d)) in *.
      rewrite (daf_readDiv_loop_acc lines ([] ++ [d])).
      assert (Later : forall l0,
        sorted_sites sites -> sorted_div (d :: l0) ->
        (forall x, In x (d :: l0) ->
           behind fst snd snd sites k (s_chr x) (s_pos x)) ->
        snd L = on_site sites d /\
        (forall x, In x l0 ->
           behind fst snd snd sites (fst L) (s_chr x) (s_pos x))).
      { intros l0 Hs Hd Hb.
        assert (B0 : behind fst snd snd sites k (s_chr d) (s_pos d))
          by (apply Hb; left; reflexivity).
        split.
        - unfold L. apply locate_member; assumption.
        - intros x Hx.
          pose proof (locate_behind fst snd snd sites k _ _ B0) as B1.
          unfold sorted_div, sorted in Hd.
          inversion Hd as [|? ? _ Hle]; subst.
          rewrite Forall_forall in Hle. specialize (Hle x Hx).
          eapply behind_lex; [|exact B1]. exact Hle. }
      destruct (snd L) eqn:EL; intros H;
        destruct (IH _ _ H) as [l0 [l2 [E0 [El [F C]]]]];
        rewrite E0; cbn [option_map app].
      * exists (d :: l0), (d :: l2). split; [reflexivity|].
        split; [rewrite El, <- app_assoc; reflexivity|].
        split.
        -- constructor; [split; [auto|left; reflexivity]|].
           eapply Forall_impl; [|exact F]. cbv beta. intros x [? ?].
           split; [auto|right; auto].
        -- intros Hs Hd Hb. destruct (Later l0 Hs Hd Hb) as [Em Hb'].
           cbn [filter]. rewrite <- Em.
           f_equal. apply C; auto.
           unfold sorted_div, sorted in *. inversion Hd; assumption.
      * exists (d :: l0), l2. split; [reflexivity|].
        split; [exact El|].
        split.
        -- eapply Forall_impl; [|exact F]. cbv beta. intros x [? ?].
           split; [auto|right; auto].
        -- intros Hs Hd Hb. destruct (Later l0 Hs Hd Hb) as [Em Hb'].
           cbn [filter]. rewrite <- Em.
           apply C; auto.
           unfold sorted_div, sorted in *. inversion Hd; assumption.
    + cbn [fst snd]. intros H.
      destruct (IH _ _ H) as [l0 [l2 [E0 [El [F C]]]]].
      exists l0, l2. auto.
Qed.
End LoadFacts2.

(** X2. Without regions, when the blocks and the rows of the site file are
    sorted, [readSites] keeps exactly the rows that lie in a block, in the
    order of the file. *)
Theorem readSites_without_regions_is_filter
  (coords : list MakeDFE.Region_s) (lines : list string) (l : list (Z * Z)) :
  sorted_blocks coords -> sorted_sites (site_rows lines) ->
  MakeDFE.readSites coords [] lines = Some l ->
  l = filter (in_block coords) (site_rows lines).
Proof.
  intros Hc Hs. unfold MakeDFE.readSites.
  destruct (MakeDFE.readSites_loop coords [] lines (MakeDFE.mkSites 0 0 []))
    as [s|] eqn:E; [|discriminate].
  cbn [bind]. intros H; inversion H; subst.
  rewrite (LoadFacts2.readSites_loop_complete coords lines
             (MakeDFE.mkSites 0 0 []) s Hc Hs
             (fun x _ => behind_start _ _ _ coords (fst x) (snd x)) E).
  reflexivity.
Qed.

(** X3. With regions, a site that lies in the block under the cursor and in
    no region makes [readSites] leave that block: the loop over the regions
    ends without a match and [coord_i++] of line 730 is reached. Every site
    kept from then on lies in a later block. *)
Theorem readSites_region_miss_leaves_block
  (coords target : list MakeDFE.Region_s) (lines1 lines2 : list string)
  (line : string) (s1 : MakeDFE.sites_state) (b : MakeDFE.Region_s)
  (c p : Z) (l : list (Z * Z)) :
  target <> [] ->
  MakeDFE.readSites_loop coords target lines1 (MakeDFE.mkSites 0 0 []) = Some s1 ->
  nth_error coords (MakeDFE.ss_coord_i s1) = Some b ->
  site_row line = Some (c, p) ->
  in_blocks [b] c p = true ->
  in_blocks target c p = false ->
  MakeDFE.readSites coords target (lines1 ++ line :: lines2) = Some l ->
  exists l2,
    l = (MakeDFE.ss_list s1 ++ l2)%list /\
    Forall (fun x =>
      in_block (skipn (S (MakeDFE.ss_coord_i s1)) coords) x = true) l2.
Proof.
  intros Hne E1 Hb Er Hin Hout. unfold MakeDFE.readSites.
  rewrite LoadFacts2.readSites_loop_app, E1. cbn [bind MakeDFE.readSites_loop].
  destruct (MakeDFE.readSites_line coords target line s1) as [s2|] eqn:E2;
    [|discriminate].
  cbn [bind].
  destruct (MakeDFE.readSites_loop coords target lines2 s2) as [s3|] eqn:E3;
    [|discriminate].
  cbn [bind]. intros H; inversion H; subst l.
  pose proof (LoadFacts.readSites_line_row _ _ _ _ _ E2) as R.
  rewrite Er in R. cbv zeta in R.
  destruct (nth_error_split _ _ Hb) as [pre [post [Ecs Elen]]].
  assert (Esk : skipn (MakeDFE.ss_coord_i s1) coords = b :: post).
  { rewrite Ecs, <- Elen.
    rewrite skipn_app, Nat.sub_diag, skipn_all. reflexivity. }
  rewrite Esk in R.
  assert (Hh : holds MakeDFE.r_chr MakeDFE.r_start MakeDFE.r_stop c p b = true).
  { unfold in_blocks, member in Hin. simpl in Hin.
    rewrite orb_false_r in Hin. exact Hin. }
  pose proof (LoadFacts.coord_loop_miss target post b
                (MakeDFE.ss_coord_i s1) (MakeDFE.ss_target_i s1) c p
                Hne Hh Hout) as [M1 M2].
  cbv zeta in M1, M2.
  set (r := MakeDFE.readSites_coord_loop target (b :: post)
              (MakeDFE.ss_coord_i s1) (MakeDFE.ss_target_i s1) c p) in *.
  rewrite M2 in R.
  destruct (LoadFacts.readSites_loop_sound _ _ _ _ _ E3) as [_ [l2 [El F]]].
  exists l2. split.
  - rewrite El, R. reflexivity.
  - eapply Forall_impl; [|exact F]. cbv beta. intros x [X1 _].
    rewrite R in X1. cbn [MakeDFE.ss_coord_i] in X1.
    unfold in_block, in_blocks in *.
    replace (skipn (fst (fst r)) coords)
      with (skipn (fst (fst r) - S (MakeDFE.ss_coord_i s1))
              (skipn (S (MakeDFE.ss_coord_i s1)) coords)) in X1.
    + eapply member_skipn; eauto.
    + rewrite skipn_skipn. f_equal. lia.
Qed.

(** X4. [readDiv] of [makeDFE-alpha.c] keeps records that [readDiv] of
    [estDAF.c] reads from the same lines, and only records on a listed site;
    when the sites and the records are sorted it keeps exactly the records
    on a listed site. *)
Theorem readDiv_keeps_records_on_sites
  (sites : list (Z * Z)) (lines : list string) (l : list Site_s) :
  MakeDFE.readDiv sites lines = Some l ->
  exists l0,
    EstDAF.readDiv lines = Some l0 /\
    Forall (fun d => on_site sites d = true /\ In d l0) l /\
    (sorted_sites sites -> sorted_div l0 -> l = filter (on_site sites) l0).
Proof.
  unfold MakeDFE.readDiv, EstDAF.readDiv. intros H.
  destruct (LoadFacts2.readDiv_loop_filter _ _ _ _ _ H)
    as [l0 [l2 [E0 [El [F C]]]]].
  simpl in El. subst l2.
  exists l0. split; [exact E0|]. split; [exact F|].
  intros Hs Hd. apply C; auto. intros d _. apply behind_start.
Qed.

(** ** Lines without a token, line ends and empty fields *)

Module TextFacts.

Lemma lineTerminator_app_end (a b : string) (c : ascii) :
  line_end c = true ->
  lineTerminator (a ++ String c b) = lineTerminator a.
Proof.
  intros Hc. induction a as [|x a IH]; simpl.
  - unfold line_end in Hc. rewrite Hc. reflexivity.
  - rewrite IH. reflexivity.
Qed.

Lemma lineTerminator_split (line : string) :
  exists rest,
    line = (lineTerminator line ++ rest)%string /\
    (rest = EmptyString \/
     exists c r, rest = String c r /\ line_end c = true).
Proof.
  induction line as [|x line [rest [E R]]]; simpl.
  - exists EmptyString. split; [reflexivity|left; reflexivity].
  - destruct (Ascii.eqb x LF || Ascii.eqb x CR) eqn:Ex.
    + exists (String x line). split; [reflexivity|].
      right. exists x, line. split; [reflexivity|exact Ex].
    + exists rest. simpl. split; [congruence|exact R].
Qed.

Lemma lineTerminator_clean (line : string) (c : ascii) :
  In c (list_ascii_of_string (lineTerminator line)) -> line_end c = false.
Proof.
  induction line as [|x line IH]; simpl; [tauto|].
  destruct (Ascii.eqb x LF || Ascii.eqb x CR) eqn:Ex; simpl; [tauto|].
  intros [->|H]; [exact Ex|auto].
Qed.

Lemma lineTerminator_fixed (s : string) :
  (forall c, In c (list_ascii_of_string s) -> line_end c = false) ->
  lineTerminator s = s.
Proof.
  induction s as [|x s IH]; simpl; [reflexivity|]. intros H.
  pose proof (H x (or_introl eq_refl)) as Hx. unfold line_end in Hx.
  rewrite Hx, IH; auto.
Qed.

Lemma fields_not_nil (s : string) : fields s <> [].
Proof.
  destruct s as [|c r]; simpl; [discriminate|].
  destruct (Ascii.eqb c TAB); [discriminate|].
  destruct (fields r); discriminate.
Qed.

Lemma strtok_all_cons (c : ascii) (r : string) :
  strtok_all (String c r) =
  if Ascii.eqb c TAB then strtok_all r
  else match fields r with
       | f :: fs => String c f :: filter (fun f => negb (String.eqb f EmptyString)) fs
       | [] => [String c EmptyString]
       end.
Proof.
  unfold strtok_all. simpl.
  destruct (Ascii.eqb c TAB); [reflexivity|].
  destruct (fields r); reflexivity.
Qed.

(** A line without a token is empty or begins with a tabulator. *)
Lemma no_token_first_char (l : string) :
  strtok_all l = [] ->
  exists c, tchar l 0 = Some c /\ isdigit c = false.
Proof.
  destruct l as [|c r].
  - intros _. exists NUL. split; reflexivity.
  - rewrite strtok_all_cons.
    destruct (Ascii.eqb c TAB) eqn:Ec.
    + intros _. exists c. split; [reflexivity|].
      apply Ascii.eqb_eq in Ec. subst. reflexivity.
    + destruct (fields r); discriminate.
Qed.

Lemma fields_app_tab (a s : string) :
  fields (a ++ String TAB s) = (fields a ++ fields s)%list.
Proof.
  induction a as [|c a IH]; simpl; [reflexivity|].
  destruct (Ascii.eqb c TAB); rewrite IH; [reflexivity|].
  pose proof (fields_not_nil a).
  destruct (fields a) as [|f fs]; [congruence|reflexivity].
Qed.

Lemma strtok_all_app_tab (a s : string) :
  strtok_all (a ++ String TAB s) = (strtok_all a ++ strtok_all s)%list.
Proof. unfold strtok_all. rewrite fields_app_tab. apply filter_app. Qed.

Lemma strtok_all_tab (s : string) : strtok_all (String TAB s) = strtok_all s.
Proof. reflexivity. Qed.

Lemma lineTerminator_app (a s : string) :
  lineTerminator (a ++ s) =
  if clean a then (a ++ lineTerminator s)%string else lineTerminator a.
Proof.
  unfold clean. induction a as [|c a IH]; simpl; [reflexivity|].
  unfold line_end at 1.
  destruct (Ascii.eqb c LF || Ascii.eqb c CR); simpl; [reflexivity|].
  rewrite IH. destruct (forallb _ _); reflexivity.
Qed.

Lemma lineTerminator_tab (s : string) :
  lineTerminator (String TAB s) = String TAB (lineTerminator s).
Proof. reflexivity. Qed.

(** Two tabulators in a row separate the same tokens as one, and leave the
    first character of the line as it is. *)
Lemma tokens_tabs (a b : string) :
  strtok_all (lineTerminator (a ++ String TAB (String TAB b))) =
  strtok_all (lineTerminator (a ++ String TAB b)) /\
  tchar (lineTerminator (a ++ String TAB (String TAB b))) 0 =
  tchar (lineTerminator (a ++ String TAB b)) 0.
Proof.
  rewrite !lineTerminator_app. destruct (clean a); [|split; reflexivity].
  rewrite !lineTerminator_tab, !strtok_all_app_tab, strtok_all_tab.
  split; [reflexivity|]. destruct a; reflexivity.
Qed.

Lemma daf_readVcf_from_none (genes coords : list EstDAF.Region_s)
  (div : list Site_s) (gc : Z) (line : string) (pre post : list string)
  (st : EstDAF.vcf_state) :
  (forall st, EstDAF.vcf_line genes coords div gc line st = None) ->
  EstDAF.readVcf_from genes coords div gc (pre ++ line :: post) st = None.
Proof.
  intros H. revert st; induction pre as [|l pre IH]; intros st; simpl.
  - rewrite H. reflexivity.
  - destruct (EstDAF.vcf_line genes coords div gc l st); simpl; auto.
Qed.

Lemma sfs_readVcf_from_none (junk : nat -> Z) (sites : list (Z * Z))
  (div : list Site_s) (gc : Z) (line : string) (pre post : list string)
  (st : MakeDFE.vcf_state) :
  (forall st, MakeDFE.vcf_line junk sites div gc line st = None) ->
  MakeDFE.readVcf_from junk sites div gc (pre ++ line :: post) st = None.
Proof.
  intros H. revert st; induction pre as [|l pre IH]; intros st; simpl.
  - rewrite H. reflexivity.
  - destruct (MakeDFE.vcf_line junk sites div gc l st); simpl; auto.
Qed.

Lemma readGenes_loop_none (line : string) (pre post : list string)
  (lst : list EstDAF.Region_s) :
  EstDAF.readGenes_line line = None ->
  EstDAF.readGenes_loop (pre ++ line :: post) lst = None.
Proof.
  intros H. revert lst; induction pre as [|l pre IH]; intros lst; simpl.
  - rewrite H. reflexivity.
  - destruct (EstDAF.readGenes_line l); simpl; auto.
Qed.

Lemma daf_readCoord_loop_none (line : string) (pre post : list string)
  (lst : list EstDAF.Region_s) :
  EstDAF.readCoord_line line = None ->
  EstDAF.readCoord_loop (pre ++ line :: post) lst = None.
Proof.
  intros H. revert lst; induction pre as [|l pre IH]; intros lst; simpl.
  - rewrite H. reflexivity.
  - destruct (EstDAF.readCoord_line l) as [[r|]|]; simpl; auto.
Qed.

Lemma daf_readDiv_loop_none (line : string) (pre post : list string)
  (lst : list Site_s) :
  EstDAF.readDiv_line line = None ->
  EstDAF.readDiv_loop (pre ++ line :: post) lst = None.
Proof.
  intros H. revert lst; induction pre as [|l pre IH]; intros lst; simpl.
  - rewrite H. reflexivity.
  - destruct (EstDAF.readDiv_line l) as [[r|]|]; simpl; auto.
Qed.

Lemma sfs_readCoord_loop_none (line : string) (pre post : list string)
  (lst : list MakeDFE.Region_s) :
  MakeDFE.readCoord_line line = None ->
  MakeDFE.readCoord_loop (pre ++ line :: post) lst = None.
Proof.
  intros H. revert lst; induction pre as [|l pre IH]; intros lst; simpl.
  - rewrite H. reflexivity.
  - destruct (MakeDFE.readCoord_line l) as [[r|]|]; simpl; auto.
Qed.

Lemma readTarget_loop_none (line : string) (pre post : list string)
  (lst : list MakeDFE.Region_s) :
  MakeDFE.readTarget_line line = None ->
  MakeDFE.readTarget_loop (pre ++ line :: post) lst = None.
Proof.
  intros H. revert lst; induction pre as [|l pre IH]; intros lst; simpl.
  - rewrite H. reflexivity.
  - destruct (MakeDFE.readTarget_line l); simpl; auto.
Qed.

Lemma sfs_readDiv_loop_none (sites : list (Z * Z)) (line : string)
  (pre post : list string) (k : nat) (lst : list Site_s) :
  (forall k, MakeDFE.readDiv_line sites line k = None) ->
  MakeDFE.readDiv_loop sites (pre ++ line :: post) k lst = None.
Proof.
  intros H. revert k lst; induction pre as [|l pre IH]; intros k lst; simpl.
  - rewrite H. reflexivity.
  - destruct (MakeDFE.readDiv_line sites l k) as [[k' [r|]]|]; simpl; auto.
Qed.
End TextFacts.

(** X6. A line without a token (an empty line, a line feed alone, tabs
    alone) makes [strtok] return the null pointer, which [readVcf] of both
    programs and every loader but one dereference: wherever the line stands
    in the file, the run is undefined. [readSites] tests the first character
    of the line before it calls [strtok], and reads the file as if the line
    were not there. *)
Theorem blank_line_is_fatal_except_in_site_list (line : string) :
  strtok_all (lineTerminator line) = [] ->
  (forall genes coords div gc pre post,
     EstDAF.readVcf genes coords div gc (pre ++ line :: post) = None) /\
  (forall junk sites div gc pre post,
     MakeDFE.readVcf junk sites div gc (pre ++ line :: post) = None) /\
  (forall pre post, EstDAF.readGenes (pre ++ line :: post) = None) /\
  (forall pre post, EstDAF.readCoord (pre ++ line :: post) = None) /\
  (forall pre post, EstDAF.readDiv (pre ++ line :: post) = None) /\
  (forall pre post, MakeDFE.readCoord (pre ++ line :: post) = None) /\
  (forall pre post, MakeDFE.readTarget (pre ++ line :: post) = None) /\
  (forall sites pre post, MakeDFE.readDiv sites (pre ++ line :: post) = None) /\
  (forall coords target pre post,
     MakeDFE.readSites coords target (pre ++ line :: post) =
     MakeDFE.readSites coords target (pre ++ post)).
Proof.
  intros H.
  repeat match goal with |- _ /\ _ => split end.
  - intros. apply TextFacts.daf_readVcf_from_none.
    intros st. unfold EstDAF.vcf_line. rewrite H. reflexivity.
  - intros. unfold MakeDFE.readVcf.
    rewrite TextFacts.sfs_readVcf_from_none; [reflexivity|].
    intros st. unfold MakeDFE.vcf_line. rewrite H. reflexivity.
  - intros. apply TextFacts.readGenes_loop_none.
    unfold EstDAF.readGenes_line. rewrite H. reflexivity.
  - intros. apply TextFacts.daf_readCoord_loop_none.
    unfold EstDAF.readCoord_line. rewrite H. reflexivity.
  - intros. apply TextFacts.daf_readDiv_loop_none.
    unfold EstDAF.readDiv_line. rewrite H. reflexivity.
  - intros. apply TextFacts.sfs_readCoord_loop_none.
    unfold MakeDFE.readCoord_line. rewrite H. reflexivity.
  - intros. apply TextFacts.readTarget_loop_none.
    unfold MakeDFE.readTarget_line. rewrite H. reflexivity.
  - intros. apply TextFacts.sfs_readDiv_loop_none.
    intros k. unfold MakeDFE.readDiv_line. rewrite H. reflexivity.
  - intros. unfold MakeDFE.readSites.
    rewrite !LoadFacts2.readSites_loop_app.
    destruct (MakeDFE.readSites_loop coords target pre _) as [s1|];
      [|reflexivity].
    cbn [bind MakeDFE.readSites_loop].
    destruct (TextFacts.no_token_first_char _ H) as [c [Hc Hd]].
    unfold MakeDFE.readSites_line. rewrite Hc. cbn [bind]. rewrite Hd.
    reflexivity.
Qed.

(** X7. [lineTerminator] keeps the text before the first line feed or
    carriage return and nothing else: the line is what it keeps followed by
    nothing or by a text that begins with one of the two characters, what it
    keeps holds neither character, and a second call changes nothing. *)
Theorem lineTerminator_keeps_the_text_before_the_first_line_end (line : string) :
  (exists rest,
     line = (lineTerminator line ++ rest)%string /\
     (rest = EmptyString \/
      exists c r, rest = String c r /\ line_end c = true)) /\
  (forall c, In c (list_ascii_of_string (lineTerminator line)) ->
             line_end c = false) /\
  lineTerminator (lineTerminator line) = lineTerminator line.
Proof.
  split; [apply TextFacts.lineTerminator_split|].
  split; [apply TextFacts.lineTerminator_clean|].
  apply TextFacts.lineTerminator_fixed, TextFacts.lineTerminator_clean.
Qed.

(** X8. An empty field is not a column: [strtok] takes two tabs in a row
    for one separator, so a line with an empty field is read by [readVcf] of
    both programs and by every loader as the line without it, with the
    columns after it shifted by one. *)
Theorem empty_field_is_not_a_column (a b : string) :
  let two := (a ++ String TAB (String TAB b))%string in
  let one := (a ++ String TAB b)%string in
  (forall genes coords div gc st,
     EstDAF.vcf_line genes coords div gc two st =
     EstDAF.vcf_line genes coords div gc one st) /\
  (forall junk sites div gc st,
     MakeDFE.vcf_line junk sites div gc two st =
     MakeDFE.vcf_line junk sites div gc one st) /\
  EstDAF.readGenes_line two = EstDAF.readGenes_line one /\
  EstDAF.readCoord_line two = EstDAF.readCoord_line one /\
  EstDAF.readDiv_line two = EstDAF.readDiv_line one /\
  MakeDFE.readCoord_line two = MakeDFE.readCoord_line one /\
  MakeDFE.readTarget_line two = MakeDFE.readTarget_line one /\
  (forall sites k,
     MakeDFE.readDiv_line sites two k = MakeDFE.readDiv_line sites one k) /\
  (forall coords target s,
     MakeDFE.readSites_line coords target two s =
     MakeDFE.readSites_line coords target one s).
Proof.
  cbv zeta. destruct (TextFacts.tokens_tabs a b) as [T C].
  repeat match goal with |- _ /\ _ => split end; intros.
  - unfold EstDAF.vcf_line. rewrite T. reflexivity.
  - unfold MakeDFE.vcf_line. rewrite T. reflexivity.
  - unfold EstDAF.readGenes_line. rewrite T. reflexivity.
  - unfold EstDAF.readCoord_line. rewrite T. reflexivity.
  - unfold EstDAF.readDiv_line. rewrite T. reflexivity.
  - unfold MakeDFE.readCoord_line. rewrite T. reflexivity.
  - unfold MakeDFE.readTarget_line. rewrite T. reflexivity.
  - unfold MakeDFE.readDiv_line. rewrite T. reflexivity.
  - unfold MakeDFE.readSites_line. rewrite T, C. reflexivity.
Qed.

(** ** estDAF.c: the shape of the output *)

Module DafShape.
Import EstDAF.

Lemma first_token_digit (line : string) :
  has_token line = true -> begins_with_digit line = false ->
  forall genes coords div gc st,
    vcf_line genes coords div gc line st = Some st.
Proof.
  unfold has_token, begins_with_digit, first_token, vcf_line.
  destruct (strtok_all (lineTerminator line)) as [|t rest];
    cbn [hd_error]; [discriminate|].
  intros _. destruct (tchar t 0) as [c|] eqn:Ec; cbn [bind].
  - intros ->. reflexivity.
  - destruct t; discriminate.
Qed.

Lemma gene_change_cases (id : string) (st : vcf_state) :
  let st' := gene_change id st in
  (gene st = Some id /\ st' = st) \/
  (gene st = None /\ gene st' = Some id /\ out st' = out st ++ [OutHeader] /\
   da_i st' = da_i st /\ a_i st' = a_i st /\ s_i st' = s_i st) \/
  (exists g0, gene st = Some g0 /\ g0 <> id /\ gene st' = Some id /\
     out st' = out st ++
       [OutRow g0 (double_div (double_of_int (da_i st)) (double_of_int (a_i st)))
          (s_i st)] /\
     da_i st' = 0 /\ a_i st' = 0 /\ s_i st' = 0).
Proof.
  unfold gene_change. destruct (gene st) as [g0|] eqn:G.
  - destruct (String.eqb g0 id) eqn:E; cbn [negb].
    + left. apply String.eqb_eq in E. subst. auto.
    + right; right. exists g0. apply String.eqb_neq in E.
      repeat split; auto.
  - right; left. repeat split; auto.
Qed.

(** Column 2, in full: the position is found in no gene or in no block
    and nothing but the cursors has changed, or it is found and the gene
    that holds it is the gene in progress from now on. *)
Lemma position_step (genes coords : list Region_s) (div : list Site_s)
  (p : Z) (st : vcf_state) :
  let st' := position genes coords div p st in
  err st' = err st /\
  ((ok st' = false /\ out st' = out st /\ gene st' = gene st /\
    da_i st' = da_i st /\ a_i st' = a_i st /\ s_i st' = s_i st) \/
   (ok st' = true /\
    in_regions genes (chr st) p = true /\
    in_regions coords (chr st) p = true /\
    exists g, In g genes /\
      ((gene st = Some (r_id g) /\ gene st' = gene st /\ out st' = out st /\
        da_i st' = da_i st /\ a_i st' = a_i st /\ s_i st' = s_i st) \/
       (gene st = None /\ gene st' = Some (r_id g) /\
        out st' = out st ++ [OutHeader] /\
        da_i st' = da_i st /\ a_i st' = a_i st /\ s_i st' = s_i st) \/
       (exists g0, gene st = Some g0 /\ g0 <> r_id g /\
          gene st' = Some (r_id g) /\
          out st' = out st ++
            [OutRow g0 (double_div (double_of_int (da_i st))
                          (double_of_int (a_i st))) (s_i st)] /\
          da_i st' = 0 /\ a_i st' = 0 /\ s_i st' = 0)))).
Proof.
  cbv zeta. unfold position.
  assert (P : gene (set_rd false (set_ok false (set_pos p st))) = gene st /\
              out (set_rd false (set_ok false (set_pos p st))) = out st /\
              da_i (set_rd false (set_ok false (set_pos p st))) = da_i st /\
              a_i (set_rd false (set_ok false (set_pos p st))) = a_i st /\
              s_i (set_rd false (set_ok false (set_pos p st))) = s_i st /\
              err (set_rd false (set_ok false (set_pos p st))) = err st /\
              chr (set_rd false (set_ok false (set_pos p st))) = chr st /\
              pos (set_rd false (set_ok false (set_pos p st))) = p /\
              ok (set_rd false (set_ok false (set_pos p st))) = false)
    by (repeat split; reflexivity).
  generalize dependent (set_rd false (set_ok false (set_pos p st))).
  intros s1 (P1 & P2 & P3 & P4 & P5 & P6 & P7 & P8 & P9).
  rewrite DafFacts.gene_loop_scan. cbv zeta.
  destruct (snd (scan r_chr r_start r_stop (skipn (gene_i s1) genes)
                   (gene_i s1) (chr s1) (pos s1))) eqn:Fg;
    [|split; [exact P6|left; repeat split; assumption]].
  pose proof (scan_found_member _ _ _ _ _ _ _ Fg) as Mg.
  apply member_skipn in Mg. rewrite P7, P8 in Mg.
  destruct (scan_found _ _ _ _ _ _ _ Fg) as [g [Hg _]]. rewrite Hg.
  apply nth_error_In in Hg.
  assert (Hg' : In g genes).
  { rewrite <- (firstn_skipn (gene_i s1) genes). apply in_or_app; right; exact Hg. }
  clear Hg Fg.
  assert (Q : gene (set_gene_i (fst (scan r_chr r_start r_stop
                 (skipn (gene_i s1) genes) (gene_i s1) (chr s1) (pos s1))) s1)
              = gene st /\
              out (set_gene_i (fst (scan r_chr r_start r_stop
                 (skipn (gene_i s1) genes) (gene_i s1) (chr s1) (pos s1))) s1)
              = out st /\
              da_i (set_gene_i (fst (scan r_chr r_start r_stop
                 (skipn (gene_i s1) genes) (gene_i s1) (chr s1) (pos s1))) s1)
              = da_i st /\
              a_i (set_gene_i (fst (scan r_chr r_start r_stop
                 (skipn (gene_i s1) genes) (gene_i s1) (chr s1) (pos s1))) s1)
              = a_i st /\
              s_i (set_gene_i (fst (scan r_chr r_start r_stop
                 (skipn (gene_i s1) genes) (gene_i s1) (chr s1) (pos s1))) s1)
              = s_i st /\
              err (set_gene_i (fst (scan r_chr r_start r_stop
                 (skipn (gene_i s1) genes) (gene_i s1) (chr s1) (pos s1))) s1)
              = err st /\
              chr (set_gene_i (fst (scan r_chr r_start r_stop
                 (skipn (gene_i s1) genes) (gene_i s1) (chr s1) (pos s1))) s1)
              = chr st /\
              pos (set_gene_i (fst (scan r_chr r_start r_stop
                 (skipn (gene_i s1) genes) (gene_i s1) (chr s1) (pos s1))) s1)
              = p /\
              ok (set_gene_i (fst (scan r_chr r_start r_stop
                 (skipn (gene_i s1) genes) (gene_i s1) (chr s1) (pos s1))) s1)
              = false)
    by (repeat split; assumption).
  generalize dependent (set_gene_i (fst (scan r_chr r_start r_stop
                 (skipn (gene_i s1) genes) (gene_i s1) (chr s1) (pos s1))) s1).
  clear s1 P1 P2 P3 P4 P5 P6 P7 P8 P9.
  intros s2 (P1 & P2 & P3 & P4 & P5 & P6 & P7 & P8 & P9).
  rewrite DafFacts.coord_loop_scan. cbv zeta.
  destruct (snd (scan r_chr r_start r_stop (skipn (coord_i s2) coords)
                   (coord_i s2) (chr s2) (pos s2))) eqn:Fc;
    [|split; [exact P6|left; repeat split; assumption]].
  pose proof (scan_found_member _ _ _ _ _ _ _ Fc) as Mc.
  apply member_skipn in Mc. rewrite P7, P8 in Mc.
  clear Fc.
  assert (Q : gene (set_coord_i (fst (scan r_chr r_start r_stop
                 (skipn (coord_i s2) coords) (coord_i s2) (chr s2) (pos s2))) s2)
              = gene st /\
              out (set_coord_i (fst (scan r_chr r_start r_stop
                 (skipn (coord_i s2) coords) (coord_i s2) (chr s2) (pos s2))) s2)
              = out st /\
              da_i (set_coord_i (fst (scan r_chr r_start r_stop
                 (skipn (coord_i s2) coords) (coord_i s2) (chr s2) (pos s2))) s2)
              = da_i st /\
              a_i (set_coord_i (fst (scan r_chr r_start r_stop
                 (skipn (coord_i s2) coords) (coord_i s2) (chr s2) (pos s2))) s2)
              = a_i st /\
              s_i (set_coord_i (fst (scan r_chr r_start r_stop
                 (skipn (coord_i s2) coords) (coord_i s2) (chr s2) (pos s2))) s2)
              = s_i st /\
              err (set_coord_i (fst (scan r_chr r_start r_stop
                 (skipn (coord_i s2) coords) (coord_i s2) (chr s2) (pos s2))) s2)
              = err st)
    by (repeat split; assumption).
  generalize dependent (set_coord_i (fst (scan r_chr r_start r_stop
                 (skipn (coord_i s2) coords) (coord_i s2) (chr s2) (pos s2))) s2).
  clear s2 P1 P2 P3 P4 P5 P6 P7 P8 P9.
  intros s3 (P1 & P2 & P3 & P4 & P5 & P6).
  rewrite DafFacts.div_loop_scan. cbv zeta.
  assert (Ee : err (gene_change (r_id g) s3) = err s3).
  { unfold gene_change. destruct (gene s3) as [g0|];
      [destruct (negb (String.eqb g0 (r_id g)))|]; reflexivity. }
  pose proof (gene_change_cases (r_id g) s3) as GC. cbv zeta in GC.
  generalize dependent (gene_change (r_id g) s3). intros s4 Ee GC.
  split; [cbn [err set_ok set_rd set_div_i]; congruence|].
  right. split; [reflexivity|]. split; [exact Mg|]. split; [exact Mc|].
  exists g. split; [exact Hg'|].
  cbn [gene out da_i a_i s_i set_ok set_rd set_div_i].
  destruct GC as [[G E]|[(G & G' & O & D & A & S')|(g0 & G & N & G' & O & D & A & S')]].
  - left. subst s4. repeat split; congruence.
  - right; left. repeat split; congruence.
  - right; right. exists g0. repeat split; try congruence.
Qed.

(** A line of data with two columns or more, by what column 2 finds. *)
Lemma vcf_line_two (genes coords : list Region_s) (div : list Site_s)
  (gc : Z) (line : string) (st : vcf_state) (t1 t2 : string)
  (rest : list string) (c0 : ascii) :
  strtok_all (lineTerminator line) = t1 :: t2 :: rest ->
  tchar t1 0 = Some c0 -> isdigit c0 = true ->
  vcf_line genes coords div gc line st =
  let st2 := position genes coords div (atoi t2) (set_chr (atoi t1) st) in
  if negb (ok st2) then Some st2
  else match rest with
       | [] => Some (set_s_i (s_i st2 + 1) st2)
       | _ :: _ => token_loop genes coords div gc rest 3 st2
       end.
Proof.
  intros T C D. unfold vcf_line. rewrite T, C. cbn [bind]. rewrite D.
  rewrite daf_loop_cons, daf_column_idle by lia. cbn [bind].
  rewrite daf_loop_cons, daf_column_2. cbn [bind]. reflexivity.
Qed.

Lemma vcf_line_step (genes coords : list Region_s) (div : list Site_s)
  (gc : Z) (line : string) (st st' : vcf_state) :
  vcf_line genes coords div gc line st = Some st' ->
  0 <= da_i st <= a_i st -> 0 <= s_i st ->
  0 <= da_i st' <= a_i st' /\ 0 <= s_i st' /\
  ((out st' = out st /\ gene st' = gene st) \/
   exists g, In g genes /\
     ((gene st = None /\ gene st' = Some (r_id g) /\
       out st' = out st ++ [OutHeader]) \/
      (exists g0, gene st = Some g0 /\ g0 <> r_id g /\
         gene st' = Some (r_id g) /\
         out st' = out st ++
           [OutRow g0 (double_div (double_of_int (da_i st))
                         (double_of_int (a_i st))) (s_i st)]))).
Proof.
  intros H Inv Hs.
  destruct (strtok_all (lineTerminator line)) as [|t1 rest] eqn:T.
  { unfold vcf_line in H. rewrite T in H. discriminate. }
  destruct (tchar t1 0) as [c0|] eqn:C.
  2:{ unfold vcf_line in H. rewrite T, C in H. discriminate. }
  destruct (isdigit c0) eqn:D.
  2:{ unfold vcf_line in H. rewrite T, C in H. cbn [bind] in H.
      rewrite D in H. inversion H; subst. auto. }
  destruct rest as [|t2 rest].
  { unfold vcf_line in H. rewrite T, C in H. cbn [bind] in H.
    rewrite D in H. rewrite daf_loop_cons, daf_column_idle in H by lia.
    cbn [bind] in H. inversion H; subst.
    cbn [da_i a_i s_i out gene set_s_i set_chr].
    split; [exact Inv|]. split; [lia|]. left; split; reflexivity. }
  rewrite (vcf_line_two _ _ _ _ _ _ _ _ _ _ T C D) in H. cbv zeta in H.
  destruct (position_step genes coords div (atoi t2) (set_chr (atoi t1) st))
    as [_ Step].
  cbv zeta in Step.
  change (gene (set_chr (atoi t1) st)) with (gene st) in Step.
  change (out (set_chr (atoi t1) st)) with (out st) in Step.
  change (da_i (set_chr (atoi t1) st)) with (da_i st) in Step.
  change (a_i (set_chr (atoi t1) st)) with (a_i st) in Step.
  change (s_i (set_chr (atoi t1) st)) with (s_i st) in Step.
  generalize dependent (position genes coords div (atoi t2)
                          (set_chr (atoi t1) st)).
  intros st2 H Step.
  assert (Mid : 0 <= da_i st2 <= a_i st2 /\ 0 <= s_i st2 /\
    ((out st2 = out st /\ gene st2 = gene st) \/
     exists g, In g genes /\
       ((gene st = None /\ gene st2 = Some (r_id g) /\
         out st2 = out st ++ [OutHeader]) \/
        (exists g0, gene st = Some g0 /\ g0 <> r_id g /\
           gene st2 = Some (r_id g) /\
           out st2 = out st ++
             [OutRow g0 (double_div (double_of_int (da_i st))
                           (double_of_int (a_i st))) (s_i st)])))).
  { destruct Step as [(_ & O & G & Da & A & Si)|(_ & _ & _ & g & Hg & Alt)].
    - rewrite Da, A, Si. auto.
    - destruct Alt as [(G & G' & O & Da & A & Si)|
                       [(G & G' & O & Da & A & Si)|
                        (g0 & G & N & G' & O & Da & A & Si)]].
      + rewrite Da, A, Si. auto.
      + rewrite Da, A, Si. split; [exact Inv|]. split; [exact Hs|].
        right. exists g. split; [exact Hg|]. left. auto.
      + rewrite Da, A, Si. split; [lia|]. split; [lia|].
        right. exists g. split; [exact Hg|]. right. exists g0. auto. }
  clear Step. destruct Mid as (Inv2 & Hs2 & Eff).
  destruct (negb (ok st2)).
  { inversion H; subst. auto. }
  destruct rest as [|t3 rest].
  { inversion H; subst. cbn [da_i a_i s_i out gene set_s_i].
    split; [exact Inv2|]. split; [lia|exact Eff]. }
  destruct (DafLines.token_loop_effect _ _ _ _ _ _ _ _ (le_n 3) H Inv2)
    as (I3 & O3 & G3 & S3).
  split; [exact I3|]. split; [lia|]. rewrite O3, G3. exact Eff.
Qed.

Lemma readVcf_from_shape (genes coords : list Region_s) (div : list Site_s)
  (gc : Z) (lines : list string) (st st' : vcf_state) :
  readVcf_from genes coords div gc lines st = Some st' ->
  0 <= da_i st <= a_i st -> 0 <= s_i st ->
  daf_output_shape genes st -> daf_output_shape genes st'.
Proof.
  revert st; induction lines as [|line lines IH]; intros st H Inv Hs Sh;
    simpl in H.
  - inversion H; subst; exact Sh.
  - destruct (vcf_line genes coords div gc line st) as [st1|] eqn:L;
      [|discriminate].
    cbn [bind] in H.
    destruct (vcf_line_step _ _ _ _ _ _ _ L Inv Hs) as (Inv1 & Hs1 & Eff).
    apply (IH st1 H Inv1 Hs1).
    unfold daf_output_shape in *.
    destruct Eff as [[O G]|[g [Hg [(G & G' & O)|(g0 & G & N & G' & O)]]]].
    + rewrite G, O. exact Sh.
    + rewrite G in Sh. rewrite G', O, Sh.
      split; [apply in_map; exact Hg|].
      exists []. split; [reflexivity|constructor].
    + rewrite G in Sh. rewrite G', O.
      destruct Sh as [Hin [rows [Er F]]].
      split; [apply in_map; exact Hg|].
      exists (rows ++ [OutRow g0 (double_div (double_of_int (da_i st))
                          (double_of_int (a_i st))) (s_i st)]).
      split; [rewrite Er; reflexivity|].
      apply Forall_app; split; [exact F|].
      constructor; [|constructor].
      cbn [gene_row]. split; [exact Hin|]. split; [exact Hs|].
      exists (da_i st), (a_i st). split; [exact Inv|reflexivity].
Qed.
End DafShape.

(** X10. What [estDAF.c] prints on standard output is nothing at all, or the
    header followed by rows; each row has the name of a gene of the table, a
    site count that is not negative, and the quotient of two counters
    [0 <= da_i <= a_i] for DAF. *)
Theorem estDAF_prints_header_then_rows_of_known_genes
  (genes coords : list EstDAF.Region_s) (div : list Site_s) (gc : Z)
  (lines : list string) (st : EstDAF.vcf_state) :
  EstDAF.readVcf genes coords div gc lines = Some st ->
  daf_output_shape genes st.
Proof.
  intros H. apply (DafShape.readVcf_from_shape _ _ _ _ _ _ _ H).
  - simpl. lia.
  - simpl. lia.
  - reflexivity.
Qed.

(** X9. [readVcf] passes over the lines whose first token does not begin
    with a digit: in [estDAF.c] all of them, in [makeDFE-alpha.c] all of
    them but the line of names. A file is read as the file without these
    lines. *)
Theorem lines_without_leading_digit_are_passed_over :
  (forall genes coords div gc lines,
     forallb has_token lines = true ->
     EstDAF.readVcf genes coords div gc lines =
     EstDAF.readVcf genes coords div gc (filter begins_with_digit lines)) /\
  (forall junk sites div gc lines,
     forallb has_token lines = true ->
     MakeDFE.readVcf junk sites div gc lines =
     MakeDFE.readVcf junk sites div gc
       (filter (fun l => begins_with_digit l || is_names l) lines)).
Proof.
  split.
  - intros genes coords div gc lines. unfold EstDAF.readVcf.
    generalize EstDAF.init_state.
    induction lines as [|line lines IH]; intros st Ht; [reflexivity|].
    simpl in Ht. apply andb_true_iff in Ht as [H1 H2].
    cbn [filter]. destruct (begins_with_digit line) eqn:D.
    + cbn [EstDAF.readVcf_from].
      destruct (EstDAF.vcf_line genes coords div gc line st); cbn [bind]; auto.
    + cbn [EstDAF.readVcf_from].
      rewrite (DafShape.first_token_digit line H1 D). cbn [bind]. auto.
  - intros junk sites div gc lines. unfold MakeDFE.readVcf.
    generalize MakeDFE.init_state.
    induction lines as [|line lines IH]; intros st Ht; [reflexivity|].
    simpl in Ht. apply andb_true_iff in Ht as [H1 H2].
    cbn [filter].
    destruct (begins_with_digit line || is_names line) eqn:D.
    + cbn [MakeDFE.readVcf_from].
      destruct (MakeDFE.vcf_line junk sites div gc line st); cbn [bind]; auto.
    + cbn [MakeDFE.readVcf_from].
      apply orb_false_iff in D as [D1 D2].
      rewrite (SfsLines.comment_line_idle junk sites div gc line st).
      * cbn [bind]. apply IH; exact H2.
      * unfold is_comment, is_names, begins_with_digit, has_token in *.
        destruct (first_token line) as [t|]; [|discriminate].
        rewrite D2. cbn [negb andb].
        destruct (SfsLines.tchar_defined t 0 (Nat.le_0_l _)) as [c Ec].
        rewrite Ec in *. rewrite D1. reflexivity.
Qed.

(** ** Lines that count for nothing *)

Module SfsShape.
Import MakeDFE.

Lemma sfs_line_two (junk : nat -> Z) (sites : list (Z * Z))
  (div : list Site_s) (gc : Z) (line : string) (st : vcf_state)
  (t1 t2 : string) (rest : list string) (c0 : ascii) :
  strtok_all (lineTerminator line) = t1 :: t2 :: rest ->
  tchar t1 0 = Some c0 -> isdigit c0 = true ->
  vcf_line junk sites div gc line st =
  let st2 := position sites div (atoi t2) (start_line (atoi t1) st) in
  if negb (ok st2) then tally st2
  else (st3 <- token_loop sites div gc rest 3 st2 ;; tally st3).
Proof.
  intros T C D. unfold vcf_line.
  rewrite T, (digit_not_names _ _ C D), C. cbn [bind]. rewrite D.
  rewrite sfs_loop_cons, sfs_column_idle by lia. cbn [bind].
  rewrite sfs_loop_cons, sfs_column_2. cbn [bind]. cbv zeta.
  destruct (negb (ok (position sites div (atoi t2) (start_line (atoi t1) st))));
    reflexivity.
Qed.

Lemma genotype_sfs (temp : string) (st st' : vcf_state) :
  genotype temp st = Some st' -> sfs st' = sfs st.
Proof.
  unfold genotype.
  destruct (tchar temp 0) as [t0|]; [|discriminate]. cbn [bind].
  destruct (c_and (Ascii.eqb t0 "1") _) as [hom1|]; [|discriminate].
  cbn [bind].
  destruct (if hom1 then Some false else _) as [hom0|]; [|discriminate].
  cbn [bind].
  destruct (geno st) as [g|]; [|discriminate]. cbn [bind].
  destruct hom1; [|destruct hom0];
    (destruct (store g (i st) _) as [g'|]; [|discriminate]);
    cbn [bind]; intros H; inversion H; reflexivity.
Qed.

Lemma column_sfs (sites : list (Z * Z)) (div : list Site_s) (gc : Z)
  (j : nat) (temp : string) (st st' : vcf_state) (brk : bool) :
  column sites div gc j temp st = Some (brk, st') -> sfs st' = sfs st.
Proof.
  unfold column.
  destruct (Nat.eqb j 2).
  { intros H; inversion H.
    destruct (SfsFacts.sfs_position_view sites div (atoi temp) st)
      as (_ & _ & _ & _ & _ & _ & _ & E & _). exact E. }
  destruct (Nat.eqb j 4).
  { destruct (tchar temp 0) as [c|]; [|discriminate]. cbn [bind].
    destruct (rd (set_ref c st)).
    - destruct (nth_error div _) as [d|]; [|discriminate]. cbn [bind].
      destruct (negb _); intros H; inversion H; reflexivity.
    - intros H; inversion H; reflexivity. }
  destruct (Nat.eqb j 5).
  { destruct (tchar temp 0) as [c|]; [|discriminate]. cbn [bind].
    destruct (negb (gc =? 0)).
    - destruct (if rd (set_ok false (set_alt c st)) then _ else _)
        as [m|]; [|discriminate].
      cbn [bind]. destruct m; [intros H; inversion H; reflexivity|].
      destruct (_ && _); intros H; inversion H; reflexivity.
    - intros H; inversion H; reflexivity. }
  destruct (Nat.ltb 9 j).
  - destruct (genotype temp st) as [s1|] eqn:G; [|discriminate].
    cbn [bind]. intros H; inversion H; subst. eapply genotype_sfs; eauto.
  - intros H; inversion H; reflexivity.
Qed.

Lemma token_loop_sfs (sites : list (Z * Z)) (div : list Site_s) (gc : Z)
  (toks : list string) (j : nat) (st st' : vcf_state) :
  token_loop sites div gc toks j st = Some st' -> sfs st' = sfs st.
Proof.
  revert j st; induction toks as [|temp toks IH]; intros j st.
  - simpl. intros H; inversion H; reflexivity.
  - rewrite sfs_loop_cons.
    destruct (column sites div gc j temp st) as [[brk s1]|] eqn:C;
      [|discriminate].
    cbn [bind]. pose proof (column_sfs _ _ _ _ _ _ _ _ C) as E1.
    destruct brk.
    + intros H; inversion H; subst; exact E1.
    + intros H. rewrite (IH _ _ H). exact E1.
Qed.

Lemma tally_unallocated (st st' : vcf_state) :
  sfs st = None -> tally st = Some st' -> st' = st.
Proof.
  unfold tally. intros E. destruct (negb (ok st)).
  - intros H; inversion H; reflexivity.
  - rewrite E. discriminate.
Qed.

Lemma vcf_line_unallocated (junk : nat -> Z) (sites : list (Z * Z))
  (div : list Site_s) (gc : Z) (line : string) (st st' : vcf_state) :
  is_names line = false -> sfs st = None ->
  vcf_line junk sites div gc line st = Some st' -> sfs st' = None.
Proof.
  unfold is_names, first_token, vcf_line.
  destruct (strtok_all (lineTerminator line)) as [|t1 rest]; [discriminate|].
  cbn [hd_error]. intros N E. rewrite N.
  destruct (tchar t1 0) as [c0|]; [|discriminate]. cbn [bind].
  destruct (isdigit c0); [|intros H; inversion H; subst; exact E].
  destruct (token_loop sites div gc (t1 :: rest) 1 (start_line (atoi t1) st))
    as [s2|] eqn:T; [|discriminate].
  cbn [bind]. intros H.
  assert (E2 : sfs s2 = None).
  { rewrite (token_loop_sfs _ _ _ _ _ _ _ T), start_line_sfs. exact E. }
  rewrite (tally_unallocated _ _ E2 H). exact E2.
Qed.
End SfsShape.

(** X12. A variant file without a line that begins with [#CHROM] is never
    read to its end by [makeDFE-alpha.c]: [geno] and [sfs] are set on that
    line only, and [sfs], which was never set, is read after the last line
    at the latest. *)
Theorem makeDFE_without_names_line_is_undefined
  (junk : nat -> Z) (sites : list (Z * Z)) (div : list Site_s) (gc : Z)
  (lines : list string) :
  forallb (fun l => negb (is_names l)) lines = true ->
  MakeDFE.readVcf junk sites div gc lines = None.
Proof.
  intros H. unfold MakeDFE.readVcf.
  assert (G : forall st st',
    MakeDFE.sfs st = None ->
    MakeDFE.readVcf_from junk sites div gc lines st = Some st' ->
    MakeDFE.sfs st' = None).
  { induction lines as [|line lines IH]; intros st st' E.
    - simpl. intros R; inversion R; subst; exact E.
    - simpl in H. apply andb_true_iff in H as [H1 H2].
      apply negb_true_iff in H1.
      cbn [MakeDFE.readVcf_from].
      destruct (MakeDFE.vcf_line junk sites div gc line st) as [s1|] eqn:L;
        [|discriminate].
      cbn [bind]. apply (IH H2).
      eapply SfsShape.vcf_line_unallocated; eauto. }
  destruct (MakeDFE.readVcf_from junk sites div gc lines MakeDFE.init_state)
    as [st|] eqn:R; [|reflexivity].
  cbn [bind]. unfold MakeDFE.emit.
  rewrite (G MakeDFE.init_state st eq_refl R). reflexivity.
Qed.

(** X11. A line of data with two columns or more whose position is found in
    no gene or in no block ([estDAF.c]), or in no listed site
    ([makeDFE-alpha.c]), is read without undefined behaviour whatever its
    other columns, and changes neither the output, the warnings nor a
    counter. *)
Theorem variant_outside_the_tables_is_not_counted :
  (forall (genes coords : list EstDAF.Region_s) (div : list Site_s) (gc : Z)
          (line : string) (st : EstDAF.vcf_state) (t1 t2 : string)
          (rest : list string) (c0 : ascii),
     strtok_all (lineTerminator line) = t1 :: t2 :: rest ->
     tchar t1 0 = Some c0 -> isdigit c0 = true ->
     in_regions genes (atoi t1) (atoi t2) &&
       in_regions coords (atoi t1) (atoi t2) = false ->
     exists st',
       EstDAF.vcf_line genes coords div gc line st = Some st' /\
       EstDAF.out st' = EstDAF.out st /\ EstDAF.err st' = EstDAF.err st /\
       EstDAF.gene st' = EstDAF.gene st /\
       EstDAF.da_i st' = EstDAF.da_i st /\ EstDAF.a_i st' = EstDAF.a_i st /\
       EstDAF.s_i st' = EstDAF.s_i st) /\
  (forall (junk : nat -> Z) (sites : list (Z * Z)) (div : list Site_s) (gc : Z)
          (line : string) (st : MakeDFE.vcf_state) (t1 t2 : string)
          (rest : list string) (c0 : ascii),
     strtok_all (lineTerminator line) = t1 :: t2 :: rest ->
     tchar t1 0 = Some c0 -> isdigit c0 = true ->
     in_sites sites (atoi t1) (atoi t2) = false ->
     exists st',
       MakeDFE.vcf_line junk sites div gc line st = Some st' /\
       MakeDFE.sfs st' = MakeDFE.sfs st /\ MakeDFE.geno st' = MakeDFE.geno st /\
       MakeDFE.si st' = MakeDFE.si st /\ MakeDFE.di st' = MakeDFE.di st /\
       MakeDFE.ind_i st' = MakeDFE.ind_i st /\
       MakeDFE.err st' = MakeDFE.err st).
Proof.
  split.
  - intros genes coords div gc line st t1 t2 rest c0 T C D Out.
    rewrite (DafShape.vcf_line_two _ _ _ _ _ _ _ _ _ _ T C D). cbv zeta.
    destruct (DafShape.position_step genes coords div (atoi t2)
                (EstDAF.set_chr (atoi t1) st)) as [Ee Step].
    cbv zeta in Ee, Step.
    change (EstDAF.chr (EstDAF.set_chr (atoi t1) st)) with (atoi t1) in Step.
    destruct Step as [(Ok & O & G & Da & A & Si)|(_ & Mg & Mc & _)].
    + rewrite Ok. cbn [negb]. eexists. split; [reflexivity|].
      repeat split; assumption.
    + rewrite Mg, Mc in Out. discriminate.
  - intros junk sites div gc line st t1 t2 rest c0 T C D Out.
    rewrite (SfsShape.sfs_line_two _ _ _ _ _ _ _ _ _ _ T C D). cbv zeta.
    destruct (SfsFacts.sfs_position_view sites div (atoi t2)
                (MakeDFE.start_line (atoi t1) st))
      as (_ & _ & _ & _ & Ok & _ & Eg & Es & Ed & Esi & _ & _ & _ & En & Ee).
    cbv zeta in Ok.
    rewrite start_line_chr in Ok.
    rewrite start_line_sfs in Es. rewrite start_line_di in Ed.
    rewrite start_line_si in Esi. rewrite start_line_err in Ee.
    change (MakeDFE.geno (MakeDFE.start_line (atoi t1) st))
      with (MakeDFE.geno st) in Eg.
    change (MakeDFE.ind_i (MakeDFE.start_line (atoi t1) st))
      with (MakeDFE.ind_i st) in En.
    change (MakeDFE.ok (MakeDFE.start_line (atoi t1) st)) with false in Ok.
    change (MakeDFE.site_i (MakeDFE.start_line (atoi t1) st))
      with (MakeDFE.site_i st) in Ok.
    assert (Nf : snd (locateSite sites (MakeDFE.site_i st) (atoi t1) (atoi t2))
                 = false).
    { destruct (snd (locateSite sites (MakeDFE.site_i st) (atoi t1) (atoi t2)))
        eqn:F; [|reflexivity].
      unfold locateSite, locate in F.
      apply scan_found_member in F. apply member_skipn in F.
      unfold in_sites in Out. congruence. }
    rewrite Nf in Ok. cbn [orb] in Ok.
    remember (MakeDFE.position sites div (atoi t2)
                (MakeDFE.start_line (atoi t1) st)) as st2 eqn:E2.
    clear E2.
    rewrite Ok. cbn [negb]. unfold MakeDFE.tally. rewrite Ok. cbn [negb].
    eexists. split; [reflexivity|]. repeat split; assumption.
Qed.

(** ** The classes, [main] and the coordinate file *)

Lemma nucleotide_cases (c : ascii) :
  nucleotide c = true ->
  c = "A"%char \/ c = "T"%char \/ c = "G"%char \/ c = "C"%char.
Proof.
  unfold nucleotide, weak, strong. rewrite !orb_true_iff, !Ascii.eqb_eq. tauto.
Qed.

(** X13. A substitution between two different nucleotides of A, T, G, C is
    in exactly one of the classes 1 to 4, in both programs, with or without
    a record. *)
Theorem every_substitution_is_in_one_class_of_four
  (rd : bool) (ref alt : ascii) :
  nucleotide ref = true -> nucleotide alt = true -> ref <> alt ->
  (exists gc, 1 <= gc <= 4 /\ EstDAF.classify gc rd ref alt = true /\
     forall gc', 1 <= gc' <= 4 -> EstDAF.classify gc' rd ref alt = true ->
                 gc' = gc) /\
  (exists gc, 1 <= gc <= 4 /\ MakeDFE.classify gc rd ref alt = true /\
     forall gc', 1 <= gc' <= 4 -> MakeDFE.classify gc' rd ref alt = true ->
                 gc' = gc).
Proof.
  intros Hr Ha Hne.
  apply nucleotide_cases in Hr. apply nucleotide_cases in Ha.
  assert (Four : forall g, 1 <= g <= 4 -> g = 1 \/ g = 2 \/ g = 3 \/ g = 4)
    by (intros; lia).
  destruct Hr as [ -> | [ -> | [ -> | -> ] ] ]; destruct Ha as [ -> | [ -> | [ -> | -> ] ] ];
    try congruence; destruct rd;
    (split;
     [first [exists 1; split; [lia|split; [reflexivity|]]
            |exists 2; split; [lia|split; [reflexivity|]]
            |exists 3; split; [lia|split; [reflexivity|]]
            |exists 4; split; [lia|split; [reflexivity|]]];
      intros g Hg; destruct (Four g Hg) as [ -> | [ -> | [ -> | -> ] ] ];
      intros Hc; solve [reflexivity|discriminate Hc]
     |first [exists 1; split; [lia|split; [reflexivity|]]
            |exists 2; split; [lia|split; [reflexivity|]]
            |exists 3; split; [lia|split; [reflexivity|]]
            |exists 4; split; [lia|split; [reflexivity|]]];
      intros g Hg; destruct (Four g Hg) as [ -> | [ -> | [ -> | -> ] ] ];
      intros Hc; solve [reflexivity|discriminate Hc]]).
Qed.

(** X14. What [main] reports: after the line feed of a terminal, one line.
    It gives hours, minutes and seconds when an hour or more has elapsed,
    minutes and seconds from a minute on, the seconds from 6 seconds on, and
    the numbers it gives add up to the seconds elapsed; up to 5 seconds it is
    an empty line. *)
Theorem main_reports_the_elapsed_seconds (tty : bool) (second : Z) :
  exists l,
    main tty second = ((if tty then [Newline] else []) ++ [l])%list /\
    match l with
    | RunHours h m s =>
        0 < h /\ 0 <= m < 60 /\ 0 <= s < 60 /\ h * 3600 + m * 60 + s = second
    | RunMinutes m s =>
        0 < m < 60 /\ 0 <= s < 60 /\ m * 60 + s = second
    | RunSeconds s => 5 < s < 60 /\ s = second
    | Newline => second <= 5
    end.
Proof.
  unfold main. eexists. split; [reflexivity|].
  destruct (Z.le_gt_cases 0 second) as [Hp|Hn].
  - rewrite !Z.quot_div_nonneg by lia.
    pose proof (Z.div_mod second 60 ltac:(lia)) as D60.
    pose proof (Z.mod_pos_bound second 60 ltac:(lia)) as M60.
    pose proof (Z.div_mod second 3600 ltac:(lia)) as D36.
    pose proof (Z.mod_pos_bound second 3600 ltac:(lia)) as M36.
    assert (0 <= second / 60) by (apply Z.div_pos; lia).
    assert (0 <= second / 3600) by (apply Z.div_pos; lia).
    destruct (Z.gtb_spec (second / 3600) 0).
    + repeat split; try lia.
    + destruct (Z.gtb_spec (second / 60) 0).
      * repeat split; try lia.
      * destruct (Z.gtb_spec second 5); [split; lia|lia].
  - assert (Q60 : Z.quot second 60 <= 0).
    { replace second with (- (- second)) by lia.
      rewrite Z.quot_opp_l by lia. rewrite Z.quot_div_nonneg by lia.
      assert (0 <= - second / 60) by (apply Z.div_pos; lia). lia. }
    assert (Q36 : Z.quot second 3600 <= 0).
    { replace second with (- (- second)) by lia.
      rewrite Z.quot_opp_l by lia. rewrite Z.quot_div_nonneg by lia.
      assert (0 <= - second / 3600) by (apply Z.div_pos; lia). lia. }
    destruct (Z.gtb_spec (Z.quot second 3600) 0); [lia|].
    destruct (Z.gtb_spec (Z.quot second 60) 0); [lia|].
    destruct (Z.gtb_spec second 5); lia.
Qed.

(** The two programs read a line of the coordinate file alike. *)
Lemma readCoord_line_agree (line : string) :
  MakeDFE.readCoord_line line =
  option_map (option_map unnamed) (EstDAF.readCoord_line line).
Proof.
  unfold MakeDFE.readCoord_line, EstDAF.readCoord_line.
  destruct (nth_error _ 0); [|reflexivity]. cbn [bind].
  destruct (nth_error _ 1); [|reflexivity]. cbn [bind].
  destruct (nth_error _ 7) as [temp|]; [|reflexivity]. cbn [bind].
  destruct (tchar temp 0) as [c0|]; [|reflexivity]. cbn [bind].
  destruct (isdigit c0); reflexivity.
Qed.

(** X5. The two programs load the same blocks from a coordinate file: the
    table of [makeDFE-alpha.c] is that of [estDAF.c] without the names, which
    [readCoord] does not set. *)
Theorem both_programs_load_the_same_blocks (lines : list string) :
  MakeDFE.readCoord lines = option_map (map unnamed) (EstDAF.readCoord lines).
Proof.
  unfold MakeDFE.readCoord, EstDAF.readCoord.
  change (@nil MakeDFE.Region_s) with (map unnamed []).
  generalize (@nil EstDAF.Region_s).
  induction lines as [|line lines IH]; intros lst; [reflexivity|].
  cbn [MakeDFE.readCoord_loop EstDAF.readCoord_loop].
  rewrite readCoord_line_agree.
  destruct (EstDAF.readCoord_line line) as [[r|]|]; cbn [option_map bind];
    [|apply IH|reflexivity].
  rewrite <- IH, map_app. reflexivity.
Qed.

(** ** The files and the tables allocated for them *)

Module FileFacts.
Import Files.

Lemma getlines_nil (f : string) : getlines f = [] -> f = EmptyString.
Proof.
  destruct f as [|c r]; [reflexivity|]. simpl.
  destruct (Ascii.eqb c LF); [discriminate|].
  destruct (getlines r); discriminate.
Qed.

Lemma count_lines_getlines (f : string) :
  (count_lines f <= List.length (getlines f))%nat /\
  (terminated f = true -> count_lines f = List.length (getlines f)) /\
  (terminated f = false -> (count_lines f < List.length (getlines f))%nat).
Proof.
  induction f as [|c r (IH1 & IH2 & IH3)];
    [simpl; repeat split; intros; auto; discriminate|].
  cbn [count_lines getlines terminated].
  destruct (Ascii.eqb c EOF_byte) eqn:E255; cbn [negb andb].
  - assert (0 < List.length
               (if Ascii.eqb c LF then String c EmptyString :: getlines r
                else match getlines r with
                     | l :: ls => String c l :: ls
                     | [] => [String c EmptyString]
                     end))%nat.
    { destruct (Ascii.eqb c LF); [simpl; lia|].
      destruct (getlines r); simpl; lia. }
    repeat split; intros; solve [lia|discriminate].
  - destruct (Ascii.eqb c LF) eqn:ELF.
    + cbn [List.length]. destruct r as [|c' r'].
      * simpl. repeat split; intros; solve [lia|discriminate].
      * split; [lia|split; intros T].
        -- rewrite (IH2 T). reflexivity.
        -- specialize (IH3 T). lia.
    + destruct r as [|c' r'].
      * simpl. repeat split; intros; solve [lia|discriminate].
      * pose proof (getlines_nil (String c' r')) as N.
        destruct (getlines (String c' r')) as [|l ls];
          [specialize (N eq_refl); discriminate|].
        cbn [List.length] in *. repeat split; auto.
Qed.

Lemma terminated_no_lines (f : string) :
  terminated f = true -> count_lines f = 0%nat -> f = EmptyString.
Proof.
  intros T C. destruct (count_lines_getlines f) as (_ & E & _).
  rewrite (E T) in C. apply getlines_nil.
  destruct (getlines f); [reflexivity|discriminate].
Qed.

(** With a slot for every line left, the loops are those of the tables
    without bounds. *)
Lemma fill_readGenes (cap : nat) (lines : list string)
  (lst : list EstDAF.Region_s) :
  (List.length lst + List.length lines <= cap)%nat ->
  fill readGenes_row cap lines tt lst =
  option_map (pair tt) (EstDAF.readGenes_loop lines lst).
Proof.
  revert lst; induction lines as [|line lines IH]; intros lst Hc;
    [reflexivity|].
  cbn [fill EstDAF.readGenes_loop]. unfold readGenes_row at 1.
  destruct (EstDAF.readGenes_line line) as [r|]; [|reflexivity].
  cbn [bind fst snd andb]. cbn [List.length] in Hc.
  replace (List.length lst <? cap)%nat with true
    by (symmetry; apply Nat.ltb_lt; lia).
  cbn [negb]. apply IH. rewrite length_app. simpl. lia.
Qed.

Lemma fill_daf_readCoord (cap : nat) (lines : list string)
  (lst : list EstDAF.Region_s) :
  (List.length lst + List.length lines <= cap)%nat ->
  fill daf_readCoord_row cap lines tt lst =
  option_map (pair tt) (EstDAF.readCoord_loop lines lst).
Proof.
  revert lst; induction lines as [|line lines IH]; intros lst Hc;
    [reflexivity|].
  cbn [fill EstDAF.readCoord_loop]. unfold daf_readCoord_row at 1.
  destruct (EstDAF.readCoord_line line) as [r|]; [|reflexivity].
  cbn [bind fst snd andb]. cbn [List.length] in Hc.
  replace (List.length lst <? cap)%nat with true
    by (symmetry; apply Nat.ltb_lt; lia).
  cbn [negb]. destruct r; apply IH; rewrite ?length_app; simpl; lia.
Qed.

Lemma fill_daf_readDiv (cap : nat) (lines : list string)
  (lst : list Site_s) :
  (List.length lst + List.length lines <= cap)%nat ->
  fill daf_readDiv_row cap lines tt lst =
  option_map (pair tt) (EstDAF.readDiv_loop lines lst).
Proof.
  revert lst; induction lines as [|line lines IH]; intros lst Hc;
    [reflexivity|].
  cbn [fill EstDAF.readDiv_loop]. unfold daf_readDiv_row at 1.
  destruct (EstDAF.readDiv_line line) as [r|]; [|reflexivity].
  cbn [bind fst snd andb]. cbn [List.length] in Hc.
  replace (List.length lst <? cap)%nat with true
    by (symmetry; apply Nat.ltb_lt; lia).
  cbn [negb]. destruct r; apply IH; rewrite ?length_app; simpl; lia.
Qed.

Lemma fill_readCoord (cap : nat) (lines : list string)
  (lst : list MakeDFE.Region_s) :
  (List.length lst + List.length lines <= cap)%nat ->
  fill readCoord_row cap lines tt lst =
  option_map (pair tt) (MakeDFE.readCoord_loop lines lst).
Proof.
  revert lst; induction lines as [|line lines IH]; intros lst Hc;
    [reflexivity|].
  cbn [fill MakeDFE.readCoord_loop]. unfold readCoord_row at 1.
  destruct (MakeDFE.readCoord_line line) as [r|]; [|reflexivity].
  cbn [bind fst snd andb]. cbn [List.length] in Hc.
  replace (List.length lst <? cap)%nat with true
    by (symmetry; apply Nat.ltb_lt; lia).
  cbn [negb]. destruct r; apply IH; rewrite ?length_app; simpl; lia.
Qed.

Lemma fill_readTarget (cap : nat) (lines : list string)
  (lst : list MakeDFE.Region_s) :
  (List.length lst + List.length lines <= cap)%nat ->
  fill readTarget_row cap lines tt lst =
  option_map (pair tt) (MakeDFE.readTarget_loop lines lst).
Proof.
  revert lst; induction lines as [|line lines IH]; intros lst Hc;
    [reflexivity|].
  cbn [fill MakeDFE.readTarget_loop]. unfold readTarget_row at 1.
  destruct (MakeDFE.readTarget_line line) as [r|]; [|reflexivity].
  cbn [bind fst snd andb]. cbn [List.length] in Hc.
  replace (List.length lst <? cap)%nat with true
    by (symmetry; apply Nat.ltb_lt; lia).
  cbn [negb]. apply IH. rewrite length_app. simpl. lia.
Qed.

Lemma fill_readDiv (sites : list (Z * Z)) (cap : nat) (lines : list string)
  (k : nat) (lst : list Site_s) :
  (List.length lst + List.length lines <= cap)%nat ->
  option_map snd (fill (readDiv_row sites) cap lines k lst) =
  MakeDFE.readDiv_loop sites lines k lst.
Proof.
  revert k lst; induction lines as [|line lines IH]; intros k lst Hc;
    [reflexivity|].
  cbn [fill MakeDFE.readDiv_loop]. unfold readDiv_row at 1.
  destruct (MakeDFE.readDiv_line sites line k) as [[k' r]|]; [|reflexivity].
  cbn [bind fst snd andb]. cbn [List.length] in Hc.
  replace (List.length lst <? cap)%nat with true
    by (symmetry; apply Nat.ltb_lt; lia).
  cbn [negb]. destruct r; apply IH; rewrite ?length_app; simpl; lia.
Qed.

(** A line of the list of sites adds to the rows kept so far what it adds
    to none. *)
Lemma readSites_line_acc (coords target : list MakeDFE.Region_s)
  (line : string) (ci ti : nat) (lst : list (Z * Z)) :
  MakeDFE.readSites_line coords target line (MakeDFE.mkSites ci ti lst) =
  option_map
    (fun s1 => MakeDFE.mkSites (MakeDFE.ss_coord_i s1) (MakeDFE.ss_target_i s1)
                 (match hd_error (MakeDFE.ss_list s1) with
                  | Some x => lst ++ [x]
                  | None => lst
                  end))
    (MakeDFE.readSites_line coords target line (MakeDFE.mkSites ci ti [])).
Proof.
  unfold MakeDFE.readSites_line.
  destruct (tchar (lineTerminator line) 0) as [c0|]; [|reflexivity].
  cbn [bind]. destruct (negb (isdigit c0)); [reflexivity|].
  destruct (nth_error _ 0) as [t0|]; [|reflexivity]. cbn [bind].
  destruct (nth_error _ 1) as [t1|]; [|reflexivity]. cbn [bind].
  cbn [MakeDFE.ss_coord_i MakeDFE.ss_target_i MakeDFE.ss_list option_map].
  destruct (snd (MakeDFE.readSites_coord_loop _ _ _ _ _ _)); reflexivity.
Qed.

Lemma fill_readSites (coords target : list MakeDFE.Region_s) (cap : nat)
  (lines : list string) (ci ti : nat) (lst : list (Z * Z)) :
  (List.length lst + List.length lines <= cap)%nat ->
  option_map snd (fill (readSites_row coords target) cap lines (ci, ti) lst) =
  option_map MakeDFE.ss_list
    (MakeDFE.readSites_loop coords target lines (MakeDFE.mkSites ci ti lst)).
Proof.
  revert ci ti lst; induction lines as [|line lines IH]; intros ci ti lst Hc;
    [reflexivity|].
  cbn [fill MakeDFE.readSites_loop]. unfold readSites_row at 1.
  rewrite (readSites_line_acc coords target line ci ti lst).
  cbn [fst snd].
  destruct (MakeDFE.readSites_line coords target line (MakeDFE.mkSites ci ti []))
    as [s1|] eqn:E1; [|reflexivity].
  cbn [bind option_map].
  assert (exists c0, tchar (lineTerminator line) 0 = Some c0) as [c0 Ec].
  { unfold MakeDFE.readSites_line in E1.
    destruct (tchar (lineTerminator line) 0); [eauto|discriminate]. }
  rewrite Ec. cbn [bind fst snd]. cbn [List.length] in Hc.
  replace (List.length lst <? cap)%nat with true
    by (symmetry; apply Nat.ltb_lt; lia).
  cbn [negb]. rewrite andb_false_r.
  destruct s1 as [ci1 ti1 l1]. cbn [MakeDFE.ss_coord_i MakeDFE.ss_target_i
                                      MakeDFE.ss_list].
  destruct (hd_error l1); apply IH; rewrite ?length_app; simpl; lia.
Qed.

(** A loop that stores on every line and comes to its end had a slot for
    every line. *)
Lemma fill_every_line {A : Type} (row : unit -> string -> option (unit * bool * option A))
  (cap : nat) (lines : list string) (lst : list A) (r : unit * list A) :
  (forall s line x, row s line = Some x -> snd (fst x) = true /\ snd x <> None) ->
  fill row cap lines tt lst = Some r ->
  lines = [] \/ (List.length lst + List.length lines <= cap)%nat.
Proof.
  intros Hrow. revert lst; induction lines as [|line lines IH]; intros lst;
    [left; reflexivity|].
  cbn [fill]. destruct (row tt line) as [x|] eqn:E; [|discriminate].
  cbn [bind]. destruct (Hrow _ _ _ E) as [W K]. rewrite W. cbn [andb].
  destruct (Nat.ltb_spec (List.length lst) cap) as [Hlt|Hge];
    cbn [negb]; [|discriminate].
  destruct x as [[[] w] [a|]]; [|simpl in K; congruence]. cbn [fst snd].
  intros H. right. destruct (IH _ H) as [->|Hl].
  - simpl. lia.
  - rewrite length_app in Hl. simpl in *. lia.
Qed.
End FileFacts.

(** X15. The count of the lines that sizes the table of a loader is never
    above the number of lines [getline] gives, and equals it exactly on the
    files that end with a line feed and hold no byte 255. *)
Theorem line_count_matches_getline_on_terminated_files_only (f : string) :
  (Files.count_lines f <= List.length (Files.getlines f))%nat /\
  (Files.terminated f = true <->
   Files.count_lines f = List.length (Files.getlines f)).
Proof.
  destruct (FileFacts.count_lines_getlines f) as (A & B & C).
  split; [exact A|]. split; [exact B|].
  intros E. destruct (Files.terminated f); [reflexivity|].
  specialize (C eq_refl). lia.
Qed.

(** X16. On a file that ends with a line feed and holds no byte 255, every
    loader stores within its table: unless [malloc(0)] gave the null pointer
    for a file without lines, the loader gives what its loop gives on the
    lines of the file. *)
Theorem terminated_file_is_loaded_within_its_table
  (malloc0_null : bool) (f : string) :
  Files.terminated f = true ->
  let lines := Files.file_lines f in
  let leave {A} (t : option (list A)) : option (Files.outcome (list A)) :=
    if malloc0_null && Nat.eqb (Files.count_lines f) 0 then Some Files.Failure
    else option_map Files.Done t in
  Files.readGenes malloc0_null f = leave (EstDAF.readGenes lines) /\
  Files.daf_readCoord malloc0_null f = leave (EstDAF.readCoord lines) /\
  Files.daf_readDiv malloc0_null f = leave (EstDAF.readDiv lines) /\
  Files.readCoord malloc0_null f = leave (MakeDFE.readCoord lines) /\
  Files.readTarget malloc0_null f = leave (MakeDFE.readTarget lines) /\
  (forall coords target,
     Files.readSites malloc0_null coords target f =
     leave (MakeDFE.readSites coords target lines)) /\
  (forall sites,
     Files.readDiv malloc0_null sites f = leave (MakeDFE.readDiv sites lines)).
Proof.
  intros T. cbv zeta.
  destruct (FileFacts.count_lines_getlines f) as (_ & E & _).
  specialize (E T).
  assert (Hc : (List.length (@nil EstDAF.Region_s) +
                List.length (Files.file_lines f) <= Files.count_lines f)%nat).
  { unfold Files.file_lines. rewrite length_map, E. simpl. lia. }
  unfold Files.readGenes, Files.daf_readCoord, Files.daf_readDiv,
    Files.readCoord, Files.readTarget, Files.readSites, Files.readDiv,
    Files.load.
  destruct (malloc0_null && Nat.eqb (Files.count_lines f) 0);
    [repeat split; reflexivity|].
  repeat match goal with |- _ /\ _ => split end; intros.
  - rewrite FileFacts.fill_readGenes by exact Hc.
    unfold EstDAF.readGenes. destruct (EstDAF.readGenes_loop _ _); reflexivity.
  - rewrite FileFacts.fill_daf_readCoord by exact Hc.
    unfold EstDAF.readCoord. destruct (EstDAF.readCoord_loop _ _); reflexivity.
  - rewrite FileFacts.fill_daf_readDiv by exact Hc.
    unfold EstDAF.readDiv. destruct (EstDAF.readDiv_loop _ _); reflexivity.
  - rewrite FileFacts.fill_readCoord by exact Hc.
    unfold MakeDFE.readCoord. destruct (MakeDFE.readCoord_loop _ _); reflexivity.
  - rewrite FileFacts.fill_readTarget by exact Hc.
    unfold MakeDFE.readTarget. destruct (MakeDFE.readTarget_loop _ _); reflexivity.
  - pose proof (FileFacts.fill_readSites coords target (Files.count_lines f)
                  (Files.file_lines f) 0 0 [] Hc) as F.
    unfold MakeDFE.readSites.
    destruct (Files.fill _ _ _ _ _) as [r|];
      destruct (MakeDFE.readSites_loop _ _ _ _) as [s|];
      cbn [option_map bind] in *. all: congruence.
  - pose proof (FileFacts.fill_readDiv sites (Files.count_lines f)
                  (Files.file_lines f) 0 [] Hc) as F.
    unfold MakeDFE.readDiv.
    destruct (Files.fill _ _ _ _ _) as [r|];
      destruct (MakeDFE.readDiv_loop _ _ _ _) as [s|];
      cbn [option_map bind] in *; congruence.
Qed.

(** X17. A gene file or a region file whose last line has no line feed is
    never loaded: [readGenes] and [readTarget] store every line, the table
    has one slot less than the file has lines, and the run is undefined or
    ends with the message [merror]. *)
Theorem table_of_every_line_needs_the_last_line_feed
  (malloc0_null : bool) (f : string) :
  Files.terminated f = false ->
  (forall l, Files.readGenes malloc0_null f <> Some (Files.Done l)) /\
  (forall l, Files.readTarget malloc0_null f <> Some (Files.Done l)).
Proof.
  intros T.
  destruct (FileFacts.count_lines_getlines f) as (_ & _ & C).
  specialize (C T).
  assert (Hl : (Files.count_lines f < List.length (Files.file_lines f))%nat)
    by (unfold Files.file_lines; rewrite length_map; exact C).
  unfold Files.readGenes, Files.readTarget, Files.load.
  split; intros l;
    (destruct (malloc0_null && Nat.eqb (Files.count_lines f) 0);
     [discriminate|]);
    destruct (Files.fill _ _ _ _ _) as [r|] eqn:F; try discriminate;
    exfalso; apply FileFacts.fill_every_line in F.
  - destruct F as [F|F]; [rewrite F in Hl; simpl in Hl; lia|simpl in F; lia].
  - intros s line x. unfold Files.readGenes_row.
    destruct (EstDAF.readGenes_line line); [|discriminate].
    cbn [bind]. intros H; inversion H; subst. split; [reflexivity|discriminate].
  - destruct F as [F|F]; [rewrite F in Hl; simpl in Hl; lia|simpl in F; lia].
  - intros s line x. unfold Files.readTarget_row.
    destruct (MakeDFE.readTarget_line line); [|discriminate].
    cbn [bind]. intros H; inversion H; subst. split; [reflexivity|discriminate].
Qed.

(** ** The command line *)

Module CliFacts.
Import Files Cli.

Lemma daf_arg_loop_done (fs : string -> option string) (n : nat) :
  forall (argv : list string) (a a' : daf_args) (log log' : list message),
    (List.length argv <= n)%nat ->
    daf_arg_loop fs argv a log = Some (log', Done a') ->
    (d_genes a' <> None -> d_genes a <> None \/ In "-genes"%string argv) /\
    (d_coord a' <> None -> d_coord a <> None \/ In "-coord"%string argv) /\
    (d_div a' <> None -> d_div a <> None \/ In "-div"%string argv) /\
    (d_vcf a' <> None -> d_vcf a <> None \/ In "-vcf"%string argv) /\
    (0 <= d_gc a <= 5 -> 0 <= d_gc a' <= 5).
Proof.
  induction n as [|n IH]; intros argv a a' log log' Hn H.
  - destruct argv; [|simpl in Hn; lia].
    simpl in H. inversion H; subst. tauto.
  - destruct argv as [|arg [|value rest]].
    + simpl in H. inversion H; subst. tauto.
    + simpl in H.
      destruct (_ || _); discriminate.
    + cbn [daf_arg_loop] in H. cbv zeta in H.
      assert (Hr : (List.length rest <= n)%nat) by (simpl in Hn; lia).
      destruct (String.eqb arg "-coord") eqn:Ec.
      { cbn [orb] in H. destruct (fs value) as [f|]; [|discriminate].
        apply String.eqb_eq in Ec. subst arg.
        destruct (IH _ _ _ _ _ Hr H) as (G & C & D & V & R).
        cbn [d_genes d_coord d_div d_vcf d_gc] in *.
        (split; [|split; [|split; [|split]]]); intros X;
          try (destruct (G X) as [?|?]; [left; assumption|right; right; right; assumption]);
          try (destruct (D X) as [?|?]; [left; assumption|right; right; right; assumption]);
          try (destruct (V X) as [?|?]; [left; assumption|right; right; right; assumption]);
          try (right; left; reflexivity); auto. }
      destruct (String.eqb arg "-div") eqn:Ed.
      { cbn [orb] in H. destruct (fs value) as [f|]; [|discriminate].
        apply String.eqb_eq in Ed. subst arg.
        destruct (IH _ _ _ _ _ Hr H) as (G & C & D & V & R).
        cbn [d_genes d_coord d_div d_vcf d_gc] in *.
        (split; [|split; [|split; [|split]]]); intros X;
          try (destruct (G X) as [?|?]; [left; assumption|right; right; right; assumption]);
          try (destruct (C X) as [?|?]; [left; assumption|right; right; right; assumption]);
          try (destruct (V X) as [?|?]; [left; assumption|right; right; right; assumption]);
          try (right; left; reflexivity); auto. }
      destruct (String.eqb arg "-vcf") eqn:Ev.
      { cbn [orb] in H. destruct (fs value) as [f|]; [|discriminate].
        apply String.eqb_eq in Ev. subst arg.
        destruct (IH _ _ _ _ _ Hr H) as (G & C & D & V & R).
        cbn [d_genes d_coord d_div d_vcf d_gc] in *.
        (split; [|split; [|split; [|split]]]); intros X;
          try (destruct (G X) as [?|?]; [left; assumption|right; right; right; assumption]);
          try (destruct (C X) as [?|?]; [left; assumption|right; right; right; assumption]);
          try (destruct (D X) as [?|?]; [left; assumption|right; right; right; assumption]);
          try (right; left; reflexivity); auto. }
      destruct (String.eqb arg "-genes") eqn:Eg.
      { cbn [orb] in H. destruct (fs value) as [f|]; [|discriminate].
        apply String.eqb_eq in Eg. subst arg.
        destruct (IH _ _ _ _ _ Hr H) as (G & C & D & V & R).
        cbn [d_genes d_coord d_div d_vcf d_gc] in *.
        (split; [|split; [|split; [|split]]]); intros X;
          try (destruct (C X) as [?|?]; [left; assumption|right; right; right; assumption]);
          try (destruct (D X) as [?|?]; [left; assumption|right; right; right; assumption]);
          try (destruct (V X) as [?|?]; [left; assumption|right; right; right; assumption]);
          try (right; left; reflexivity); auto. }
      cbn [orb] in H.
      destruct (String.eqb arg "-gc"); [|discriminate].
      destruct ((atoi value <? 0) || (atoi value >? 5)) eqn:Er; [discriminate|].
      destruct (IH _ _ _ _ _ Hr H) as (G & C & D & V & R).
      cbn [d_genes d_coord d_div d_vcf d_gc] in *.
      apply orb_false_iff in Er as [E1 E2].
      apply Z.ltb_ge in E1. rewrite Z.gtb_ltb in E2. apply Z.ltb_ge in E2.
      (split; [|split; [|split; [|split]]]); intros X;
        try (destruct (G X) as [?|?]; [left; assumption|right; right; right; assumption]);
        try (destruct (C X) as [?|?]; [left; assumption|right; right; right; assumption]);
        try (destruct (D X) as [?|?]; [left; assumption|right; right; right; assumption]);
        try (destruct (V X) as [?|?]; [left; assumption|right; right; right; assumption]);
        try (apply R; lia).
Qed.

Ltac flag_goal :=
  match goal with
  | X : ?P, F : ?P -> _ \/ _ |- _ \/ _ =>
      destruct (F X) as [?|?];
      [first [left; assumption|right; left; reflexivity]
      |right; right; right; assumption]
  end.

Lemma sfs_arg_loop_done (fs : string -> option string) (n : nat) :
  forall (argv : list string) (a a' : sfs_args) (log log' : list message),
    (List.length argv <= n)%nat ->
    sfs_arg_loop fs argv a log = Some (log', Done a') ->
    (s_coord a' <> None -> s_coord a <> None \/ In "-coord"%string argv) /\
    (s_div a' <> None -> s_div a <> None \/ In "-div"%string argv) /\
    (s_sites a' <> None -> s_sites a <> None \/ In "-sites"%string argv) /\
    (s_vcf a' <> None -> s_vcf a <> None \/ In "-vcf"%string argv) /\
    (s_region a' <> None -> s_region a <> None \/ In "-region"%string argv) /\
    (0 <= s_gc a <= 5 -> 0 <= s_gc a' <= 5).
Proof.
  induction n as [|n IH]; intros argv a a' log log' Hn H.
  - destruct argv; [|simpl in Hn; lia].
    simpl in H. inversion H; subst. tauto.
  - destruct argv as [|arg [|value rest]].
    + simpl in H. inversion H; subst. tauto.
    + simpl in H.
      destruct (_ || _); discriminate.
    + cbn [sfs_arg_loop] in H. cbv zeta in H.
      assert (Hr : (List.length rest <= n)%nat) by (simpl in Hn; lia).
      destruct (String.eqb arg "-coord") eqn:Ec.
      { cbn [orb] in H. destruct (fs value) as [f|]; [|discriminate].
        apply String.eqb_eq in Ec. subst arg.
        destruct (IH _ _ _ _ _ Hr H) as (C & D & S' & V & T & R).
        cbn [s_coord s_div s_sites s_vcf s_region s_gc] in *.
        (split; [|split; [|split; [|split; [|split]]]]); intros X;
          solve [flag_goal|auto]. }
      destruct (String.eqb arg "-div") eqn:Ed.
      { cbn [orb] in H. destruct (fs value) as [f|]; [|discriminate].
        apply String.eqb_eq in Ed. subst arg.
        destruct (IH _ _ _ _ _ Hr H) as (C & D & S' & V & T & R).
        cbn [s_coord s_div s_sites s_vcf s_region s_gc] in *.
        (split; [|split; [|split; [|split; [|split]]]]); intros X;
          solve [flag_goal|auto]. }
      destruct (String.eqb arg "-sites") eqn:Es.
      { cbn [orb] in H. destruct (fs value) as [f|]; [|discriminate].
        apply String.eqb_eq in Es. subst arg.
        destruct (IH _ _ _ _ _ Hr H) as (C & D & S' & V & T & R).
        cbn [s_coord s_div s_sites s_vcf s_region s_gc] in *.
        (split; [|split; [|split; [|split; [|split]]]]); intros X;
          solve [flag_goal|auto]. }
      destruct (String.eqb arg "-vcf") eqn:Ev.
      { cbn [orb] in H. destruct (fs value) as [f|]; [|discriminate].
        apply String.eqb_eq in Ev. subst arg.
        destruct (IH _ _ _ _ _ Hr H) as (C & D & S' & V & T & R).
        cbn [s_coord s_div s_sites s_vcf s_region s_gc] in *.
        (split; [|split; [|split; [|split; [|split]]]]); intros X;
          solve [flag_goal|auto]. }
      destruct (String.eqb arg "-region") eqn:Eg.
      { cbn [orb] in H. destruct (fs value) as [f|]; [|discriminate].
        apply String.eqb_eq in Eg. subst arg.
        destruct (IH _ _ _ _ _ Hr H) as (C & D & S' & V & T & R).
        cbn [s_coord s_div s_sites s_vcf s_region s_gc] in *.
        (split; [|split; [|split; [|split; [|split]]]]); intros X;
          solve [flag_goal|auto]. }
      cbn [orb] in H.
      destruct (String.eqb arg "-gc"); [|discriminate].
      destruct ((atoi value <? 0) || (atoi value >? 5)) eqn:Er; [discriminate|].
      destruct (IH _ _ _ _ _ Hr H) as (C & D & S' & V & T & R).
      cbn [s_coord s_div s_sites s_vcf s_region s_gc] in *.
      apply orb_false_iff in Er as [E1 E2].
      apply Z.ltb_ge in E1. rewrite Z.gtb_ltb in E2. apply Z.ltb_ge in E2.
      (split; [|split; [|split; [|split; [|split]]]]); intros X;
        solve [flag_goal|apply R; lia].
Qed.

Lemma loaded_done {A B : Type} (log : list message)
  (t : option (outcome A)) (k : A -> option (list message * outcome B))
  (log' : list message) (b : B) :
  loaded log t k = Some (log', Done b) ->
  exists a, t = Some (Done a) /\ k a = Some (log', Done b).
Proof.
  unfold loaded. destruct t as [[a|]|]; cbn [bind]; try discriminate.
  intros H. exists a. auto.
Qed.
End CliFacts.

(** X18. A run of [openFiles] that reaches the end of [readVcf] had each of
    its four flags on the command line, has loaded every table without
    the message [merror], has a class between 0 and 5, and ends in what
    [readVcf] gives on these tables; in [makeDFE-alpha.c] the table of
    regions is empty unless [-region] was given. *)
Theorem run_needs_its_files_and_a_class_in_range :
  (forall (malloc0_null : bool) (fs : string -> option string)
          (argv : list string) (log : list Cli.message)
          (st : EstDAF.vcf_state),
     Cli.daf_openFiles malloc0_null fs argv = Some (log, Files.Done st) ->
     In "-genes"%string (tl argv) /\ In "-coord"%string (tl argv) /\
     In "-div"%string (tl argv) /\ In "-vcf"%string (tl argv) /\
     exists gene_file coord_file div_file vcf_file genes coords div gc,
       Files.readGenes malloc0_null gene_file = Some (Files.Done genes) /\
       Files.daf_readCoord malloc0_null coord_file = Some (Files.Done coords) /\
       Files.daf_readDiv malloc0_null div_file = Some (Files.Done div) /\
       0 <= gc <= 5 /\
       EstDAF.readVcf genes coords div gc (Files.file_lines vcf_file) = Some st) /\
  (forall (malloc0_null : bool) (junk : nat -> Z)
          (fs : string -> option string) (argv : list string)
          (log : list Cli.message) (out : MakeDFE.sfs_output),
     Cli.sfs_openFiles malloc0_null junk fs argv = Some (log, Files.Done out) ->
     In "-coord"%string (tl argv) /\ In "-div"%string (tl argv) /\
     In "-sites"%string (tl argv) /\ In "-vcf"%string (tl argv) /\
     exists coord_file div_file site_file vcf_file coords target sites div gc,
       Files.readCoord malloc0_null coord_file = Some (Files.Done coords) /\
       Files.readSites malloc0_null coords target site_file =
         Some (Files.Done sites) /\
       Files.readDiv malloc0_null sites div_file = Some (Files.Done div) /\
       (~ In "-region"%string (tl argv) -> target = []) /\
       0 <= gc <= 5 /\
       MakeDFE.readVcf junk sites div gc (Files.file_lines vcf_file) = Some out).
Proof.
  split.
  - intros m fs argv log st. unfold Cli.daf_openFiles.
    destruct (Cli.daf_arg_loop fs (tl argv) _ _) as [[log1 [a|]]|] eqn:L;
      cbn [bind fst snd]; try discriminate.
    destruct (CliFacts.daf_arg_loop_done fs _ _ _ _ _ _ (le_n _) L)
      as (G & C & D & V & R).
    cbn [Cli.d_genes Cli.d_coord Cli.d_div Cli.d_vcf Cli.d_gc] in *.
    destruct (Cli.d_genes a) as [gf|]; [|destruct (Cli.d_coord a);
      [destruct (Cli.d_div a); [destruct (Cli.d_vcf a)|]|]; discriminate].
    destruct (Cli.d_coord a) as [cf|]; [|discriminate].
    destruct (Cli.d_div a) as [df|]; [|discriminate].
    destruct (Cli.d_vcf a) as [vf|]; [|discriminate].
    intros H.
    apply CliFacts.loaded_done in H as [genes [Eg H]].
    apply CliFacts.loaded_done in H as [coords [Ec H]].
    apply CliFacts.loaded_done in H as [div [Ed H]].
    destruct (EstDAF.readVcf genes coords div (Cli.d_gc a) _) as [st'|] eqn:Ev;
      [|discriminate].
    cbn [bind] in H. inversion H; subst.
    assert (N : forall x : string, Some x <> None) by discriminate.
    split; [destruct (G (N _)) as [?|?]; [congruence|assumption]|].
    split; [destruct (C (N _)) as [?|?]; [congruence|assumption]|].
    split; [destruct (D (N _)) as [?|?]; [congruence|assumption]|].
    split; [destruct (V (N _)) as [?|?]; [congruence|assumption]|].
    exists gf, cf, df, vf, genes, coords, div, (Cli.d_gc a).
    repeat split; try assumption; apply R; lia.
  - intros m junk fs argv log out. unfold Cli.sfs_openFiles.
    destruct (Cli.sfs_arg_loop fs (tl argv) _ _) as [[log1 [a|]]|] eqn:L;
      cbn [bind fst snd]; try discriminate.
    destruct (CliFacts.sfs_arg_loop_done fs _ _ _ _ _ _ (le_n _) L)
      as (C & D & S' & V & T & R).
    cbn [Cli.s_coord Cli.s_div Cli.s_sites Cli.s_vcf Cli.s_region Cli.s_gc] in *.
    destruct (Cli.s_coord a) as [cf|]; [|discriminate].
    destruct (Cli.s_div a) as [df|]; [|discriminate].
    destruct (Cli.s_sites a) as [sf|]; [|discriminate].
    destruct (Cli.s_vcf a) as [vf|]; [|discriminate].
    intros H.
    apply CliFacts.loaded_done in H as [coords [Ec H]].
    apply CliFacts.loaded_done in H as [target [Et H]].
    apply CliFacts.loaded_done in H as [sites [Es H]].
    apply CliFacts.loaded_done in H as [div [Ed H]].
    destruct (MakeDFE.readVcf junk sites div (Cli.s_gc a) _) as [out'|] eqn:Ev;
      [|discriminate].
    cbn [bind] in H. inversion H; subst.
    assert (N : forall x : string, Some x <> None) by discriminate.
    split; [destruct (C (N _)) as [?|?]; [congruence|assumption]|].
    split; [destruct (D (N _)) as [?|?]; [congruence|assumption]|].
    split; [destruct (S' (N _)) as [?|?]; [congruence|assumption]|].
    split; [destruct (V (N _)) as [?|?]; [congruence|assumption]|].
    exists cf, df, sf, vf, coords, target, sites, div, (Cli.s_gc a).
    split; [assumption|]. split; [assumption|]. split; [assumption|].
    split; [|split; [apply R; lia|assumption]].
    intros Hn. destruct (Cli.s_region a) as [tf|].
    + destruct (T (N _)) as [?|?]; [congruence|contradiction].
    + inversion Et. reflexivity.
Qed.

(** ** estDAF.c: files that are read without undefined behaviour *)

Module DafDefined.
Import EstDAF.

Lemma column_defined (genes coords : list Region_s) (div : list Site_s)
  (gc : Z) (j : nat) (temp : string) (st : vcf_state) :
  (3 <= j <= 5)%nat -> on_record div st ->
  exists brk st1,
    column genes coords div gc j temp st = Some (brk, st1) /\
    on_record div st1.
Proof.
  intros Hj Rec.
  destruct (SfsLines.tchar_defined temp 0 (Nat.le_0_l _)) as [c Ec].
  assert (J : j = 3%nat \/ j = 4%nat \/ j = 5%nat) by lia.
  destruct J as [->|[->| ->]].
  - exists false, st. split; [apply daf_column_idle; lia|exact Rec].
  - rewrite (daf_column_4 _ _ _ _ _ _ _ Ec).
    unfold on_record in *.
    destruct (rd st) eqn:R.
    + destruct (Rec eq_refl) as [d Hd]. rewrite Hd. cbn [bind].
      destruct (negb (Ascii.eqb c (s_ref d))); eexists _, _;
        (split; [reflexivity|]);
        cbn [rd div_i warn set_ref]; rewrite R; intros _; eauto.
    + eexists _, _. split; [reflexivity|].
      cbn [rd div_i set_ref]. rewrite R. discriminate.
  - rewrite (daf_column_5 _ _ _ _ _ _ _ Ec).
    unfold on_record in *.
    destruct (rd st) eqn:R.
    + destruct (Rec eq_refl) as [d Hd]. rewrite Hd. cbn [bind].
      destruct (negb (Ascii.eqb c (s_alt d)));
        [|destruct (negb (gc =? 0))]; eexists _, _;
        (split; [reflexivity|]);
        cbn [rd div_i set_ok set_alt]; rewrite ?R; intros _; eauto.
    + cbn [bind]. destruct (negb (gc =? 0)); eexists _, _;
        (split; [reflexivity|]);
        cbn [rd div_i set_ok set_alt]; rewrite R; discriminate.
Qed.

Lemma token_loop_defined (genes coords : list Region_s) (div : list Site_s)
  (gc : Z) (toks : list string) (j : nat) (st : vcf_state) :
  (3 <= j)%nat -> on_record div st ->
  forallb (fun g => (2 <=? String.length g)%nat) (skipn (10 - j) toks) = true ->
  exists st', token_loop genes coords div gc toks j st = Some st'.
Proof.
  revert j st; induction toks as [|temp rest IH]; intros j st Hj Rec Hl.
  - eexists; reflexivity.
  - destruct (Nat.le_gt_cases 6 j) as [H6|H6].
    + destruct (daf_token_loop_total genes coords div gc (temp :: rest) j st
                  H6 ltac:(discriminate) Hl) as (st' & T & _).
      eauto.
    + rewrite daf_loop_cons.
      destruct (column_defined genes coords div gc j temp st ltac:(lia) Rec)
        as (brk & st1 & C & Rec1).
      rewrite C. cbn [bind]. destruct brk; [eauto|].
      destruct rest as [|t rest]; [eauto|].
      apply IH; [lia|exact Rec1|].
      replace (10 - j)%nat with (S (10 - S j)) in Hl by lia.
      cbn [skipn] in Hl. exact Hl.
Qed.

Lemma position_on_record (genes coords : list Region_s) (div : list Site_s)
  (c p : Z) (st : vcf_state) :
  on_record div (position genes coords div p (set_chr c st)).
Proof.
  intros R. destruct (daf_query_record genes coords div c p st R) as (d & Hd & _).
  eauto.
Qed.

Lemma vcf_line_defined (genes coords : list Region_s) (div : list Site_s)
  (gc : Z) (line : string) (st : vcf_state) :
  daf_readable line = true ->
  exists st', vcf_line genes coords div gc line st = Some st'.
Proof.
  unfold daf_readable.
  destruct (strtok_all (lineTerminator line)) as [|t1 rest] eqn:T;
    [discriminate|].
  intros Hl.
  destruct (SfsLines.tchar_defined t1 0 (Nat.le_0_l _)) as [c0 C].
  destruct (isdigit c0) eqn:D.
  2:{ unfold vcf_line. rewrite T, C. cbn [bind]. rewrite D. eauto. }
  destruct rest as [|t2 rest].
  { unfold vcf_line. rewrite T, C. cbn [bind]. rewrite D.
    rewrite daf_loop_cons, daf_column_idle by lia. cbn [bind]. eauto. }
  rewrite (DafShape.vcf_line_two _ _ _ _ _ _ _ _ _ _ T C D). cbv zeta.
  destruct (negb (ok _)); [eauto|].
  destruct rest as [|t3 rest]; [eauto|].
  apply token_loop_defined; [lia|apply position_on_record|].
  cbn [skipn] in Hl |- *. exact Hl.
Qed.
End DafDefined.

(** X19. [readVcf] of [estDAF.c] reads every file whose lines have a token
    and whose genotype columns have two characters or more without undefined
    behaviour, whatever the tables and the class: short lines, unsorted
    lines and lines without the line of names included. *)
Theorem estDAF_reads_every_readable_file
  (genes coords : list EstDAF.Region_s) (div : list Site_s) (gc : Z)
  (lines : list string) :
  forallb daf_readable lines = true ->
  exists st, EstDAF.readVcf genes coords div gc lines = Some st.
Proof.
  unfold EstDAF.readVcf. generalize EstDAF.init_state.
  induction lines as [|line lines IH]; intros st H.
  - eexists; reflexivity.
  - simpl in H. apply andb_true_iff in H as [H1 H2].
    destruct (DafDefined.vcf_line_defined genes coords div gc line st H1)
      as [st1 L].
    cbn [EstDAF.readVcf_from]. rewrite L. cbn [bind]. apply IH; exact H2.
Qed.

(** ** makeDFE-alpha.c: class 0 on sorted input *)

Module SfsRun.
Import MakeDFE.











End SfsRun.


(** ** makeDFE-alpha.c: what [malloc] left in [geno] *)

Module Junk.
Import MakeDFE.

Lemma position_geno (sites : list (Z * Z)) (div : list Site_s) (p : Z)
  (G : option (list Z)) (b : vcf_state) :
  position sites div p (set_geno G b) = set_geno G (position sites div p b).
Proof.
  unfold position. rewrite !SfsFacts.site_loop_scan. cbv zeta.
  change (site_i (set_pos p (set_geno G b))) with (site_i b).
  change (chr (set_pos p (set_geno G b))) with (chr b).
  change (pos (set_pos p (set_geno G b))) with p.
  change (site_i (set_pos p b)) with (site_i b).
  change (chr (set_pos p b)) with (chr b).
  change (pos (set_pos p b)) with p.
  destruct (snd (scan fst snd snd (skipn (site_i b) sites) (site_i b) (chr b) p));
    [|reflexivity].
  rewrite !SfsFacts.sfs_div_loop_scan. cbv zeta. reflexivity.
Qed.

(** The columns before the genotypes read nothing of [geno] and leave it
    as it is. *)
Lemma column_geno (sites : list (Z * Z)) (div : list Site_s) (gc : Z)
  (j : nat) (temp : string) (G : option (list Z)) (b : vcf_state) :
  (j <= 9)%nat ->
  column sites div gc j temp (set_geno G b) =
  option_map (fun r => (fst r, set_geno G (snd r)))
    (column sites div gc j temp b).
Proof.
  intros Hj. unfold column.
  destruct (Nat.eqb j 2).
  { rewrite position_geno. reflexivity. }
  destruct (Nat.eqb j 4).
  { destruct (tchar temp 0) as [c|]; [|reflexivity]. cbn [bind].
    change (rd (set_ref c (set_geno G b))) with (rd b).
    change (rd (set_ref c b)) with (rd b).
    destruct (rd b); [|reflexivity].
    change (div_i (set_ref c (set_geno G b))) with (div_i b).
    change (div_i (set_ref c b)) with (div_i b).
    destruct (nth_error div (div_i b)) as [d|]; [|reflexivity]. cbn [bind].
    change (ref (set_ref c (set_geno G b))) with c.
    change (ref (set_ref c b)) with c.
    destruct (negb (Ascii.eqb c (s_ref d))); reflexivity. }
  destruct (Nat.eqb j 5).
  { destruct (tchar temp 0) as [c|]; [|reflexivity]. cbn [bind].
    destruct (negb (gc =? 0)); [|reflexivity].
    change (rd (set_ok false (set_alt c (set_geno G b)))) with (rd b).
    change (rd (set_ok false (set_alt c b))) with (rd b).
    change (div_i (set_ok false (set_alt c (set_geno G b)))) with (div_i b).
    change (div_i (set_ok false (set_alt c b))) with (div_i b).
    change (alt (set_ok false (set_alt c (set_geno G b)))) with c.
    change (alt (set_ok false (set_alt c b))) with c.
    change (ref (set_ok false (set_alt c (set_geno G b)))) with (ref b).
    change (ref (set_ok false (set_alt c b))) with (ref b).
    destruct (if rd b
              then d <- nth_error div (div_i b) ;;
                   Some (negb (Ascii.eqb c (s_alt d)))
              else Some false) as [m|]; [|reflexivity].
    cbn [bind]. destruct m; [reflexivity|].
    destruct (Ascii.eqb (ref b) "." && Ascii.eqb c "."); reflexivity. }
  destruct (Nat.ltb_spec 9 j); [lia|reflexivity].
Qed.

(** A column before the genotypes that leaves the loop leaves [ok] at 0,
    and none of them moves the index into [geno]. *)
Lemma column_break (sites : list (Z * Z)) (div : list Site_s) (gc : Z)
  (j : nat) (temp : string) (b b' : vcf_state) (brk : bool) :
  (j <= 9)%nat ->
  column sites div gc j temp b = Some (brk, b') ->
  i b' = i b /\ ind_i b' = ind_i b /\ (brk = true -> ok b' = false).
Proof.
  intros Hj. unfold column.
  destruct (Nat.eqb_spec j 2).
  { intros H; inversion H; subst.
    destruct (SfsFacts.sfs_position_view sites div (atoi temp) b)
      as (_ & _ & _ & _ & _ & _ & _ & _ & _ & _ & Ei & _ & _ & En & _).
    split; [exact Ei|]. split; [exact En|].
    intros Hb. apply negb_true_iff in Hb. exact Hb. }
  destruct (Nat.eqb j 4).
  { destruct (tchar temp 0) as [c|]; [|discriminate]. cbn [bind].
    destruct (rd (set_ref c b)).
    - destruct (nth_error div _) as [d|]; [|discriminate]. cbn [bind].
      destruct (negb _); intros H; inversion H; subst;
        repeat split; try reflexivity; discriminate.
    - intros H; inversion H; subst. repeat split; try reflexivity; discriminate. }
  destruct (Nat.eqb j 5).
  { destruct (tchar temp 0) as [c|]; [|discriminate]. cbn [bind].
    destruct (negb (gc =? 0)).
    - destruct (if rd (set_ok false (set_alt c b)) then _ else _)
        as [m|]; [|discriminate].
      cbn [bind]. destruct m.
      + intros H; inversion H; subst. repeat split; reflexivity.
      + destruct (_ && _).
        * intros H; inversion H; subst. repeat split; reflexivity.
        * intros H; inversion H; subst.
          split; [reflexivity|]. split; [reflexivity|].
          intros Hb. apply negb_true_iff in Hb. exact Hb.
    - intros H; inversion H; subst. repeat split; try reflexivity; discriminate. }
  destruct (Nat.ltb_spec 9 j) as [L|L]; [lia|].
  intros X; inversion X; subst. repeat split; try reflexivity; discriminate.
Qed.

Lemma store_firstn (g : list Z) (k : nat) (v : Z) (g' : list Z) :
  store g k v = Some g' ->
  List.length g' = List.length g /\ (k < List.length g)%nat /\
  firstn (S k) g' = (firstn k g ++ [v])%list.
Proof.
  revert k g'; induction g as [|x g IH]; intros k g'; [destruct k; discriminate|].
  destruct k as [|k]; simpl.
  - intros H; inversion H; subst. simpl. repeat split; lia.
  - destruct (store g k v) as [g1|] eqn:E; [|discriminate].
    cbn [bind]. intros H; inversion H; subst.
    destruct (IH _ _ E) as (L & B & F). simpl.
    split; [lia|]. split; [lia|]. f_equal. exact F.
Qed.

(** One genotype column, on two arrays [geno] that agree on the cells
    written so far. *)
Lemma genotype_geno (temp : string) (b : vcf_state) (g1 g2 : list Z)
  (st1 : vcf_state) :
  List.length g1 = List.length g2 ->
  firstn (i b) g1 = firstn (i b) g2 ->
  genotype temp (set_geno (Some g1) b) = Some st1 ->
  exists b' g1' g2',
    st1 = set_geno (Some g1') b' /\
    genotype temp (set_geno (Some g2) b) = Some (set_geno (Some g2') b') /\
    List.length g1' = List.length g1 /\ List.length g2' = List.length g2 /\
    firstn (i b') g1' = firstn (i b') g2' /\
    i b' = S (i b) /\ ind_i b' = ind_i b /\ ok b' = ok b.
Proof.
  intros Hl Hf. unfold genotype.
  destruct (tchar temp 0) as [t0|]; [|discriminate]. cbn [bind].
  destruct (c_and (Ascii.eqb t0 "1") _) as [hom1|]; [|discriminate].
  cbn [bind].
  destruct (if hom1 then Some false else _) as [hom0|]; [|discriminate].
  cbn [bind].
  change (geno (set_geno (Some g1) b)) with (Some g1).
  change (geno (set_geno (Some g2) b)) with (Some g2).
  change (i (set_geno (Some g1) b)) with (i b).
  change (i (set_geno (Some g2) b)) with (i b).
  cbn [bind].
  assert (St : forall v s1,
    store g1 (i b) v = Some s1 ->
    exists s2, store g2 (i b) v = Some s2 /\
      List.length s1 = List.length g1 /\ List.length s2 = List.length g2 /\
      firstn (S (i b)) s1 = firstn (S (i b)) s2).
  { intros v s1 E1. destruct (store_firstn _ _ _ _ E1) as (L1 & B1 & F1).
    destruct (SfsLines.store_some g2 (i b) v ltac:(lia)) as (s2 & E2 & L2).
    destruct (store_firstn _ _ _ _ E2) as (_ & _ & F2).
    exists s2. repeat split; auto. congruence. }
  destruct hom1; [|destruct hom0].
  - destruct (store g1 (i b) 1) as [s1|] eqn:E1; [|discriminate].
    destruct (St _ _ E1) as (s2 & E2 & L1 & L2 & F). rewrite E2.
    cbn [bind]. intros H; inversion H; subst.
    exists (set_i (S (i b)) (set_i1 (i1 b + 1) b)), s1, s2.
    repeat split; auto.
  - destruct (store g1 (i b) 0) as [s1|] eqn:E1; [|discriminate].
    destruct (St _ _ E1) as (s2 & E2 & L1 & L2 & F). rewrite E2.
    cbn [bind]. intros H; inversion H; subst.
    exists (set_i (S (i b)) (set_i0 (i0 b + 1) b)), s1, s2.
    repeat split; auto.
  - destruct (store g1 (i b) 9) as [s1|] eqn:E1; [|discriminate].
    destruct (St _ _ E1) as (s2 & E2 & L1 & L2 & F). rewrite E2.
    cbn [bind]. intros H; inversion H; subst.
    exists (set_i (S (i b)) b), s1, s2.
    repeat split; auto.
Qed.

Lemma column_genotype (sites : list (Z * Z)) (div : list Site_s) (gc : Z)
  (j : nat) (temp : string) (st : vcf_state) :
  (9 < j)%nat ->
  column sites div gc j temp st =
  (st1 <- genotype temp st ;; Some (false, st1)).
Proof.
  intros Hj. unfold column.
  destruct (Nat.eqb_spec j 2); [lia|].
  destruct (Nat.eqb_spec j 4); [lia|].
  destruct (Nat.eqb_spec j 5); [lia|].
  destruct (Nat.ltb_spec 9 j); [reflexivity|lia].
Qed.

(** The loop over the tokens, on two arrays that agree on the cells
    written so far: when it ends with [ok] set, it has written a cell for
    every column after the ninth. *)
Lemma token_loop_geno (sites : list (Z * Z)) (div : list Site_s) (gc : Z)
  (toks : list string) :
  forall (j : nat) (b : vcf_state) (g1 g2 : list Z) (st1 : vcf_state),
    List.length g1 = List.length g2 ->
    firstn (i b) g1 = firstn (i b) g2 ->
    token_loop sites div gc toks j (set_geno (Some g1) b) = Some st1 ->
    exists b' g1' g2',
      st1 = set_geno (Some g1') b' /\
      token_loop sites div gc toks j (set_geno (Some g2) b) =
        Some (set_geno (Some g2') b') /\
      List.length g1' = List.length g1 /\ List.length g2' = List.length g2 /\
      firstn (i b') g1' = firstn (i b') g2' /\
      ind_i b' = ind_i b /\
      (ok b' = true ->
       i b' = (i b + List.length (skipn (10 - j) toks))%nat).
Proof.
  induction toks as [|temp rest IH]; intros j b g1 g2 st1 Hl Hf.
  - simpl. intros H; inversion H; subst.
    exists b, g1, g2. rewrite skipn_nil. simpl.
    repeat split; auto; lia.
  - rewrite !sfs_loop_cons.
    destruct (Nat.le_gt_cases j 9) as [Hj|Hj].
    + rewrite !(column_geno _ _ _ _ _ _ _ Hj).
      destruct (column sites div gc j temp b) as [[brk b1]|] eqn:C;
        [|discriminate].
      cbn [option_map bind fst snd].
      destruct (column_break _ _ _ _ _ _ _ _ Hj C) as (Ei & En & Eb).
      destruct brk.
      * intros H; inversion H; subst.
        exists b1, g1, g2. rewrite Ei.
        repeat split; auto.
        intros Ok. rewrite (Eb eq_refl) in Ok. discriminate.
      * intros H. rewrite <- Ei in Hf.
        destruct (IH (S j) b1 g1 g2 st1 Hl Hf H)
          as (b' & g1' & g2' & E1 & E2 & L1 & L2 & F & N & K).
        exists b', g1', g2'. repeat split; auto; try congruence.
        intros Ok. rewrite (K Ok), Ei.
        replace (10 - j)%nat with (S (10 - S j)) by lia. reflexivity.
    + rewrite !(column_genotype _ _ _ _ _ _ Hj).
      destruct (genotype temp (set_geno (Some g1) b)) as [s1|] eqn:G;
        [|discriminate].
      destruct (genotype_geno temp b g1 g2 s1 Hl Hf G)
        as (b1 & h1 & h2 & E1 & E2 & L1 & L2 & F & Ei & En & Eo).
      rewrite E2. cbn [bind]. subst s1. intros H.
      destruct (IH (S j) b1 h1 h2 st1 ltac:(congruence) F H)
        as (b' & g1' & g2' & E1' & E2' & L1' & L2' & F' & N' & K).
      exists b', g1', g2'. repeat split; auto; try congruence.
      intros Ok. rewrite (K Ok), Ei.
      replace (10 - j)%nat with 0%nat by lia.
      replace (10 - S j)%nat with 0%nat by lia.
      simpl. lia.
Qed.

(** What follows the loop reads the cells of [geno] that have been written
    when the line is counted. *)
Lemma tally_geno (b : vcf_state) (g1 g2 : list Z) (st1 : vcf_state) :
  (ok b = true -> firstn (ind_i b) g1 = firstn (ind_i b) g2) ->
  tally (set_geno (Some g1) b) = Some st1 ->
  exists b',
    st1 = set_geno (Some g1) b' /\
    tally (set_geno (Some g2) b) = Some (set_geno (Some g2) b') /\
    ind_i b' = ind_i b.
Proof.
  intros Hf. unfold tally.
  change (ok (set_geno (Some g1) b)) with (ok b).
  change (ok (set_geno (Some g2) b)) with (ok b).
  destruct (ok b) eqn:Ok; cbn [negb].
  2:{ intros H; inversion H; subst. exists b. auto. }
  change (geno (set_geno (Some g1) b)) with (Some g1).
  change (geno (set_geno (Some g2) b)) with (Some g2).
  change (ind_i (set_geno (Some g1) b)) with (ind_i b).
  change (ind_i (set_geno (Some g2) b)) with (ind_i b).
  change (rd (set_geno (Some g1) b)) with (rd b).
  change (rd (set_geno (Some g2) b)) with (rd b).
  change (i0 (set_geno (Some g1) b)) with (i0 b).
  change (i0 (set_geno (Some g2) b)) with (i0 b).
  change (i1 (set_geno (Some g1) b)) with (i1 b).
  change (i1 (set_geno (Some g2) b)) with (i1 b).
  change (sfs (set_geno (Some g1) b)) with (sfs b).
  change (sfs (set_geno (Some g2) b)) with (sfs b).
  cbv beta iota zeta.
  rewrite <- (Hf eq_refl).
  destruct (sfs b) as [h|]; [|discriminate]. cbn [bind].
  destruct (incr h _) as [h'|]; [|discriminate]. cbn [bind].
  rewrite !SfsLines.rd_set_sfs.
  change (rd (set_geno (Some g1) b)) with (rd b).
  change (rd (set_geno (Some g2) b)) with (rd b).
  destruct (rd b); intros H; inversion H; subst.
  - exists (set_si (si (set_di (di (set_sfs (Some h') b) + 1)
                         (set_sfs (Some h') b)) + 1)
              (set_di (di (set_sfs (Some h') b) + 1) (set_sfs (Some h') b))).
    repeat split; reflexivity.
  - exists (set_si (si (set_sfs (Some h') b) + 1) (set_sfs (Some h') b)).
    repeat split; reflexivity.
Qed.

(** A line of a full file, from two states that differ in [geno] only. *)
Lemma vcf_line_geno (junk1 junk2 : nat -> Z) (sites : list (Z * Z))
  (div : list Site_s) (gc : Z) (line : string) (b : vcf_state)
  (g1 g2 : list Z) (st1 : vcf_state) :
  List.length g1 = List.length g2 ->
  full (ind_i b) line = true ->
  vcf_line junk1 sites div gc line (set_geno (Some g1) b) = Some st1 ->
  exists b' g1' g2',
    st1 = set_geno (Some g1') b' /\
    vcf_line junk2 sites div gc line (set_geno (Some g2) b) =
      Some (set_geno (Some g2') b') /\
    List.length g1' = List.length g2' /\ ind_i b' = ind_i b.
Proof.
  intros Hl Hfull. unfold full in Hfull.
  apply andb_true_iff in Hfull as [Hd Hn].
  destruct (SfsLines.is_data_tokens _ _ Hd) as (t1 & rest & Toks & Nn & _ & _).
  unfold begins_with_digit, first_token in Hn. rewrite Toks in Hn.
  cbn [hd_error] in Hn.
  unfold vcf_line. rewrite Toks, Nn.
  destruct (tchar t1 0) as [c0|]; [|discriminate]. cbn [bind].
  destruct (isdigit c0).
  2:{ intros H; inversion H; subst. exists b, g1, g2. auto. }
  cbn [negb orb] in Hn. apply Nat.eqb_eq in Hn.
  change (start_line (atoi t1) (set_geno (Some g1) b))
    with (set_geno (Some g1) (start_line (atoi t1) b)).
  change (start_line (atoi t1) (set_geno (Some g2) b))
    with (set_geno (Some g2) (start_line (atoi t1) b)).
  assert (I0 : i (start_line (atoi t1) b) = 0%nat) by reflexivity.
  assert (N0 : ind_i (start_line (atoi t1) b) = ind_i b) by reflexivity.
  generalize dependent (start_line (atoi t1) b). intros b0 I0 N0.
  destruct (token_loop sites div gc (t1 :: rest) 1 (set_geno (Some g1) b0))
    as [s2|] eqn:T; [|discriminate].
  cbn [bind].
  destruct (token_loop_geno sites div gc (t1 :: rest) 1 b0 g1 g2 s2 Hl
              ltac:(rewrite I0; reflexivity) T)
    as (b2 & h1 & h2 & E1 & E2 & L1 & L2 & F & N2 & K).
  rewrite E2. cbn [bind]. subst s2. intros H.
  destruct (tally_geno b2 h1 h2 st1) as (b' & E1' & E2' & N').
  - intros Ok. specialize (K Ok). rewrite I0 in K.
    replace (ind_i b2) with (i b2); [exact F|].
    rewrite K, N2, N0. cbn [Nat.sub Nat.add].
    rewrite length_skipn, Hn. lia.
  - exact H.
  - exists b', h1, h2. repeat split; auto; congruence.
Qed.

Lemma readVcf_from_geno (junk1 junk2 : nat -> Z) (sites : list (Z * Z))
  (div : list Site_s) (gc : Z) (data : list string) :
  forall (b : vcf_state) (g1 g2 : list Z) (st1 : vcf_state),
    List.length g1 = List.length g2 ->
    forallb (full (ind_i b)) data = true ->
    readVcf_from junk1 sites div gc data (set_geno (Some g1) b) = Some st1 ->
    exists b' g1' g2',
      st1 = set_geno (Some g1') b' /\
      readVcf_from junk2 sites div gc data (set_geno (Some g2) b) =
        Some (set_geno (Some g2') b').
Proof.
  induction data as [|line data IH]; intros b g1 g2 st1 Hl Hf.
  - simpl. intros H; inversion H; subst. exists b, g1, g2. auto.
  - simpl in Hf. apply andb_true_iff in Hf as [H1 H2].
    cbn [readVcf_from].
    destruct (vcf_line junk1 sites div gc line (set_geno (Some g1) b))
      as [s1|] eqn:L; [|discriminate].
    destruct (vcf_line_geno junk1 junk2 sites div gc line b g1 g2 s1 Hl H1 L)
      as (b1 & h1 & h2 & E1 & E2 & Lh & N1).
    rewrite E2. cbn [bind]. subst s1. rewrite <- N1 in H2.
    apply IH; assumption.
Qed.

Lemma header_geno (junk : nat -> Z) (toks : list string) (st : vcf_state) :
  header junk toks st =
  set_geno (Some (map junk (seq 0 (header_loop toks 1 (ind_i st)))))
    (set_sfs (Some (repeat 0 (S (header_loop toks 1 (ind_i st)))))
       (set_ind_i (header_loop toks 1 (ind_i st)) st)).
Proof. reflexivity. Qed.

Lemma names_line_header (junk : nat -> Z) (sites : list (Z * Z))
  (div : list Site_s) (gc : Z) (names : string) (st : vcf_state)
  (t : string) (rest : list string) :
  strtok_all (lineTerminator names) = t :: rest ->
  String.eqb t "#CHROM" = true ->
  vcf_line junk sites div gc names st = Some (header junk (t :: rest) st).
Proof. intros T E. unfold vcf_line. rewrite T, E. reflexivity. Qed.

Lemma readVcf_junk (junk1 junk2 : nat -> Z) (sites : list (Z * Z))
  (div : list Site_s) (gc : Z) (pre : list string) (names : string)
  (data : list string) (out : sfs_output) :
  forallb is_comment pre = true ->
  is_names names = true ->
  forallb (full (individuals names)) data = true ->
  readVcf junk1 sites div gc (pre ++ names :: data) = Some out ->
  readVcf junk2 sites div gc (pre ++ names :: data) = Some out.
Proof.
  intros Hpre Hnames Hdata. unfold readVcf.
  rewrite !(SfsLines.comment_lines_idle _ _ _ _ _ _ _ Hpre).
  cbn [readVcf_from].
  unfold is_names, first_token in Hnames. unfold individuals in Hdata.
  destruct (strtok_all (lineTerminator names)) as [|t rest] eqn:Toks;
    [discriminate|].
  cbn [hd_error] in Hnames.
  rewrite !(names_line_header _ _ _ _ _ _ _ _ Toks Hnames). cbn [bind].
  rewrite !header_geno.
  rewrite SfsLines.header_loop_count in *.
  change (ind_i init_state) with 0%nat. cbn [Nat.add].
  set (n := (List.length (t :: rest) - (10 - 1))%nat) in *.
  assert (N : ind_i (set_sfs (Some (repeat 0 (S n))) (set_ind_i n init_state))
              = n) by reflexivity.
  generalize dependent (set_sfs (Some (repeat 0 (S n))) (set_ind_i n init_state)).
  intros b N.
  destruct (readVcf_from junk1 sites div gc data
              (set_geno (Some (map junk1 (seq 0 n))) b)) as [s1|] eqn:R;
    [|discriminate].
  cbn [bind].
  destruct (readVcf_from_geno junk1 junk2 sites div gc data b
              (map junk1 (seq 0 n)) (map junk2 (seq 0 n)) s1)
    as (b' & g1' & g2' & E1 & E2).
  - rewrite !length_map. reflexivity.
  - rewrite N. exact Hdata.
  - exact R.
  - rewrite E2. cbn [bind]. subst s1. intros H. exact H.
Qed.
End Junk.

(** X21. When every line of data has a genotype column for every
    individual of the line of names, what [makeDFE-alpha.c] computes does
    not depend on what [malloc] left in [geno]. *)
Theorem full_file_is_read_alike_whatever_malloc_left
  (junk1 junk2 : nat -> Z) (sites : list (Z * Z)) (div : list Site_s) (gc : Z)
  (pre : list string) (names : string) (data : list string) :
  forallb is_comment pre = true ->
  is_names names = true ->
  forallb (full (individuals names)) data = true ->
  MakeDFE.readVcf junk1 sites div gc (pre ++ names :: data) =
  MakeDFE.readVcf junk2 sites div gc (pre ++ names :: data).
Proof.
  intros Hpre Hnames Hdata.
  destruct (MakeDFE.readVcf junk1 sites div gc (pre ++ names :: data))
    as [o1|] eqn:R1.
  - symmetry. eapply Junk.readVcf_junk; eauto.
  - destruct (MakeDFE.readVcf junk2 sites div gc (pre ++ names :: data))
      as [o2|] eqn:R2; [|reflexivity].
    rewrite (Junk.readVcf_junk junk2 junk1 sites div gc pre names data o2
               Hpre Hnames Hdata R2) in R1.
    discriminate.
Qed.

(** ** estDAF.c: class 0 on sorted input *)

Module DafRun.
Import EstDAF.

Lemma daf_genotype_cursors (temp : string) (st st' : vcf_state) :
  genotype temp st = Some st' ->
  gene_i st' = gene_i st /\ coord_i st' = coord_i st /\
  div_i st' = div_i st /\ out st' = out st /\ s_i st' = s_i st.
Proof.
  unfold genotype.
  destruct (tchar temp 0) as [t0|]; [|discriminate]. cbn [bind].
  destruct (c_and (rd st) _) as [d1|]; [|discriminate]. cbn [bind].
  destruct (if d1 then Some false else _) as [d2|]; [|discriminate].
  cbn [bind].
  destruct (c_and (negb (Ascii.eqb t0 ".")) _) as [callable|]; [|discriminate].
  cbn [bind].
  destruct (d1 || d2); destruct callable; intros H; inversion H;
    repeat split; reflexivity.
Qed.

Lemma daf_column_cursors (genes coords : list Region_s) (div : list Site_s)
  (gc : Z) (j : nat) (temp : string) (st st' : vcf_state) (brk : bool) :
  j <> 2%nat ->
  column genes coords div gc j temp st = Some (brk, st') ->
  gene_i st' = gene_i st /\ coord_i st' = coord_i st /\
  div_i st' = div_i st /\ out st' = out st /\ s_i st' = s_i st.
Proof.
  intros Hj. unfold column.
  destruct (Nat.eqb_spec j 2); [contradiction|].
  destruct (Nat.eqb j 4).
  { destruct (tchar temp 0) as [c|]; [|discriminate]. cbn [bind].
    destruct (rd (set_ref c st)).
    - destruct (nth_error div _) as [d|]; [|discriminate]. cbn [bind].
      destruct (negb _); intros H; inversion H; repeat split; reflexivity.
    - intros H; inversion H; repeat split; reflexivity. }
  destruct (Nat.eqb j 5).
  { destruct (tchar temp 0) as [c|]; [|discriminate]. cbn [bind].
    destruct (if rd (set_alt c st) then _ else _) as [m|]; [|discriminate].
    cbn [bind]. destruct m; [intros H; inversion H; repeat split; reflexivity|].
    destruct (negb (gc =? 0)); intros H; inversion H; repeat split; reflexivity. }
  destruct (Nat.ltb 9 j).
  - destruct (genotype temp st) as [s1|] eqn:G; [|discriminate].
    cbn [bind]. intros H; inversion H; subst. eapply daf_genotype_cursors; eauto.
  - intros H; inversion H; repeat split; reflexivity.
Qed.

Lemma daf_token_loop_cursors (genes coords : list Region_s) (div : list Site_s)
  (gc : Z) (toks : list string) (j : nat) (st st' : vcf_state) :
  (3 <= j)%nat ->
  token_loop genes coords div gc toks j st = Some st' ->
  gene_i st' = gene_i st /\ coord_i st' = coord_i st /\
  div_i st' = div_i st /\ out st' = out st.
Proof.
  revert j st; induction toks as [|temp toks IH]; intros j st Hj.
  - simpl. intros H; inversion H; repeat split; reflexivity.
  - rewrite daf_loop_cons.
    destruct (column genes coords div gc j temp st) as [[brk s1]|] eqn:C;
      [|discriminate].
    cbn [bind].
    assert (J2 : j <> 2%nat) by lia.
    assert (J3 : (3 <= S j)%nat) by lia.
    destruct (daf_column_cursors _ _ _ _ _ _ _ _ _ J2 C) as (E1 & E2 & E3 & E4 & _).
    destruct brk.
    + intros H; inversion H; subst; auto.
    + destruct toks as [|t toks].
      * intros H; inversion H; subst. repeat split; assumption.
      * intros H. destruct (IH (S j) s1 J3 H) as (F1 & F2 & F3 & F4).
        repeat split; congruence.
Qed.

(** The columns after the second of a line of data under class 0, from a
    state in which the position has been found. *)
Lemma after_position (genes coords : list Region_s) (div : list Site_s)
  (t3 t4 t5 : string) (rest : list string) (r4 a5 : ascii) (st2 : vcf_state) :
  tchar t4 0 = Some r4 -> tchar t5 0 = Some a5 ->
  forallb (fun g => (2 <=? String.length g)%nat) (skipn 4 rest) = true ->
  (rd st2 = true -> exists d, nth_error div (div_i st2) = Some d) ->
  let kept := if rd st2
              then match nth_error div (div_i st2) with
                   | Some d => Ascii.eqb r4 (s_ref d) && Ascii.eqb a5 (s_alt d)
                   | None => false
                   end
              else true in
  exists st',
    token_loop genes coords div 0 (t3 :: t4 :: t5 :: rest) 3 st2 = Some st' /\
    gene_i st' = gene_i st2 /\ coord_i st' = coord_i st2 /\
    div_i st' = div_i st2 /\ out st' = out st2 /\
    s_i st' = s_i st2 + (if kept then 1 else 0).
Proof.
  intros H4 H5 Hl Hrec. cbv zeta.
  rewrite daf_loop_cons, daf_column_idle by lia. cbn [bind].
  rewrite daf_loop_cons, (daf_column_4 _ _ _ _ _ _ _ H4).
  assert (Tail : forall s5,
    gene_i s5 = gene_i st2 -> coord_i s5 = coord_i st2 ->
    div_i s5 = div_i st2 -> out s5 = out st2 -> s_i s5 = s_i st2 ->
    exists st',
      match rest with
      | [] => Some (set_s_i (s_i s5 + 1) s5)
      | _ :: _ => token_loop genes coords div 0 rest 6 s5
      end = Some st' /\
      gene_i st' = gene_i st2 /\ coord_i st' = coord_i st2 /\
      div_i st' = div_i st2 /\ out st' = out st2 /\
      s_i st' = s_i st2 + 1).
  { intros s5 G5 C5 D5 O5 S5. destruct rest as [|t6 rest].
    - eexists. split; [reflexivity|].
      cbn [gene_i coord_i div_i out s_i set_s_i]. repeat split; congruence.
    - destruct (daf_token_loop_total genes coords div 0 (t6 :: rest) 6 s5
                  (le_n 6) ltac:(discriminate) Hl) as (st' & T & S').
      destruct (daf_token_loop_cursors _ _ _ _ _ _ _ _
                  (Nat.le_trans 3 4 6 (le_S _ _ (le_n 3))
                     (le_S _ _ (le_S _ _ (le_n 4)))) T)
        as (F1 & F2 & F3 & F4).
      exists st'. split; [exact T|]. repeat split; congruence. }
  destruct (rd st2) eqn:Hrd.
  - destruct (Hrec eq_refl) as [d Hn]. rewrite Hn. cbn [bind].
    destruct (Ascii.eqb r4 (s_ref d)) eqn:Er; cbn [negb andb bind].
    + rewrite daf_loop_cons, (daf_column_5 _ _ _ _ _ _ _ H5).
      change (rd (set_ref r4 st2)) with (rd st2).
      change (div_i (set_ref r4 st2)) with (div_i st2).
      rewrite Hrd, Hn. cbn [bind].
      destruct (Ascii.eqb a5 (s_alt d)) eqn:Ea; cbn [negb bind].
      * change (negb (0 =? 0)) with false. cbv iota.
        apply Tail; reflexivity.
      * eexists. split; [reflexivity|].
        cbn [gene_i coord_i div_i out s_i set_alt set_ref].
        repeat split; lia.
    + eexists. split; [reflexivity|].
      cbn [gene_i coord_i div_i out s_i warn set_ref].
      repeat split; lia.
  - cbn [bind].
    rewrite daf_loop_cons, (daf_column_5 _ _ _ _ _ _ _ H5).
    change (rd (set_ref r4 st2)) with (rd st2). rewrite Hrd.
    cbn [bind]. change (negb (0 =? 0)) with false. cbv iota.
    apply Tail; reflexivity.
Qed.

Lemma sum_snoc (h : list Z) (x : Z) : sum (h ++ [x]) = sum h + x.
Proof.
  unfold sum. induction h as [|y h IH]; simpl; [lia|]. rewrite IH. lia.
Qed.

Lemma position_total (genes coords : list Region_s) (div : list Site_s)
  (p : Z) (st : vcf_state) :
  daf_total (position genes coords div p st) = daf_total st.
Proof.
  destruct (DafShape.position_step genes coords div p st) as [_ Step].
  cbv zeta in Step. unfold daf_total.
  remember (position genes coords div p st) as st2 eqn:E2. clear E2.
  destruct Step as [(_ & O & _ & _ & _ & Si)|(_ & _ & _ & g & _ & Alt)].
  - rewrite O, Si. reflexivity.
  - destruct Alt as [(_ & _ & O & _ & _ & Si)|
                     [(_ & _ & O & _ & _ & Si)|
                      (g0 & _ & _ & _ & O & _ & _ & Si)]].
    + rewrite O, Si. reflexivity.
    + rewrite O, Si, map_app. cbn [map]. rewrite sum_snoc. cbn [row_sites]. lia.
    + rewrite O, Si, map_app. cbn [map]. rewrite sum_snoc. cbn [row_sites]. lia.
Qed.

Lemma set_chr_total (c : Z) (st : vcf_state) :
  daf_total (set_chr c st) = daf_total st.
Proof. reflexivity. Qed.

(** A line of data under class 0. *)
Lemma daf_line_class0 (genes coords : list Region_s) (div : list Site_s)
  (line : string) (st : vcf_state)
  (t1 t2 t3 t4 t5 : string) (rest : list string) (c0 r4 a5 : ascii) :
  strtok_all (lineTerminator line) = t1 :: t2 :: t3 :: t4 :: t5 :: rest ->
  tchar t1 0 = Some c0 -> isdigit c0 = true ->
  tchar t4 0 = Some r4 -> tchar t5 0 = Some a5 ->
  forallb (fun g => (2 <=? String.length g)%nat) (skipn 4 rest) = true ->
  let st2 := daf_query genes coords div (atoi t1) (atoi t2) st in
  let kept := ok st2 &&
              (if rd st2
               then match nth_error div (div_i st2) with
                    | Some d => Ascii.eqb r4 (s_ref d) && Ascii.eqb a5 (s_alt d)
                    | None => false
                    end
               else true) in
  exists st',
    vcf_line genes coords div 0 line st = Some st' /\
    gene_i st' = gene_i st2 /\ coord_i st' = coord_i st2 /\
    div_i st' = div_i st2 /\
    daf_total st' = daf_total st + (if kept then 1 else 0).
Proof.
  intros Toks Hc Hd H4 H5 Hl. cbv zeta.
  rewrite (DafShape.vcf_line_two _ _ _ _ _ _ _ _ _ _ Toks Hc Hd). cbv zeta.
  assert (Rec : rd (daf_query genes coords div (atoi t1) (atoi t2) st) = true ->
                exists d, nth_error div
                  (div_i (daf_query genes coords div (atoi t1) (atoi t2) st))
                  = Some d).
  { intros R. destruct (daf_query_record _ _ _ _ _ _ R) as (d & Hn & _).
    exists d. exact Hn. }
  pose proof (position_total genes coords div (atoi t2) (set_chr (atoi t1) st))
    as Tot.
  rewrite set_chr_total in Tot.
  unfold daf_query in *.
  remember (position genes coords div (atoi t2) (set_chr (atoi t1) st)) as st2
    eqn:E2 in *.
  clear E2.
  destruct (ok st2) eqn:Hok; cbn [negb andb].
  - destruct (after_position genes coords div t3 t4 t5 rest r4 a5 st2
                H4 H5 Hl Rec) as (st' & T & G' & C' & D' & O' & S').
    exists st'. split; [exact T|]. split; [exact G'|]. split; [exact C'|].
    split; [exact D'|].
    unfold daf_total in *. rewrite O', S'. rewrite <- Tot. lia.
  - exists st2. split; [reflexivity|]. split; [reflexivity|].
    split; [reflexivity|]. split; [reflexivity|]. rewrite Tot. lia.
Qed.

Lemma daf_cursors_behind_lex (genes coords : list Region_s) (div : list Site_s)
  (st : vcf_state) (c p c' p' : Z) :
  c < c' \/ (c = c' /\ p <= p') ->
  daf_cursors_behind genes coords div st c p ->
  daf_cursors_behind genes coords div st c' p'.
Proof.
  intros H (A & B & C). repeat split; try (eapply behind_lex; eauto);
    try apply A; try apply B; try apply C.
Qed.

(** What the scan of the tables says of a line is what the walk finds,
    when the cursors have only left records before the key behind. *)
Lemma daf_variant_line (genes coords : list Region_s) (div : list Site_s)
  (line : string) (st : vcf_state) :
  sorted_regions genes -> sorted_regions coords -> sorted_div div ->
  daf_variant line = true -> begins_with_digit line = true ->
  daf_cursors_behind genes coords div st
    (fst (line_key line)) (snd (line_key line)) ->
  exists st',
    vcf_line genes coords div 0 line st = Some st' /\
    daf_cursors_behind genes coords div st'
      (fst (line_key line)) (snd (line_key line)) /\
    daf_total st' =
      daf_total st + (if daf_counted genes coords div line then 1 else 0).
Proof.
  intros Hg Hc Hd V V2 B.
  unfold daf_variant in V. rewrite V2 in V. cbn [negb orb] in V.
  apply andb_true_iff in V as [V1 V5].
  unfold daf_readable in V1.
  unfold begins_with_digit, first_token in V2.
  destruct (strtok_all (lineTerminator line))
    as [|t1 [|t2 [|t3 [|t4 [|t5 rest]]]]] eqn:Toks;
    try (cbn in V5; discriminate).
  cbn [hd_error] in V2.
  destruct (tchar t1 0) as [c0|] eqn:Hc0; [|discriminate].
  destruct (SfsLines.tchar_defined t4 0 (Nat.le_0_l _)) as [r4 H4].
  destruct (SfsLines.tchar_defined t5 0 (Nat.le_0_l _)) as [a5 H5].
  assert (Hl : forallb (fun g => (2 <=? String.length g)%nat) (skipn 4 rest)
               = true) by exact V1.
  assert (Ek : line_key line = (atoi t1, atoi t2))
    by (unfold line_key; rewrite Toks; reflexivity).
  assert (Er : line_ref line = r4)
    by (unfold line_ref; rewrite Toks; cbn [nth_error]; rewrite H4; reflexivity).
  assert (Ea : line_alt line = a5)
    by (unfold line_alt; rewrite Toks; cbn [nth_error]; rewrite H5; reflexivity).
  unfold daf_counted, record_at.
  rewrite Ek, Er, Ea in *. cbn [fst snd] in *.
  pose proof (daf_line_class0 genes coords div line st t1 t2 t3 t4 t5 rest
                c0 r4 a5 Toks Hc0 V2 H4 H5 Hl) as LC.
  pose proof (DafFacts.query_fresh genes coords div st (atoi t1) (atoi t2) B)
    as QF.
  pose proof (DafFacts.position_view genes coords div (atoi t2)
                (set_chr (atoi t1) st)) as PV.
  cbv zeta in LC, QF, PV. unfold daf_query in LC, QF.
  destruct LC as (st' & L & G' & C' & D' & Tot).
  destruct QF as (B2 & _ & Ok & Rd).
  cbn [chr div_i gene_i coord_i set_chr] in PV.
  destruct PV as (_ & _ & _ & _ & Edv & Ok' & _).
  rewrite <- Ok' in Edv. clear Ok'.
  remember (position genes coords div (atoi t2) (set_chr (atoi t1) st)) as st2
    eqn:E2 in *.
  clear E2.
  destruct B as (Bg & Bc & Bd).
  unfold locateContaining, locateEqual in *.
  rewrite (locate_fresh _ _ _ _ _ _ _ Bd) in Edv.
  assert (Emg : snd (locate r_chr r_start r_stop genes 0 (atoi t1) (atoi t2)) =
                in_regions genes (atoi t1) (atoi t2)).
  { apply locate_member; [exact Hg|apply behind_start]. }
  assert (Emc : snd (locate r_chr r_start r_stop coords 0 (atoi t1) (atoi t2)) =
                in_regions coords (atoi t1) (atoi t2)).
  { apply locate_member; [exact Hc|apply behind_start]. }
  rewrite Emg, Emc in Ok.
  exists st'. split; [exact L|].
  split.
  { destruct B2 as (B2g & B2c & B2d).
    unfold daf_cursors_behind. rewrite G', C', D'.
    split; [exact B2g|]. split; [exact B2c|exact B2d]. }
  rewrite Tot, Rd. rewrite Ok in *.
  destruct (in_regions genes (atoi t1) (atoi t2) &&
            in_regions coords (atoi t1) (atoi t2)); cbn [andb];
    [|reflexivity].
  rewrite Edv.
  destruct (snd (locate s_chr s_pos s_pos div 0 (atoi t1) (atoi t2))) eqn:F.
  - destruct (locate_found _ _ _ _ _ _ _ F) as (d & Nd & _). rewrite Nd.
    reflexivity.
  - reflexivity.
Qed.

Lemma daf_variant_lines (genes coords : list Region_s) (div : list Site_s)
  (lines : list string) (st : vcf_state) :
  sorted_regions genes -> sorted_regions coords -> sorted_div div ->
  forallb daf_variant lines = true ->
  sorted_sites (map line_key (filter begins_with_digit lines)) ->
  (forall l, In l (filter begins_with_digit lines) ->
     daf_cursors_behind genes coords div st
       (fst (line_key l)) (snd (line_key l))) ->
  exists st',
    readVcf_from genes coords div 0 lines st = Some st' /\
    daf_total st' =
      daf_total st +
      Z.of_nat (List.length (filter (daf_counted genes coords div)
                               (filter begins_with_digit lines))).
Proof.
  intros Hg Hc Hd. revert st; induction lines as [|line lines IH];
    intros st V Sd B.
  - exists st. simpl. split; [reflexivity|lia].
  - simpl in V. apply andb_true_iff in V as [V1 V2].
    cbn [filter] in *. destruct (begins_with_digit line) eqn:D.
    + destruct (daf_variant_line genes coords div line st Hg Hc Hd V1 D
                  (B line (or_introl eq_refl)))
        as (st1 & L & B1 & Tot).
      cbn [map] in Sd. unfold sorted_sites, sorted in Sd.
      inversion Sd as [|? ? Sd' Hle]; subst.
      destruct (IH st1 V2 Sd') as (st' & R & Tot').
      { intros l Hl.
        eapply daf_cursors_behind_lex; [|exact B1].
        rewrite Forall_forall in Hle.
        apply (Hle (line_key l)). apply in_map. exact Hl. }
      exists st'. cbn [readVcf_from]. rewrite L. cbn [bind].
      split; [exact R|].
      cbn [filter].
      destruct (daf_counted genes coords div line); cbn [List.length]; lia.
    + assert (T : has_token line = true).
      { unfold daf_variant in V1. apply andb_true_iff in V1 as [V1 _].
        unfold daf_readable in V1. unfold has_token, first_token.
        destruct (strtok_all (lineTerminator line)); [discriminate|reflexivity]. }
      destruct (IH st V2 Sd B) as (st' & R & Tot').
      exists st'. cbn [readVcf_from].
      rewrite (DafShape.first_token_digit line T D). cbn [bind].
      split; [exact R|exact Tot'].
Qed.
End DafRun.

(** X22. [estDAF.c] with class 0, on sorted tables and a file whose lines
    of data are sorted and have five columns or more (every line with a
    token, every genotype column of two characters or more): the site counts
    of the rows printed and of the gene in progress at the end of the file
    add up to the number of lines of data in a gene and in a block whose two
    alleles are those of the record of the site, if there is one. A line of
    data with fewer columns is outside this statement: the loop over its
    columns can end before the tests of columns 2, 4 and 5, and lines
    398-401 then count it as a site. *)
Theorem estDAF_class_zero_counts_the_lines_in_genes_and_blocks
  (genes coords : list EstDAF.Region_s) (div : list Site_s)
  (lines : list string) :
  sorted_regions genes -> sorted_regions coords -> sorted_div div ->
  forallb daf_variant lines = true ->
  sorted_sites (map line_key (filter begins_with_digit lines)) ->
  exists st,
    EstDAF.readVcf genes coords div 0 lines = Some st /\
    daf_total st =
      Z.of_nat (List.length (filter (daf_counted genes coords div)
                               (filter begins_with_digit lines))).
Proof.
  intros Hg Hc Hd V Sd. unfold EstDAF.readVcf.
  destruct (DafRun.daf_variant_lines genes coords div lines EstDAF.init_state
              Hg Hc Hd V Sd) as (st & R & Tot).
  { intros l _. apply DafFacts.init_behind. }
  exists st. split; [exact R|]. rewrite Tot. reflexivity.
Qed.

(** ** Instances *)

Local Open Scope string_scope.

Lemma examples_sorted :
  sorted_regions Examples.genes /\ sorted_regions Examples.coords /\
  sorted_div Examples.div /\ sorted_sites Examples.sites.
Proof.
  unfold sorted_regions, sorted_div, sorted_sites, sorted, key_le.
  repeat split; repeat constructor; simpl; lia.
Defined.

Lemma C1_witness :
  EstDAF.ok (daf_query Examples.genes Examples.coords Examples.div 1 60
               (daf_query Examples.genes Examples.coords Examples.div 1 50
                  EstDAF.init_state))
  = in_regions Examples.genes 1 60 && in_regions Examples.coords 1 60 /\
  MakeDFE.rd (sfs_query Examples.sites Examples.div 1 60
                (sfs_query Examples.sites Examples.div 1 50 MakeDFE.init_state))
  = MakeDFE.ok (sfs_query Examples.sites Examples.div 1 60
                  (sfs_query Examples.sites Examples.div 1 50 MakeDFE.init_state))
    && in_div Examples.div 1 60.
Proof.
  destruct examples_sorted as (Sg & Sc & Sd & Ss).
  destruct C1_merge_join_equals_full_scan as [Hd Hs].
  split.
  - pose proof (Hd Examples.genes Examples.coords Examples.div
                  EstDAF.init_state 1 50 60 Sg Sc Sd
                  (DafFacts.init_behind _ _ _ _ _) ltac:(lia)) as T.
    cbv zeta in T. apply T.
  - pose proof (Hs Examples.sites Examples.div MakeDFE.init_state 1 50 60 Ss Sd
                  (SfsFacts.sfs_init_behind _ _ _ _) ltac:(lia)) as T.
    cbv zeta in T. apply T.
Defined.

Lemma C6_witness :
  (exists st',
     EstDAF.vcf_line Examples.genes Examples.coords Examples.div 0
       (Examples.row "1" "60" "C" "G" ["1/1"; "0/0"; "./."])%string
       EstDAF.init_state = Some st' /\
     EstDAF.err st' = [EstDAF.RefWarning 1 60] /\
     EstDAF.out st' = [EstDAF.OutHeader] /\
     EstDAF.da_i st' = 0 /\ EstDAF.a_i st' = 0 /\ EstDAF.s_i st' = 0) /\
  (exists st',
     MakeDFE.vcf_line (fun _ => 0) Examples.sites Examples.div 0
       (Examples.row "1" "60" "C" "G" ["1/1"; "0/0"; "./."])%string
       MakeDFE.init_state = Some st' /\
     MakeDFE.err st' = [MakeDFE.RefWarning 1 60]).
Proof.
  destruct C6_reference_mismatch_is_skipped as [Hd Hs].
  split.
  - destruct (Hd Examples.genes Examples.coords Examples.div 0
                (Examples.row "1" "60" "C" "G" ["1/1"; "0/0"; "./."])%string []
                EstDAF.init_state
                "1" "60" "." "C" ["G"; "."; "."; "."; "GT"; "1/1"; "0/0"; "./."]%string
                "1"%char "C"%char (mkSite 1 60 "A" "G")
                eq_refl eq_refl eq_refl eq_refl eq_refl eq_refl eq_refl
                ltac:(discriminate))
      as (st' & L & E & (O & _ & D & A & S') & _).
    exists st'. split; [exact L|]. split; [exact E|].
    split; [rewrite O; reflexivity|]. split; [rewrite D; reflexivity|].
    split; [rewrite A; reflexivity|rewrite S'; reflexivity].
  - destruct (Hs (fun _ => 0) Examples.sites Examples.div 0
                (Examples.row "1" "60" "C" "G" ["1/1"; "0/0"; "./."])%string []
                MakeDFE.init_state
                "1" "60" "." "C" ["G"; "."; "."; "."; "GT"; "1/1"; "0/0"; "./."]%string
                "1"%char "C"%char (mkSite 1 60 "A" "G")
                eq_refl eq_refl eq_refl eq_refl eq_refl eq_refl eq_refl
                ltac:(discriminate))
      as (st' & L & E & _).
    exists st'. split; [exact L|exact E].
Defined.

Lemma C7_witness :
  EstDAF.readCoord_line
    (Examples.tsv ["[S1]"; "[E1]"; "[S2]"; "[E2]"; "[LEN 1]"; "[LEN 2]";
                   "[% IDY]"; "[TAGS]"])%string = Some None /\
  EstDAF.readDiv_line
    (Examples.tsv ["60"; "A"; "G"; "61"; "5"; "60"; "1"; "-1"; "1"; "q1"])%string
  = Some (Some (mkSite 1 60 "A" "G")) /\
  (exists tbl,
     EstDAF.readGenes [Examples.tsv ["gene"; "chr"; "start"; "end"];
                       Examples.tsv ["g1"; "1"; "1"; "100"]]%string = Some tbl /\
     List.length tbl = 2%nat).
Proof.
  destruct C7_lines_passed_over as (Hc & Hd & Hg).
  split; [|split].
  - apply (Hc (Examples.tsv ["[S1]"; "[E1]"; "[S2]"; "[E2]"; "[LEN 1]"; "[LEN 2]";
                             "[% IDY]"; "[TAGS]"])%string
              "[S1]" "[E1]" "[TAGS]" "["%char eq_refl eq_refl eq_refl eq_refl)%string.
    reflexivity.
  - apply (Hd (Examples.tsv ["60"; "A"; "G"; "61"; "5"; "60"; "1"; "-1"; "1"; "q1"])%string
              "60" "A" "G" "1" "A"%char "G"%char "1"%char
              eq_refl eq_refl eq_refl eq_refl eq_refl eq_refl eq_refl)%string.
    reflexivity.
  - apply Hg. repeat constructor.
Defined.


Lemma C10_witness :
  (exists st',
     EstDAF.vcf_line Examples.genes Examples.coords [] 0
       (Examples.row "1" "50" "T" "A" ["1/1"; "0/0"; "./."])%string
       EstDAF.init_state = Some st' /\
     EstDAF.s_i st' = 1) /\
  (exists st',
     MakeDFE.vcf_line (fun _ => 0) Examples.sites [] 0
       (Examples.row "1" "50" "T" "A" ["1/1"; "0/0"; "./."])%string
       (MakeDFE.header (fun _ => 0)
          (strtok_all (lineTerminator Examples.names)) MakeDFE.init_state)
     = Some st' /\
     MakeDFE.si st' = 1).
Proof.
  destruct C10_class_zero_skips_only_the_filter as [Hd Hs].
  split.
  - destruct (Hd Examples.genes Examples.coords [] 
                (Examples.row "1" "50" "T" "A" ["1/1"; "0/0"; "./."])%string
                EstDAF.init_state
                "1" "50" "." "T" "A" ["."; "."; "."; "GT"; "1/1"; "0/0"; "./."]%string
                "1"%char "T"%char "A"%char
                eq_refl eq_refl eq_refl eq_refl eq_refl eq_refl eq_refl
                ltac:(discriminate))
      as (st' & L & E).
    exists st'. split; [exact L|exact E].
  - assert (C : sfs_consistent
                  (MakeDFE.header (fun _ => 0)
                     (strtok_all (lineTerminator Examples.names)) MakeDFE.init_state)).
    { exists [0; 0; 0], [0; 0; 0; 0].
      repeat split; try reflexivity; vm_compute; discriminate. }
    destruct (Hs (fun _ => 0) Examples.sites [] 
                (Examples.row "1" "50" "T" "A" ["1/1"; "0/0"; "./."])%string
                (MakeDFE.header (fun _ => 0)
                   (strtok_all (lineTerminator Examples.names)) MakeDFE.init_state)
                "1" "50" "." "T" "A" ["."; "."; "."; "GT"; "1/1"; "0/0"; "./."]%string
                "1"%char "T"%char "A"%char
                eq_refl eq_refl eq_refl eq_refl eq_refl C
                ltac:(vm_compute; lia) eq_refl eq_refl
                ltac:(discriminate))
      as (st' & L & E).
    exists st'. split; [exact L|exact E].
Defined.


Lemma covered_sites_witness :
  Forall (fun x =>
    in_block [MakeDFE.mkRegion 1 1 1000] x = true /\
    ([MakeDFE.mkRegion 1 40 60] <> [] ->
     in_block [MakeDFE.mkRegion 1 40 60] x = true) /\
    In x (site_rows [Examples.tsv ["chr"; "pos"]; Examples.tsv ["1"; "50"];
                     Examples.tsv ["1"; "70"]]))
    [(1, 50)].
Proof.
  apply (readSites_keeps_only_covered_sites
           [MakeDFE.mkRegion 1 1 1000] [MakeDFE.mkRegion 1 40 60]
           [Examples.tsv ["chr"; "pos"]; Examples.tsv ["1"; "50"];
            Examples.tsv ["1"; "70"]] [(1, 50)]).
  reflexivity.
Defined.

Lemma sites_filter_witness :
  [(1, 50); (2, 7)] =
  filter (in_block [MakeDFE.mkRegion 1 1 100; MakeDFE.mkRegion 2 5 9])
    (site_rows [Examples.tsv ["1"; "50"]; Examples.tsv ["1"; "150"];
                Examples.tsv ["2"; "7"]]).
Proof.
  apply (readSites_without_regions_is_filter
           [MakeDFE.mkRegion 1 1 100; MakeDFE.mkRegion 2 5 9]
           [Examples.tsv ["1"; "50"]; Examples.tsv ["1"; "150"];
            Examples.tsv ["2"; "7"]] [(1, 50); (2, 7)]).
  - unfold sorted_blocks, sorted, key_le. repeat constructor; simpl; lia.
  - assert (E : site_rows [Examples.tsv ["1"; "50"]; Examples.tsv ["1"; "150"];
                            Examples.tsv ["2"; "7"]] = [(1, 50); (1, 150); (2, 7)])
      by reflexivity.
    rewrite E. unfold sorted_sites, sorted, key_le.
    repeat constructor; simpl; lia.
  - reflexivity.
Defined.

Lemma region_miss_witness :
  exists l2,
    [] = (MakeDFE.ss_list (MakeDFE.mkSites 0 0 []) ++ l2)%list /\
    Forall (fun x =>
      in_block (skipn (S (MakeDFE.ss_coord_i (MakeDFE.mkSites 0 0 [])))
                  [MakeDFE.mkRegion 1 1 1000]) x = true) l2.
Proof.
  apply (readSites_region_miss_leaves_block
           [MakeDFE.mkRegion 1 1 1000] [MakeDFE.mkRegion 1 500 600]
           [] [Examples.tsv ["1"; "550"]] (Examples.tsv ["1"; "100"])
           (MakeDFE.mkSites 0 0 []) (MakeDFE.mkRegion 1 1 1000) 1 100 []).
  - discriminate.
  - reflexivity.
  - reflexivity.
  - reflexivity.
  - reflexivity.
  - reflexivity.
  - reflexivity.
Defined.

Lemma records_on_sites_witness :
  exists l0,
    EstDAF.readDiv
      [Examples.tsv ["60"; "A"; "G"; "61"; "5"; "60"; "1"; "-1"; "1"; "q1"];
       Examples.tsv ["70"; "C"; "T"; "71"; "5"; "60"; "1"; "-1"; "1"; "q1"]]
    = Some l0 /\
    Forall (fun d => on_site Examples.sites d = true /\ In d l0)
      [mkSite 1 60 "A" "G"] /\
    (sorted_sites Examples.sites -> sorted_div l0 ->
     [mkSite 1 60 "A" "G"] = filter (on_site Examples.sites) l0).
Proof.
  apply (readDiv_keeps_records_on_sites Examples.sites
           [Examples.tsv ["60"; "A"; "G"; "61"; "5"; "60"; "1"; "-1"; "1"; "q1"];
            Examples.tsv ["70"; "C"; "T"; "71"; "5"; "60"; "1"; "-1"; "1"; "q1"]]
           [mkSite 1 60 "A" "G"]).
  reflexivity.
Defined.

Lemma blank_line_witness :
  EstDAF.readGenes
    ([Examples.tsv ["g1"; "1"; "1"; "100"]] ++
     String LF EmptyString :: [Examples.tsv ["g2"; "1"; "200"; "300"]])%list
  = None /\
  MakeDFE.readSites [MakeDFE.mkRegion 1 1 1000] []
    ([Examples.tsv ["1"; "50"]] ++
     String LF EmptyString :: [Examples.tsv ["1"; "60"]])%list =
  MakeDFE.readSites [MakeDFE.mkRegion 1 1 1000] []
    ([Examples.tsv ["1"; "50"]] ++ [Examples.tsv ["1"; "60"]])%list.
Proof.
  destruct (blank_line_is_fatal_except_in_site_list (String LF EmptyString)
              eq_refl) as (_ & _ & G & _ & _ & _ & _ & _ & S).
  split; [apply G|apply S].
Defined.

Lemma passed_over_witness :
  EstDAF.readVcf Examples.genes Examples.coords Examples.div 1
    ["##fileformat=VCFv4.2"; Examples.names;
     Examples.row "1" "50" "A" "G" ["1/1"; "0/0"; "./."]] =
  EstDAF.readVcf Examples.genes Examples.coords Examples.div 1
    (filter begins_with_digit
       ["##fileformat=VCFv4.2"; Examples.names;
        Examples.row "1" "50" "A" "G" ["1/1"; "0/0"; "./."]]).
Proof.
  apply (proj1 lines_without_leading_digit_are_passed_over).
  reflexivity.
Defined.

Lemma output_shape_witness :
  exists st,
    EstDAF.readVcf Examples.genes Examples.coords Examples.div 0
      [Examples.names;
       Examples.row "1" "50" "A" "G" ["1/1"; "0/0"; "./."];
       Examples.row "1" "250" "T" "C" ["1/1"; "1/1"; "0/0"]] = Some st /\
    daf_output_shape Examples.genes st.
Proof.
  destruct (EstDAF.readVcf Examples.genes Examples.coords Examples.div 0
      [Examples.names;
       Examples.row "1" "50" "A" "G" ["1/1"; "0/0"; "./."];
       Examples.row "1" "250" "T" "C" ["1/1"; "1/1"; "0/0"]]) as [st|] eqn:E;
    [|vm_compute in E; discriminate E].
  exists st. split; [reflexivity|].
  apply (estDAF_prints_header_then_rows_of_known_genes _ _ _ _ _ _ E).
Defined.

Lemma outside_tables_witness :
  exists st',
    EstDAF.vcf_line Examples.genes Examples.coords Examples.div 1
      (Examples.row "1" "150" "A" "G" ["1/1"; "0/0"; "./."])
      EstDAF.init_state = Some st' /\
    EstDAF.s_i st' = EstDAF.s_i EstDAF.init_state.
Proof.
  destruct (proj1 variant_outside_the_tables_is_not_counted
              Examples.genes Examples.coords Examples.div 1
              (Examples.row "1" "150" "A" "G" ["1/1"; "0/0"; "./."])
              EstDAF.init_state "1" "150"
              ["."; "A"; "G"; "."; "."; "."; "GT"; "1/1"; "0/0"; "./."]
              "1"%char eq_refl eq_refl eq_refl eq_refl)
    as (st' & L & _ & _ & _ & _ & _ & S).
  exists st'. split; [exact L|exact S].
Defined.

Lemma no_names_witness :
  MakeDFE.readVcf (fun _ => 0) Examples.sites Examples.div 0
    ["##fileformat=VCFv4.2";
     Examples.row "1" "50" "A" "G" ["1/1"; "0/0"; "./."]] = None.
Proof.
  apply makeDFE_without_names_line_is_undefined. reflexivity.
Defined.

Lemma one_class_witness :
  (exists gc, 1 <= gc <= 4 /\ EstDAF.classify gc false "A" "G" = true /\
     forall gc', 1 <= gc' <= 4 -> EstDAF.classify gc' false "A" "G" = true ->
                 gc' = gc) /\
  (exists gc, 1 <= gc <= 4 /\ MakeDFE.classify gc false "A" "G" = true /\
     forall gc', 1 <= gc' <= 4 -> MakeDFE.classify gc' false "A" "G" = true ->
                 gc' = gc).
Proof.
  apply every_substitution_is_in_one_class_of_four;
    [reflexivity|reflexivity|discriminate].
Defined.

Lemma terminated_witness :
  Files.readGenes false (Examples.tsv ["g1"; "1"; "1"; "100"]) =
  option_map Files.Done
    (EstDAF.readGenes (Files.file_lines (Examples.tsv ["g1"; "1"; "1"; "100"]))).
Proof.
  exact (proj1 (terminated_file_is_loaded_within_its_table false
                  (Examples.tsv ["g1"; "1"; "1"; "100"]) eq_refl)).
Defined.

Lemma unterminated_witness :
  Files.readGenes false
    (Examples.tsv ["g1"; "1"; "1"; "100"] ++ "g2" ++ String TAB "1" ++
     String TAB "200" ++ String TAB "300")
  <> Some (Files.Done [EstDAF.mkRegion 1 1 100 "g1";
                       EstDAF.mkRegion 1 200 300 "g2"]).
Proof.
  apply (proj1 (table_of_every_line_needs_the_last_line_feed false
                  (Examples.tsv ["g1"; "1"; "1"; "100"] ++ "g2" ++ String TAB "1" ++
                   String TAB "200" ++ String TAB "300") eq_refl)).
Defined.

Lemma run_witness :
  exists log st,
    Cli.daf_openFiles false Samples.files Samples.argv =
      Some (log, Files.Done st) /\
    In "-genes" (tl Samples.argv) /\ In "-coord" (tl Samples.argv) /\
    In "-div" (tl Samples.argv) /\ In "-vcf" (tl Samples.argv).
Proof.
  destruct (Cli.daf_openFiles false Samples.files Samples.argv)
    as [[log [st|]]|] eqn:E;
    [|vm_compute in E; discriminate E|vm_compute in E; discriminate E].
  exists log, st. split; [reflexivity|].
  destruct (proj1 run_needs_its_files_and_a_class_in_range
              false Samples.files Samples.argv log st E) as (G & C & D & V & _).
  split; [exact G|]. split; [exact C|]. split; [exact D|exact V].
Defined.

Lemma readable_witness :
  exists st,
    EstDAF.readVcf Examples.genes Examples.coords Examples.div 2
      [Examples.names;
       Examples.row "1" "50" "A" "G" ["1/1"; "0/0"; "./."];
       Examples.row "1" "60" "C" "G" ["1/1"; "0/0"; "./."]] = Some st.
Proof.
  apply estDAF_reads_every_readable_file. reflexivity.
Defined.

Lemma examples_data_sorted :
  sorted_sites
    (map line_key
       [Examples.row "1" "50" "A" "G" ["1/1"; "0/0"; "./."];
        Examples.row "1" "60" "C" "G" ["1/1"; "0/0"; "0/0"];
        Examples.row "1" "150" "T" "C" ["1/1"; "1/1"; "0/0"];
        Examples.row "1" "250" "T" "C" ["1/1"; "1/1"; "0/0"]]).
Proof.
  assert (E : map line_key
       [Examples.row "1" "50" "A" "G" ["1/1"; "0/0"; "./."];
        Examples.row "1" "60" "C" "G" ["1/1"; "0/0"; "0/0"];
        Examples.row "1" "150" "T" "C" ["1/1"; "1/1"; "0/0"];
        Examples.row "1" "250" "T" "C" ["1/1"; "1/1"; "0/0"]] =
       [(1, 50); (1, 60); (1, 150); (1, 250)]) by reflexivity.
  rewrite E. unfold sorted_sites, sorted, key_le.
  repeat constructor; simpl; lia.
Defined.


Lemma whatever_malloc_left_witness :
  MakeDFE.readVcf (fun _ => 0) Examples.sites Examples.div 1
    (["##fileformat=VCFv4.2"] ++
     Examples.names ::
     [Examples.row "1" "50" "A" "G" ["1/1"; "0/0"; "./."];
      Examples.row "1" "250" "T" "C" ["1/1"; "1/1"; "0/0"]])%list =
  MakeDFE.readVcf (fun _ => 7) Examples.sites Examples.div 1
    (["##fileformat=VCFv4.2"] ++
     Examples.names ::
     [Examples.row "1" "50" "A" "G" ["1/1"; "0/0"; "./."];
      Examples.row "1" "250" "T" "C" ["1/1"; "1/1"; "0/0"]])%list.
Proof.
  apply full_file_is_read_alike_whatever_malloc_left; reflexivity.
Defined.

Lemma daf_class_zero_witness :
  exists st,
    EstDAF.readVcf Examples.genes Examples.coords Examples.div 0
      [Examples.names;
       Examples.row "1" "50" "A" "G" ["1/1"; "0/0"; "./."];
       Examples.row "1" "60" "C" "G" ["1/1"; "0/0"; "0/0"];
       Examples.row "1" "150" "T" "C" ["1/1"; "1/1"; "0/0"];
       Examples.row "1" "250" "T" "C" ["1/1"; "1/1"; "0/0"]] = Some st /\
    daf_total st = 2.
Proof.
  destruct examples_sorted as (Sg & Sc & Sd & _).
  destruct (estDAF_class_zero_counts_the_lines_in_genes_and_blocks
              Examples.genes Examples.coords Examples.div
              [Examples.names;
               Examples.row "1" "50" "A" "G" ["1/1"; "0/0"; "./."];
               Examples.row "1" "60" "C" "G" ["1/1"; "0/0"; "0/0"];
               Examples.row "1" "150" "T" "C" ["1/1"; "1/1"; "0/0"];
               Examples.row "1" "250" "T" "C" ["1/1"; "1/1"; "0/0"]]
              Sg Sc Sd eq_refl examples_data_sorted)
    as (st & R & Tot).
  exists st. split; [exact R|]. rewrite Tot. reflexivity.
Defined.
